(** * Text analyzer and web scraper: a shallow embedding and its properties

    The development follows the two source files:
    - [text_analyzer.py]: class [TextAnalyzer] ([analyze_text],
      [_analyze_themes], [_analyze_language_patterns], [search_content]);
    - [web_scraper.py]: class [WebScraper] ([get_website_text_content],
      [get_text_preview], [save_text_to_file], [scrape_list_items],
      [get_website_metadata]).

    Python values are modelled as follows.  A [str] is a [string]; [len]
    yields a [Z]; a number is an [int] ([Z]) or a [float] (IEEE binary64,
    the kernel's primitive floats); a [dict] is an association list in
    insertion order; an operation that may raise returns an [Outcome].
    A character of a [str] is a code point; the characters here are the
    code points below 256 (Basic Latin and Latin-1), and on them the
    classification of characters (case, alphanumeric, blank, word
    character) is that of [str] and of [re] on [str] patterns. *)

From Stdlib Require Import ZArith List String Ascii Bool Lia Floats.
From Stdlib Require Import Sorting.Sorted Sorting.Permutation DecimalString.
Import ListNotations.

Open Scope string_scope.
Open Scope Z_scope.

(** ** Python builtins *)

Module Py.

(** An exception caught by [except Exception]: its class name and [str(e)]. *)
Record Exn := Exception { exn_class : string; str_exn : string }.

(** The result of evaluating an expression: a value or a raised exception. *)
Inductive Outcome (A : Type) : Type :=
| Ret (a : A)
| Raise (e : Exn).
Arguments Ret {A} a.
Arguments Raise {A} e.

Definition bind {A B} (m : Outcome A) (k : A -> Outcome B) : Outcome B :=
  match m with
  | Ret a => k a
  | Raise e => Raise e
  end.

(** [try: body  except Exception as e: handler e]. *)
Definition try_except {A} (body : Outcome A) (handler : Exn -> Outcome A) : Outcome A :=
  match body with
  | Ret a => Ret a
  | Raise e => handler e
  end.

Fixpoint mapM {A B} (f : A -> Outcome B) (l : list A) : Outcome (list B) :=
  match l with
  | [] => Ret []
  | x :: xs => bind (f x) (fun y => bind (mapM f xs) (fun ys => Ret (y :: ys)))
  end.

Definition returns {A} (m : Outcome A) : Prop := exists a, m = Ret a.

(** *** Numbers *)

Inductive Num := PInt (z : Z) | PFloat (f : float).

(** [float(z)]; exact below 2^53, which covers every count and length here. *)
Definition float_of_int (z : Z) : float :=
  if z <? 0 then PrimFloat.opp (PrimFloat.of_uint63 (Uint63.of_Z (- z)))
  else PrimFloat.of_uint63 (Uint63.of_Z z).

(** [a / b] on two ints: true division, [ZeroDivisionError] on [b = 0]. *)
Definition truediv (a b : Z) : Outcome Num :=
  if b =? 0 then Raise (Exception "ZeroDivisionError" "division by zero")
  else Ret (PFloat (PrimFloat.div (float_of_int a) (float_of_int b))).

Definition add (x y : Num) : Num :=
  match x, y with
  | PInt a, PInt b => PInt (a + b)
  | PInt a, PFloat g => PFloat (PrimFloat.add (float_of_int a) g)
  | PFloat f, PInt b => PFloat (PrimFloat.add f (float_of_int b))
  | PFloat f, PFloat g => PFloat (PrimFloat.add f g)
  end.

(** [sum(xs)]: a left fold from the int [0]. *)
Definition sum (xs : list Num) : Num := fold_left add xs (PInt 0).

Definition sum_int (xs : list Z) : Z := fold_left Z.add xs 0.

(** The exact comparison [z < f] and [f < z] of an int with a float, read
    off the float's sign, mantissa and exponent. *)
Definition int_lt_float (z : Z) (f : float) : bool :=
  match Prim2SF f with
  | S754_zero _ => z <? 0
  | S754_infinity s => negb s
  | S754_nan => false
  | S754_finite s m e =>
      let v := if s then Z.neg m else Z.pos m in
      if 0 <=? e then z <? v * 2 ^ e else z * 2 ^ (- e) <? v
  end.

Definition float_lt_int (f : float) (z : Z) : bool :=
  match Prim2SF f with
  | S754_zero _ => 0 <? z
  | S754_infinity s => s
  | S754_nan => false
  | S754_finite s m e =>
      let v := if s then Z.neg m else Z.pos m in
      if 0 <=? e then v * 2 ^ e <? z else v <? z * 2 ^ (- e)
  end.

(** [x < y] and [x > y]. *)
Definition lt (x y : Num) : bool :=
  match x, y with
  | PInt a, PInt b => a <? b
  | PInt a, PFloat g => int_lt_float a g
  | PFloat f, PInt b => float_lt_int f b
  | PFloat f, PFloat g => PrimFloat.ltb f g
  end.

Definition gt (x y : Num) : bool := lt y x.

(** *** Strings *)

Definition len (s : string) : Z := Z.of_nat (String.length s).

(** Truth value of a [str]: non-empty. *)
Definition truthy (s : string) : bool :=
  match s with
  | EmptyString => false
  | String _ _ => true
  end.

(** Truth value of an [Optional[str]]: neither [None] nor empty. *)
Definition truthy_opt (o : option string) : bool :=
  match o with
  | None => false
  | Some s => truthy s
  end.

(** A slice bound [i] as [s[i:]] and [s[:i]] read it: counted from the end
    when negative, then clipped to [0 .. len]. *)
Definition clip_index (n i : Z) : Z :=
  if i <? 0 then Z.max 0 (i + n) else Z.min i n.

(** [s[start:stop]]. *)
Definition slice (s : string) (start stop : Z) : string :=
  let lo := clip_index (len s) start in
  let hi := clip_index (len s) stop in
  substring (Z.to_nat lo) (Z.to_nat (hi - lo)) s.

(** [s[:stop]]. *)
Definition slice_to (s : string) (stop : Z) : string := slice s 0 stop.

(** [str(z)] for an int. *)
Definition str_int (z : Z) : string := NilZero.string_of_int (Z.to_int z).

(** [lo <= n <= hi]. *)
Definition between (lo hi n : nat) : bool := (lo <=? n)%nat && (n <=? hi)%nat.

(** The capital letters, the characters [str.lower] changes: [A]..[Z],
    U+00C0..U+00D6 and U+00D8..U+00DE. *)
Definition is_upper (c : ascii) : bool :=
  let n := nat_of_ascii c in between 65 90 n || between 192 214 n || between 216 222 n.

(** [c.isalpha()]: the letters [A]..[Z] and [a]..[z], the ordinal
    indicators U+00AA and U+00BA, the micro sign U+00B5, and the letters
    U+00C0..U+00FF but the signs U+00D7 and U+00F7. *)
Definition is_alpha (c : ascii) : bool :=
  let n := nat_of_ascii c in
  between 65 90 n || between 97 122 n
  || Nat.eqb n 170 || Nat.eqb n 181 || Nat.eqb n 186
  || between 192 214 n || between 216 246 n || between 248 255 n.

(** [c.isnumeric()]: the digits [0]..[9], the superscripts U+00B2, U+00B3
    and U+00B9, and the fractions U+00BC..U+00BE. *)
Definition is_numeric (c : ascii) : bool :=
  let n := nat_of_ascii c in
  between 48 57 n || between 178 179 n || Nat.eqb n 185 || between 188 190 n.

(** [c.isalnum()]. *)
Definition is_alnum (c : ascii) : bool := is_alpha c || is_numeric c.

(** [c.isspace()], which is also the blank of [str.strip], of [str.split]
    and of [\s]: tab, line feed, vertical tab, form feed, carriage return,
    the four separators 28..31, the space, the next line U+0085 and the
    no-break space U+00A0. *)
Definition is_space (c : ascii) : bool :=
  let n := nat_of_ascii c in
  between 9 13 n || between 28 32 n || Nat.eqb n 133 || Nat.eqb n 160.

(** [c.lower()]: a capital letter moves 32 code points up. *)
Definition lower_char (c : ascii) : ascii :=
  if is_upper c then ascii_of_nat (nat_of_ascii c + 32) else c.

(** [s.lower()]. *)
Fixpoint lower (s : string) : string :=
  match s with
  | EmptyString => EmptyString
  | String c s' => String (lower_char c) (lower s')
  end.

Fixpoint all_chars (p : ascii -> bool) (s : string) : bool :=
  match s with
  | EmptyString => true
  | String c s' => p c && all_chars p s'
  end.

(** [chr(code)] for a code below 256: the string of that one character.
    Characters beyond Basic Latin are written so: [chr 233] is U+00E9. *)
Definition chr (code : nat) : string := String (ascii_of_nat code) EmptyString.

(** [s.isalnum()]: at least one character, all of them alphanumeric. *)
Definition isalnum (s : string) : bool := truthy s && all_chars is_alnum s.

(** [sub in s]: [sub] occurs in [s] as a contiguous run of characters. *)
Fixpoint contains (sub s : string) : bool :=
  if prefix sub s then true
  else match s with
       | EmptyString => false
       | String _ s' => contains sub s'
       end.

(** [s.split()]: the maximal runs of non-blank characters, in order.  [cur]
    is the run being read. *)
Fixpoint split_from (cur s : string) : list string :=
  match s with
  | EmptyString => if truthy cur then [cur] else []
  | String c s' =>
      if is_space c
      then (if truthy cur then cur :: split_from EmptyString s' else split_from EmptyString s')
      else split_from (cur ++ String c EmptyString) s'
  end.

Definition split (s : string) : list string := split_from EmptyString s.

(** [s.strip()]. *)
Fixpoint lstrip (s : string) : string :=
  match s with
  | EmptyString => EmptyString
  | String c s' => if is_space c then lstrip s' else s
  end.

Fixpoint rstrip (s : string) : string :=
  match s with
  | EmptyString => EmptyString
  | String c s' =>
      match rstrip s' with
      | EmptyString => if is_space c then EmptyString else String c EmptyString
      | r => String c r
      end
  end.

Definition strip (s : string) : string := rstrip (lstrip s).

(** *** Dictionaries, in insertion order *)

Definition dict (V : Type) := list (string * V).

(** [d[k] = v]: the value is replaced where the key stands, or the pair is
    added at the end. *)
Fixpoint dict_set {V} (d : dict V) (k : string) (v : V) : dict V :=
  match d with
  | [] => [(k, v)]
  | (k', v') :: d' => if String.eqb k' k then (k', v) :: d' else (k', v') :: dict_set d' k v
  end.

Fixpoint dict_get {V} (d : dict V) (k : string) : option V :=
  match d with
  | [] => None
  | (k', v') :: d' => if String.eqb k' k then Some v' else dict_get d' k
  end.

Definition keys {V} (d : dict V) : list string := map fst d.
Definition values {V} (d : dict V) : list V := map snd d.

(** [dict(pairs)]. *)
Definition dict_of_pairs {V} (pairs : list (string * V)) : dict V :=
  fold_left (fun d kv => dict_set d (fst kv) (snd kv)) pairs [].

(** [k in s] for a set of strings. *)
Definition mem (k : string) (s : list string) : bool :=
  existsb (String.eqb k) s.

(** [len(set(xs))]. *)
Definition count_distinct (xs : list string) : Z :=
  Z.of_nat (List.length (nodup string_dec xs)).

End Py.

Declare Scope py_scope.
Delimit Scope py_scope with py.
Notation "x <- m ;; k" := (Py.bind m (fun x => k))
  (at level 100, m at next level, right associativity) : py_scope.

(** ** The regular expressions the analyzer uses

    [re.finditer] and [re.findall] scan the text from left to right: at each
    position the pattern is tried; a match is reported and the scan resumes at
    its end, otherwise it moves one character on.  A pattern is given by what
    it matches at a position: it sees the character before the position (for
    [\b]) and the rest of the text, and answers with the length of its match.
    None of the four patterns below matches the empty string. *)

Module Re.

Definition Pattern := option ascii -> string -> option nat.

Record Match := mkMatch { m_start : nat; m_group : string }.

Definition m_end (m : Match) : nat := (m_start m + String.length (m_group m))%nat.

(** [scan p prev s pos skip]: the matches of [p] in [s], which starts at
    offset [pos] of the text and follows the character [prev]; the first
    [skip] characters belong to the match reported last. *)
Fixpoint scan (p : Pattern) (prev : option ascii) (s : string) (pos skip : nat) : list Match :=
  match s with
  | EmptyString => []
  | String c s' =>
      match skip with
      | S k => scan p (Some c) s' (S pos) k
      | O =>
          match p prev s with
          | Some n => mkMatch pos (substring 0 n s) :: scan p (Some c) s' (S pos) (Nat.pred n)
          | None => scan p (Some c) s' (S pos) 0
          end
      end
  end.

Definition finditer (p : Pattern) (text : string) : list Match := scan p None text 0 0.

(** [re.findall] of a pattern without groups: the matched strings. *)
Definition findall (p : Pattern) (text : string) : list string :=
  map m_group (finditer p text).

(** A single literal character, as in [r'\?'] and [r'!']. *)
Definition literal_char (c : ascii) : Pattern :=
  fun _ s =>
    match s with
    | String c' _ => if Ascii.eqb c' c then Some 1%nat else None
    | EmptyString => None
    end.

Fixpoint run_length (cls : ascii -> bool) (s : string) : nat :=
  match s with
  | String c s' => if cls c then S (run_length cls s') else O
  | EmptyString => O
  end.

(** [[...]+]: the longest non-empty run of characters of a class. *)
Definition class_plus (cls : ascii -> bool) : Pattern :=
  fun _ s =>
    match run_length cls s with
    | O => None
    | n => Some n
    end.

Definition is_terminator (c : ascii) : bool :=
  Ascii.eqb c "." || Ascii.eqb c "!" || Ascii.eqb c "?".

Definition newline : ascii := ascii_of_nat 10.

(** The length of the longest prefix of the blank run at the head of [s]
    that ends in a line feed: what [\s*\n] matches, [\s*] being greedy. *)
Fixpoint blanks_then_newline (s : string) : option nat :=
  match s with
  | EmptyString => None
  | String c s' =>
      if Py.is_space c then
        match blanks_then_newline s' with
        | Some n => Some (S n)
        | None => if Ascii.eqb c newline then Some 1%nat else None
        end
      else None
  end.

(** [r'\n\s*\n']. *)
Definition blank_line : Pattern :=
  fun _ s =>
    match s with
    | String c s' =>
        if Ascii.eqb c newline then
          match blanks_then_newline s' with
          | Some n => Some (S n)
          | None => None
          end
        else None
    | EmptyString => None
    end.

(** [\w] of a [str] pattern: alphanumeric or underscore. *)
Definition is_word (c : ascii) : bool := Py.is_alnum c || Ascii.eqb c "_".

Definition is_word_opt (o : option ascii) : bool :=
  match o with
  | Some c => is_word c
  | None => false
  end.

(** [\b] between two neighbours, either of which may be missing at an end of
    the text: exactly one of them is a word character. *)
Definition boundary (before after : option ascii) : bool :=
  xorb (is_word_opt before) (is_word_opt after).

Definition head (s : string) : option ascii :=
  match s with
  | String c _ => Some c
  | EmptyString => None
  end.

(** Two characters equal under [re.IGNORECASE]: they have the same lower
    case. *)
Definition eqb_ignorecase (a b : ascii) : bool :=
  Ascii.eqb (Py.lower_char a) (Py.lower_char b).

(** [literal_then_boundary term prev s]: [s] starts with [term], letter case
    apart, and a [\b] follows; [prev] is the character before [s]. *)
Fixpoint literal_then_boundary (term : string) (prev : option ascii) (s : string) : bool :=
  match term with
  | EmptyString => boundary prev (head s)
  | String t term' =>
      match s with
      | String c s' => eqb_ignorecase t c && literal_then_boundary term' (Some c) s'
      | EmptyString => false
      end
  end.

(** [r'\b' + re.escape(term) + r'\b'] under [re.IGNORECASE]: escaping makes
    every character of [term] stand for itself. *)
Definition word (term : string) : Pattern :=
  fun prev s =>
    if boundary prev (head s) && literal_then_boundary term prev s
    then Some (String.length term)
    else None.

End Re.

(** ** [pathlib] paths, POSIX flavour *)

Module Pathlib.

Definition slash : ascii := "/"%char.

(** [s.split('/')]: the pieces between the slashes; [cur] is the piece
    being read. *)
Fixpoint split_slash (cur s : string) : list string :=
  match s with
  | EmptyString => [cur]
  | String c s' =>
      if Ascii.eqb c slash then cur :: split_slash EmptyString s'
      else split_slash (cur ++ String c EmptyString) s'
  end.

(** The root of a path: [//] when it starts with exactly two slashes, [/]
    when with one or with three or more, none otherwise. *)
Definition root (s : string) : string :=
  match s with
  | String c1 s1 =>
      if Ascii.eqb c1 slash then
        match s1 with
        | String c2 s2 =>
            if Ascii.eqb c2 slash then
              match s2 with
              | String c3 _ => if Ascii.eqb c3 slash then "/" else "//"
              | EmptyString => "//"
              end
            else "/"
        | EmptyString => "/"
        end
      else EmptyString
  | EmptyString => EmptyString
  end.

(** The components of a path: its pieces but the empty ones and the dots. *)
Definition parts (s : string) : list string :=
  filter (fun piece => negb (String.eqb piece "") && negb (String.eqb piece "."))
         (split_slash EmptyString s).

Definition format (r : string) (ps : list string) : string :=
  match r, ps with
  | EmptyString, [] => "."
  | _, _ => r ++ String.concat "/" ps
  end.

(** [str(PurePosixPath(s))]. *)
Definition str_path (s : string) : string := format (root s) (parts s).

(** [str(PurePosixPath(a) / b)]: a [b] with a root stands for itself. *)
Definition joinpath (a b : string) : string :=
  if Py.truthy (root b) then str_path b
  else format (root a) (parts a ++ parts b).

End Pathlib.

(** ** [text_analyzer.py] *)

Module TextAnalyzer.
Import Py.
Local Open Scope py_scope.

(** The object built by [__init__]: the stopword set and the theme table. *)
Record t := mk { stop_words : list string; themes : dict (list string) }.

Definition theme_table : dict (list string) :=
  [ ("community", ["community"; "social"; "shared"; "together"; "connect"; "interact"; "neighbors"]);
    ("convenience", ["convenient"; "easy"; "simple"; "quick"; "fast"; "efficient"; "hassle-free"]);
    ("location", ["location"; "area"; "neighborhood"; "district"; "zone"; "region"; "place"]);
    ("amenities", ["amenities"; "features"; "facilities"; "services"; "utilities"; "included"]);
    ("lifestyle", ["lifestyle"; "living"; "experience"; "quality"; "comfort"; "enjoy"; "relax"]);
    ("sustainability", ["sustainable"; "eco-friendly"; "green"; "environmental"; "energy"; "recycle"]) ].

(** [TextAnalyzer()], given the list [stopwords.words('english')]. *)
Definition init (english_stopwords : list string) : t :=
  {| stop_words := english_stopwords; themes := theme_table |}.

Record Statistics := mkStatistics {
  total_words : Z;
  unique_words : Z;
  average_word_length : Num }.

Record LanguagePatterns := mkPatterns {
  question_count : Z;
  exclamation_count : Z;
  sentence_count : Z;
  paragraph_count : Z;
  average_sentence_length : Num }.

(** What [analyze_text] returns: [{"error": ...}] or the four-field report. *)
Inductive AnalysisResult :=
| AnalysisError (error : string)
| Analysis (statistics : Statistics) (theme_scores : dict Num)
           (language_patterns : LanguagePatterns) (top_words : dict Z).

Record Context := mkContext { context : string; position : Z }.

(** What [search_content] returns: [{"error": ...}], [{"message": ...}] or
    [{"total_matches": ..., "contexts": ...}]. *)
Inductive SearchResult :=
| SearchError (error : string)
| SearchMessage (message : string)
| SearchMatches (total_matches : Z) (contexts : list Context).

(** *** [collections.Counter] *)

(** One step of [Counter(iterable)]: [self[elem] = self.get(elem, 0) + 1]. *)
Definition counter_add (d : dict Z) (elem : string) : dict Z :=
  dict_set d elem (match dict_get d elem with Some n => n | None => 0 end + 1).

Definition Counter (xs : list string) : dict Z := fold_left counter_add xs [].

(** [sorted(items, key=itemgetter(1), reverse=True)], a stable sort: an item
    goes after the items of a larger count and before the others. *)
Fixpoint insert_by_count (x : string * Z) (l : list (string * Z)) : list (string * Z) :=
  match l with
  | [] => [x]
  | y :: l' => if snd x <? snd y then y :: insert_by_count x l' else x :: l
  end.

Definition sorted_by_count (items : list (string * Z)) : list (string * Z) :=
  fold_right insert_by_count [] items.

(** [Counter.most_common(n)], that is [heapq.nlargest(n, items, key=itemgetter(1))],
    which the library documents as [sorted(items, key=..., reverse=True)[:n]]. *)
Definition most_common (n : nat) (c : dict Z) : list (string * Z) :=
  firstn n (sorted_by_count c).

Section Methods.

(** [nltk.tokenize.word_tokenize], which may raise. *)
Variable word_tokenize : string -> Outcome (list string).

Variable self : t.

(** [sum(1 for keyword in keywords if keyword in text)]. *)
Definition keyword_matches (keywords : list string) (text : string) : Z :=
  sum_int (map (fun _ => 1) (filter (fun keyword => contains keyword text) keywords)).

(** The loop of [_analyze_themes] over [self.themes.items()]. *)
Definition count_themes (table : dict (list string)) (text : string) : dict Z * Z :=
  fold_left
    (fun acc item =>
       let '(theme_scores, total_theme_matches) := acc in
       let '(theme, keywords) := item in
       let matches := keyword_matches keywords text in
       (dict_set theme_scores theme matches, total_theme_matches + matches))
    table ([], 0).

Definition _analyze_themes (text : string) : Outcome (dict Num) :=
  let '(theme_scores, total_theme_matches) := count_themes (themes self) text in
  if 0 <? total_theme_matches then
    mapM (fun item => let '(theme, score) := item in
                      s <- truediv score total_theme_matches ;; Ret (theme, s))
         theme_scores
  else Ret (map (fun item => let '(theme, score) := item in (theme, PInt score)) theme_scores).

Definition _analyze_language_patterns (text : string) : Outcome LanguagePatterns :=
  let question_count := Z.of_nat (List.length (Re.findall (Re.literal_char "?") text)) in
  let exclamation_count := Z.of_nat (List.length (Re.findall (Re.literal_char "!") text)) in
  let sentence_count := Z.of_nat (List.length (Re.findall (Re.class_plus Re.is_terminator) text)) in
  let paragraph_count := Z.of_nat (List.length (Re.findall Re.blank_line text)) + 1 in
  average_sentence_length <-
    (if 0 <? Z.of_nat (List.length (Re.findall (Re.class_plus Re.is_terminator) text))
     then truediv (Z.of_nat (List.length (split text)))
                  (Z.of_nat (List.length (Re.findall (Re.class_plus Re.is_terminator) text)))
     else Ret (PInt 0)) ;;
  Ret (mkPatterns question_count exclamation_count sentence_count paragraph_count
                  average_sentence_length).

(** The body of the [try] block of [analyze_text]. *)
Definition analyze_text_body (text : string) : Outcome AnalysisResult :=
  words <- word_tokenize (lower text) ;;
  let word_count := Z.of_nat (List.length words) in
  let unique_words := count_distinct words in
  let filtered_words :=
    filter (fun word => isalnum word && negb (mem word (stop_words self))) words in
  let word_freq := Counter filtered_words in
  theme_scores <- _analyze_themes (lower text) ;;
  patterns <- _analyze_language_patterns text ;;
  average_word_length <-
    (if 0 <? word_count then truediv (sum_int (map len words)) word_count else Ret (PInt 0)) ;;
  Ret (Analysis (mkStatistics word_count unique_words average_word_length)
                theme_scores patterns
                (dict_of_pairs (most_common 20 word_freq))).

Definition analyze_text (text : string) : Outcome AnalysisResult :=
  if negb (truthy text) then Ret (AnalysisError "No text provided for analysis")
  else try_except (analyze_text_body text)
         (fun e => Ret (AnalysisError ("Error analyzing text: " ++ str_exn e))).

(** The loop of [search_content] that appends one context per match. *)
Definition collect_contexts (text : string) (matches : list Re.Match) : list Context :=
  fold_left
    (fun contexts m =>
       let start := Z.max 0 (Z.of_nat (Re.m_start m) - 100) in
       let end_ := Z.min (len text) (Z.of_nat (Re.m_end m) + 100) in
       (contexts ++ [mkContext (slice text start end_) (Z.of_nat (Re.m_start m))])%list)
    matches [].

Definition search_content_body (text search_term : string) : Outcome SearchResult :=
  let matches := Re.finditer (Re.word search_term) text in
  match matches with
  | [] => Ret (SearchMessage ("No exact matches found for '" ++ search_term ++ "'"))
  | _ :: _ =>
      let contexts := collect_contexts text matches in
      Ret (SearchMatches (Z.of_nat (List.length matches)) contexts)
  end.

Definition search_content (text search_term : string) : Outcome SearchResult :=
  if negb (truthy text) || negb (truthy search_term)
  then Ret (SearchError "No text or search term provided")
  else try_except (search_content_body text search_term)
         (fun e => Ret (SearchError ("Error searching content: " ++ str_exn e))).

End Methods.

(** A tokenizer and a stopword list to run the analyzer on examples: the
    tokenizer splits at blanks, the list holds a few English stopwords. *)
Definition split_tokenize (text : string) : Outcome (list string) := Ret (split text).
Definition few_stopwords : list string := ["the"; "a"; "is"; "and"; "of"; "to"; "in"].

End TextAnalyzer.

(** ** [web_scraper.py] *)

Module WebScraper.
Import Py.

(** What a run of the scraper does to the outside world, in order: the log
    lines, the calls to the fetch and extraction library, the sleeps, the
    HTTP requests and the file system operations. *)
Inductive Event :=
| LogInfo (msg : string)
| LogWarning (msg : string)
| LogError (msg : string)
| FetchUrl (url : string)
| Extract (downloaded : string)
| ExtractMetadata (downloaded : string)
| Sleep (seconds : Z)
| HttpGet (url : string)
| Mkdir (path : string)
| WriteFile (path text : string).

Definition Trace := list Event.

(** A computation that may raise and that extends the trace either way. *)
Definition M (A : Type) := Trace -> Outcome A * Trace.

Definition ret {A} (a : A) : M A := fun tr => (Ret a, tr).

Definition bindM {A B} (m : M A) (k : A -> M B) : M B :=
  fun tr =>
    match m tr with
    | (Ret a, tr') => k a tr'
    | (Raise e, tr') => (Raise e, tr')
    end.

(** [try: body  except Exception as e: handler e]; what [body] did before it
    raised stays done. *)
Definition try_exceptM {A} (body : M A) (handler : Exn -> M A) : M A :=
  fun tr =>
    match body tr with
    | (Ret a, tr') => (Ret a, tr')
    | (Raise e, tr') => handler e tr'
    end.

(** An interaction: the event is recorded and the collaborator answers. *)
Definition call {A} (ev : Event) (answer : Outcome A) : M A :=
  fun tr => (answer, (tr ++ [ev])%list).

Definition emit (ev : Event) : M unit := call ev (Ret tt).

(** A computation that leaves no event. *)
Definition lift {A} (answer : Outcome A) : M A := fun tr => (answer, tr).

Definition is_fetch (ev : Event) : bool :=
  match ev with FetchUrl _ => true | _ => false end.

(** How many fetches the trace holds: the index of the next one. *)
Definition fetches (tr : Trace) : nat := List.length (filter is_fetch tr).

(** The durations of the sleeps of a trace, in order. *)
Fixpoint sleeps (tr : Trace) : list Z :=
  match tr with
  | [] => []
  | Sleep n :: tr' => n :: sleeps tr'
  | _ :: tr' => sleeps tr'
  end.

(** The attempts and the sleeps of a trace, in the order made. *)
Inductive Step :=
| Attempt
| Pause (seconds : Z).

Fixpoint schedule (tr : Trace) : list Step :=
  match tr with
  | [] => []
  | FetchUrl _ :: tr' => Attempt :: schedule tr'
  | Sleep n :: tr' => Pause n :: schedule tr'
  | _ :: tr' => schedule tr'
  end.

(** [range(n)]. *)
Definition range (n : Z) : list Z := map Z.of_nat (seq 0 (Z.to_nat n)).

Record Metadata := mkMetadata {
  md_title : option string;
  md_author : option string;
  md_date : option string;
  md_description : option string }.

Record Response := mkResponse { status_code : Z; response_text : string }.

Record Item := mkItem { name : string; source : string; url : string }.

Declare Scope scraper_scope.
Delimit Scope scraper_scope with scraper.
Notation "x <- m ;; k" := (bindM m (fun x => k))
  (at level 100, m at next level, right associativity) : scraper_scope.
Notation "m ;;; k" := (bindM m (fun _ => k))
  (at level 100, right associativity) : scraper_scope.
Local Open Scope scraper_scope.

Section Methods.

(** The fetch and extraction library.  Its answers may change from one
    attempt to the next: they are indexed by the number of fetches made
    before. *)
Variable fetch_url : nat -> string -> Outcome (option string).
Variable extract : nat -> string -> Outcome (option string).
Variable extract_metadata : string -> Outcome (option Metadata).

(** [requests.get] and the HTML parser: the elements of a parsed page, the
    containers [find_all] selects by tag and class, the [li] elements of a
    container, the elements a CSS selector matches, the text of an element. *)
Variable Element : Type.
Variable requests_get : string -> Outcome Response.
Variable find_list_containers : string -> Outcome (list Element).
Variable find_li : Element -> Outcome (list Element).
Variable select : string -> string -> Outcome (list Element).
Variable get_text : Element -> Outcome string.

(** The clock and the file system: [int(time.time())], [Path.mkdir],
    [open(path, "w")] followed by [write], and [Path / name] as a string. *)
Variable time_now : Z.
Variable mkdir : string -> Outcome unit.
Variable write_file : string -> string -> Outcome unit.
Variable path_join : string -> string -> string.

Definition trafilatura_fetch_url (url : string) : M (option string) :=
  fun tr => call (FetchUrl url) (fetch_url (fetches tr) url) tr.

(** The extraction belongs to the attempt of the last fetch. *)
Definition trafilatura_extract (downloaded : string) : M (option string) :=
  fun tr => call (Extract downloaded) (extract (Nat.pred (fetches tr)) downloaded) tr.

Definition or_empty (o : option string) : string :=
  match o with
  | Some s => s
  | None => EmptyString
  end.

(** One pass of the [try] block of [get_website_text_content]: [Some text]
    when the block returns [text], [None] when it falls through. *)
Definition attempt_once (url : string) (attempt : Z) : M (option string) :=
  try_exceptM
    (emit (LogInfo ("Starting to scrape URL: " ++ url)) ;;;
     downloaded <- trafilatura_fetch_url url ;;
     found <-
       (if truthy_opt downloaded then
          text <- trafilatura_extract (or_empty downloaded) ;;
          if truthy_opt text then ret text else ret None
        else ret None) ;;
     match found with
     | Some text => ret (Some text)
     | None =>
         emit (LogWarning ("Attempt " ++ str_int (attempt + 1)
                           ++ " failed: No content extracted from " ++ url)) ;;;
         ret None
     end)
    (fun e =>
       emit (LogWarning ("Attempt " ++ str_int (attempt + 1) ++ " failed: " ++ str_exn e)) ;;;
       ret None).

(** The [for attempt in ...] loop over the attempts still to make. *)
Fixpoint retry_loop (url : string) (max_retries : Z) (attempts : list Z) : M (option string) :=
  match attempts with
  | [] => ret None
  | attempt :: rest =>
      found <- attempt_once url attempt ;;
      match found with
      | Some text => ret (Some text)
      | None =>
          (if attempt <? max_retries - 1 then
             let wait_time := attempt + 1 in
             emit (LogInfo ("Retrying in " ++ str_int wait_time ++ " seconds...")) ;;;
             emit (Sleep wait_time)
           else ret tt) ;;;
          retry_loop url max_retries rest
      end
  end.

Definition get_website_text_content (url : string) (max_retries : Z) : M (option string) :=
  retry_loop url max_retries (range max_retries).

Definition get_text_preview (text : string) (max_length : Z) : string :=
  if negb (truthy text) then "No content available"
  else if max_length <? len text then slice_to text max_length ++ "..." else text.

Definition save_text_to_file (text : string) (filename : option string) : M string :=
  if negb (truthy text) then ret "No content to save"
  else
    let filename :=
      if truthy_opt filename then or_empty filename
      else "scraped_content_" ++ str_int time_now ++ ".txt" in
    let output_dir := "scraped_content" in
    call (Mkdir output_dir) (mkdir output_dir) ;;;
    let file_path := path_join output_dir filename in
    call (WriteFile file_path text) (write_file file_path text) ;;;
    ret file_path.

(** [response.raise_for_status()]: an [HTTPError] on a 4xx or 5xx status; the
    wording of its message is the library's and is not modelled. *)
Definition raise_for_status (r : Response) : Outcome unit :=
  if (400 <=? status_code r) && (status_code r <? 600)
  then Raise (Exception "HTTPError" ("HTTP status " ++ str_int (status_code r)))
  else Ret tt.

(** The inner loop of [scrape_list_items]: one item per element whose
    stripped text is not empty. *)
Fixpoint collect_items (url : string) (list_items : list Element) (items : list Item)
  : Outcome (list Item) :=
  match list_items with
  | [] => Ret items
  | item :: rest =>
      Py.bind (get_text item) (fun raw =>
        let item_text := strip raw in
        if truthy item_text
        then collect_items url rest (items ++ [mkItem item_text url url])%list
        else collect_items url rest items)
  end.

Fixpoint collect_containers (url : string) (list_containers : list Element) (items : list Item)
  : Outcome (list Item) :=
  match list_containers with
  | [] => Ret items
  | container :: rest =>
      Py.bind (find_li container) (fun list_items =>
      Py.bind (collect_items url list_items items) (fun items' =>
      collect_containers url rest items'))
  end.

Definition scrape_list_items (url : string) (list_selector : option string) : M (list Item) :=
  try_exceptM
    (response <- call (HttpGet url) (requests_get url) ;;
     lift (raise_for_status response) ;;;
     if negb (truthy_opt list_selector) then
       list_containers <- lift (find_list_containers (response_text response)) ;;
       lift (collect_containers url list_containers [])
     else
       list_items <- lift (select (response_text response) (or_empty list_selector)) ;;
       lift (collect_items url list_items []))
    (fun e => emit (LogError ("Error scraping list items: " ++ str_exn e)) ;;; ret []).

(** [metadata.title] and its siblings raise [AttributeError] on [None]. *)
Definition attributes (metadata : option Metadata) : Outcome Metadata :=
  match metadata with
  | Some m => Ret m
  | None => Raise (Exception "AttributeError"
                     "'NoneType' object has no attribute 'title'")
  end.

Definition get_website_metadata (url : string) : M (dict string) :=
  found <-
    try_exceptM
      (downloaded <- trafilatura_fetch_url url ;;
       if truthy_opt downloaded then
         metadata <- call (ExtractMetadata (or_empty downloaded))
                          (extract_metadata (or_empty downloaded)) ;;
         m <- lift (attributes metadata) ;;
         ret (Some [ ("title", or_empty (md_title m));
                     ("author", or_empty (md_author m));
                     ("date", or_empty (md_date m));
                     ("description", or_empty (md_description m)) ])
       else ret None)
      (fun e => emit (LogError ("Error getting metadata: " ++ str_exn e)) ;;; ret None) ;;
  match found with
  | Some d => ret d
  | None => ret []
  end.

End Methods.

End WebScraper.

(** * Properties *)

(** ** The builtins on examples *)

Section Examples.

Example strip_example : Py.strip "  Hello World 	" = "Hello World".
Proof. reflexivity. Qed.

Example split_example : Py.split " a  b	c " = ["a"; "b"; "c"].
Proof. reflexivity. Qed.

Example slice_examples :
  Py.slice_to "Hello World" 5 = "Hello" /\
  Py.slice "abcdef" 2 (-1) = "cde" /\
  Py.slice_to "abc" 10 = "abc" /\
  Py.slice "abcdef" 4 2 = "".
Proof. repeat split. Qed.

Example lower_example : Py.lower "HeLLo 123" = "hello 123".
Proof. reflexivity. Qed.

Example isalnum_examples :
  Py.isalnum "abc1" = true /\ Py.isalnum "ab-c" = false /\ Py.isalnum "" = false.
Proof. repeat split. Qed.

(** Latin-1 letters and blanks: U+00E9 is a letter and U+00C9 its capital,
    U+00D7 (the multiplication sign) is no letter, U+00A0 and U+0085 are
    blanks. *)
Example latin1_examples :
  Py.isalnum ("caf" ++ Py.chr 233) = true /\
  Py.isalnum (Py.chr 215) = false /\
  Py.lower ("CAF" ++ Py.chr 201) = "caf" ++ Py.chr 233 /\
  Py.strip (Py.chr 160 ++ " Beta" ++ Py.chr 133) = "Beta" /\
  Py.split ("a" ++ Py.chr 160 ++ "b.") = ["a"; "b."].
Proof. repeat split. Qed.

Example contains_examples :
  Py.contains "green" "greenhouse" = true /\ Py.contains "area" "a real" = false.
Proof. repeat split. Qed.

Example str_int_examples : Py.str_int 42 = "42" /\ Py.str_int 0 = "0".
Proof. repeat split. Qed.

Example terminators_example :
  Re.findall (Re.class_plus Re.is_terminator) "Hi!! Really?.. ok" = ["!!"; "?.."].
Proof. reflexivity. Qed.

Example blank_lines_example :
  Re.findall Re.blank_line "a

b
 

c
d" = ["

"; "
 

"].
Proof. reflexivity. Qed.

Example word_example :
  map Re.m_start (Re.finditer (Re.word "a-b") "a-b A-B-a-b xa-b a-b_") = [0; 4; 8]%nat.
Proof. reflexivity. Qed.

(** [caf] is no word of its own in [caf\u00e9 cat], and U+00E9 matches its
    capital U+00C9 under [re.IGNORECASE]. *)
Example word_latin1_examples :
  Re.finditer (Re.word "caf") ("caf" ++ Py.chr 233 ++ " cat") = [] /\
  map Re.m_start (Re.finditer (Re.word (Py.chr 233)) (Py.chr 201)) = [0%nat].
Proof. split; reflexivity. Qed.

Example most_common_example :
  TextAnalyzer.most_common 2 (TextAnalyzer.Counter ["b"; "a"; "b"; "c"; "a"; "d"])
  = [("b", 2); ("a", 2)].
Proof. reflexivity. Qed.

End Examples.

(** ** Strings and slices *)

Section StringFacts.

Lemma length_append (s1 s2 : string) :
  String.length (s1 ++ s2) = (String.length s1 + String.length s2)%nat.
Proof.
  induction s1 as [|c s1 IH]; simpl; [reflexivity | now rewrite IH].
Qed.

Lemma append_assoc (s1 s2 s3 : string) : (s1 ++ s2) ++ s3 = s1 ++ (s2 ++ s3).
Proof.
  induction s1 as [|c s1 IH]; simpl; [reflexivity | now rewrite IH].
Qed.

Lemma truthy_true_iff (s : string) : Py.truthy s = true <-> s <> EmptyString.
Proof.
  destruct s; simpl; split; intro H; try reflexivity; try discriminate.
  now contradiction H.
Qed.

(** A substring that fits splits the string in three. *)
Lemma substring_split (s : string) : forall n m : nat,
  (n + m <= String.length s)%nat ->
  exists pre post,
    s = pre ++ substring n m s ++ post /\
    String.length pre = n /\ String.length (substring n m s) = m.
Proof.
  induction s as [|c s IH]; intros n m Hfit; simpl in Hfit.
  - assert (n = 0%nat) by lia. assert (m = 0%nat) by lia. subst.
    exists EmptyString, EmptyString. now simpl.
  - destruct n as [|n].
    + destruct m as [|m].
      * exists EmptyString, (String c s). now simpl.
      * destruct (IH 0%nat m) as (pre & post & Hs & Hpre & Hlen); [simpl; lia|].
        destruct pre; [|discriminate]. simpl in Hs.
        exists EmptyString, post. simpl. rewrite <- Hs, Hlen. auto.
    + destruct (IH n m) as (pre & post & Hs & Hpre & Hlen); [lia|].
      exists (String c pre), post. simpl. rewrite <- Hs, Hpre. auto.
Qed.

(** A slice between two offsets of the text is the text between them. *)
Lemma slice_within (s : string) (lo hi : Z) :
  0 <= lo <= hi -> hi <= Py.len s ->
  exists pre post,
    s = pre ++ Py.slice s lo hi ++ post /\
    Py.len pre = lo /\ Py.len (Py.slice s lo hi) = hi - lo.
Proof.
  intros Hlo Hhi. unfold Py.slice, Py.clip_index, Py.len in *.
  destruct (lo <? 0) eqn:E1; [apply Z.ltb_lt in E1; lia|].
  destruct (hi <? 0) eqn:E2; [apply Z.ltb_lt in E2; lia|].
  rewrite !Z.min_l by lia.
  destruct (substring_split s (Z.to_nat lo) (Z.to_nat (hi - lo))) as (pre & post & Hs & Hpre & Hlen);
    [lia|].
  exists pre, post. rewrite Hpre, Hlen. repeat split; [exact Hs | lia | lia].
Qed.

End StringFacts.

(** ** [get_text_preview] *)

Section Preview.
Import WebScraper.

(** [p] is the first [n] characters of [text]. *)
Definition first_chars (n : Z) (text p : string) : Prop :=
  Py.len p = n /\ exists rest, text = p ++ rest.

(** The three cases of the preview, as the specification words them. *)
Definition preview_as_specified (text : string) (max_length : Z) : Prop :=
  (text = EmptyString -> get_text_preview text max_length = "No content available") /\
  (text <> EmptyString -> Py.len text <= max_length -> get_text_preview text max_length = text) /\
  (text <> EmptyString -> max_length < Py.len text ->
   exists p, first_chars max_length text p /\ get_text_preview text max_length = p ++ "...").

Lemma slice_to_first_chars (text : string) (n : Z) :
  0 <= n <= Py.len text -> first_chars n text (Py.slice_to text n).
Proof.
  intros Hn. unfold Py.slice_to.
  destruct (slice_within text 0 n) as (pre & post & Hs & Hpre & Hlen); [lia | lia |].
  destruct pre; [|unfold Py.len in Hpre; simpl in Hpre; lia].
  split; [lia | exists post; exact Hs].
Qed.

(** C5, as amended: for every text and every [max_length >= 0], the preview
    is the placeholder when the text is empty, the text itself when it has
    at most [max_length] characters, and otherwise its first [max_length]
    characters followed by the marker ["..."]. *)
Theorem get_text_preview_spec (text : string) (max_length : Z) :
  0 <= max_length -> preview_as_specified text max_length.
Proof.
  intros Hmax. unfold preview_as_specified, get_text_preview. repeat split.
  - intros ->. reflexivity.
  - intros Hne Hle. apply truthy_true_iff in Hne. rewrite Hne. simpl.
    destruct (max_length <? Py.len text) eqn:E; [apply Z.ltb_lt in E; lia | reflexivity].
  - intros Hne Hlt. apply truthy_true_iff in Hne. rewrite Hne. simpl.
    apply Z.ltb_lt in Hlt as E. rewrite E.
    exists (Py.slice_to text max_length). split; [|reflexivity].
    apply slice_to_first_chars. lia.
Qed.

(** The scenario of the specification: a text of 10 characters and a limit
    of 5 give exactly the first 5 characters and the marker. *)
Lemma get_text_preview_spec_witness :
  0 <= 5 /\ preview_as_specified "abcdefghij" 5 /\
  get_text_preview "abcdefghij" 5 = "abcde...".
Proof.
  split; [lia|]. split; [apply (get_text_preview_spec "abcdefghij" 5); lia | reflexivity].
Defined.

(** C5 as stated fails for a negative [max_length]: the slice then counts
    from the end, and the preview of a 10-character text under the limit
    [-3] is its first 7 characters and the marker; no string has [-3]
    characters. *)
Lemma get_text_preview_negative_limit :
  get_text_preview "abcdefghij" (-3) = "abcdefg..." /\
  ~ preview_as_specified "abcdefghij" (-3).
Proof.
  split; [reflexivity|].
  intros (_ & _ & H).
  destruct H as (p & (Hlen & _) & _); [discriminate | reflexivity |].
  unfold Py.len in Hlen. lia.
Qed.

End Preview.

(** ** The retry loop of [get_website_text_content] *)

Section Retry.
Import WebScraper.

Variable fetch_url : nat -> string -> Py.Outcome (option string).
Variable extract : nat -> string -> Py.Outcome (option string).

(** What attempt number [i] yields: the extracted text when the fetch and
    the extraction both answer with something non-empty, nothing when either
    answers with nothing or raises. *)
Definition attempt_result (i : nat) (url : string) : option string :=
  match fetch_url i url with
  | Py.Ret downloaded =>
      if Py.truthy_opt downloaded then
        match extract i (or_empty downloaded) with
        | Py.Ret text => if Py.truthy_opt text then text else None
        | Py.Raise _ => None
        end
      else None
  | Py.Raise _ => None
  end.

(** The durations [1, 2, ..., n]. *)
Definition durations (n : Z) : list Z := map Z.of_nat (seq 1 (Z.to_nat n)).

Definition ends_with_extract (tr : Trace) : Prop :=
  exists tr' downloaded, tr = (tr' ++ [Extract downloaded])%list.

Lemma fetches_app (tr1 tr2 : Trace) :
  fetches (tr1 ++ tr2)%list = (fetches tr1 + fetches tr2)%nat.
Proof.
  unfold fetches. now rewrite filter_app, length_app.
Qed.

Lemma sleeps_app (tr1 tr2 : Trace) :
  sleeps (tr1 ++ tr2)%list = (sleeps tr1 ++ sleeps tr2)%list.
Proof.
  induction tr1 as [|ev tr1 IH]; simpl; [reflexivity|].
  destruct ev; simpl; now rewrite IH.
Qed.

Lemma schedule_app (tr1 tr2 : Trace) :
  schedule (tr1 ++ tr2)%list = (schedule tr1 ++ schedule tr2)%list.
Proof.
  induction tr1 as [|ev tr1 IH]; simpl; [reflexivity|].
  destruct ev; simpl; now rewrite IH.
Qed.

Ltac trace_facts :=
  rewrite ?fetches_app, ?sleeps_app, ?schedule_app; unfold fetches;
  cbn [filter is_fetch List.length sleeps schedule app]; rewrite ?app_nil_r;
  split; [lia | split; [reflexivity | split; [reflexivity | try congruence]]].

(** One attempt: it never raises, makes one fetch and no sleep, and yields
    [attempt_result] at the index of its fetch; when it yields a text, the
    extraction is the last thing it did. *)
Lemma attempt_once_spec (url : string) (attempt : Z) (tr : Trace) :
  exists tr',
    attempt_once fetch_url extract url attempt tr
      = (Py.Ret (attempt_result (fetches tr) url), tr') /\
    fetches tr' = S (fetches tr) /\
    sleeps tr' = sleeps tr /\
    schedule tr' = (schedule tr ++ [Attempt])%list /\
    (attempt_result (fetches tr) url <> None -> ends_with_extract tr').
Proof.
  unfold attempt_once, try_exceptM, bindM, emit, trafilatura_fetch_url,
    trafilatura_extract, attempt_result, ret, call.
  cbv beta iota zeta.
  rewrite ?fetches_app. simpl fetches. rewrite ?Nat.add_0_r.
  destruct (fetch_url (fetches tr) url) as [downloaded|e].
  - destruct (Py.truthy_opt downloaded) eqn:Hd; cbv beta iota zeta.
    + rewrite ?fetches_app. simpl fetches. rewrite ?Nat.add_0_r, Nat.add_1_r. simpl Nat.pred.
      destruct (extract (fetches tr) (or_empty downloaded)) as [text|e].
      * destruct (Py.truthy_opt text) eqn:Ht; cbv beta iota zeta.
        -- destruct text as [text|]; [|discriminate]. eexists. split; [reflexivity|].
           trace_facts. intros _. now eexists _, _.
        -- eexists. split; [reflexivity|]. trace_facts.
      * eexists. split; [reflexivity|]. trace_facts.
    + eexists. split; [reflexivity|]. trace_facts.
  - eexists. split; [reflexivity|]. trace_facts.
Qed.

(** The sleep the loop makes after a failed attempt, if any. *)
Definition pause_after (max_retries attempt : Z) : list Z :=
  if attempt <? max_retries - 1 then [attempt + 1] else [].

(** The sleeps the loop makes after the failed attempts [a, ..., a+n-1]: one
    of [attempt + 1] seconds after each attempt below [max_retries - 1]. *)
Definition backoff (max_retries : Z) (a n : nat) : list Z :=
  flat_map (fun i => pause_after max_retries (Z.of_nat i)) (seq a n).

(** The same attempts with their sleeps, as a schedule. *)
Definition rounds (max_retries : Z) (a n : nat) : list Step :=
  flat_map (fun i => Attempt :: map Pause (pause_after max_retries (Z.of_nat i))) (seq a n).

Lemma retry_loop_step_fail (url : string) (max_retries attempt : Z) (rest : list Z) (tr : Trace) :
  attempt_result (fetches tr) url = None ->
  exists tr1,
    retry_loop fetch_url extract url max_retries (attempt :: rest) tr
      = retry_loop fetch_url extract url max_retries rest tr1 /\
    fetches tr1 = S (fetches tr) /\
    sleeps tr1 = (sleeps tr ++ pause_after max_retries attempt)%list /\
    schedule tr1 = (schedule tr ++ Attempt :: map Pause (pause_after max_retries attempt))%list.
Proof.
  intros Hfail.
  destruct (attempt_once_spec url attempt tr) as (tr0 & Hrun & Hf & Hs & Hsch & _).
  rewrite Hfail in Hrun. simpl retry_loop. unfold bindM at 1. rewrite Hrun.
  unfold pause_after. destruct (attempt <? max_retries - 1).
  - eexists. split; [unfold bindM, emit, call; reflexivity|].
    rewrite ?fetches_app, ?sleeps_app, ?schedule_app. unfold fetches in *.
    cbn [filter is_fetch List.length sleeps schedule app map]. rewrite ?app_nil_r.
    split; [lia|]. split; [now rewrite Hs|]. rewrite Hsch, <- app_assoc. reflexivity.
  - exists tr0. split; [reflexivity|]. rewrite app_nil_r. auto.
Qed.

Lemma retry_loop_step_success (url : string) (max_retries attempt : Z) (rest : list Z)
      (tr : Trace) (text : string) :
  attempt_result (fetches tr) url = Some text ->
  exists tr1,
    retry_loop fetch_url extract url max_retries (attempt :: rest) tr
      = (Py.Ret (Some text), tr1) /\
    fetches tr1 = S (fetches tr) /\ sleeps tr1 = sleeps tr /\
    schedule tr1 = (schedule tr ++ [Attempt])%list /\ ends_with_extract tr1.
Proof.
  intros Hok.
  destruct (attempt_once_spec url attempt tr) as (tr0 & Hrun & Hf & Hs & Hsch & Hlast).
  rewrite Hok in Hrun, Hlast. simpl retry_loop. unfold bindM at 1. rewrite Hrun.
  exists tr0. repeat split; auto. apply Hlast. discriminate.
Qed.

(** All of the attempts [a, ..., a+n-1] fail: the loop makes [n] fetches,
    sleeps after the attempts below [max_retries - 1], and yields nothing. *)
Lemma retry_loop_all_fail (url : string) (max_retries : Z) (n : nat) :
  forall (a : nat) (tr : Trace),
    (forall j, (j < n)%nat -> attempt_result (fetches tr + j) url = None) ->
    exists tr',
      retry_loop fetch_url extract url max_retries (map Z.of_nat (seq a n)) tr
        = (Py.Ret None, tr') /\
      fetches tr' = (fetches tr + n)%nat /\
      sleeps tr' = (sleeps tr ++ backoff max_retries a n)%list /\
      schedule tr' = (schedule tr ++ rounds max_retries a n)%list.
Proof.
  induction n as [|n IH]; intros a tr Hfail.
  - exists tr. unfold backoff, rounds. simpl. rewrite Nat.add_0_r, !app_nil_r. auto.
  - simpl seq. simpl map.
    destruct (retry_loop_step_fail url max_retries (Z.of_nat a)
                (map Z.of_nat (seq (S a) n)) tr) as (tr1 & Hstep & Hf1 & Hs1 & Hsch1).
    { rewrite <- (Nat.add_0_r (fetches tr)). apply Hfail. lia. }
    destruct (IH (S a) tr1) as (tr' & Hrun & Hf & Hs & Hsch).
    { intros j Hj. rewrite Hf1. replace (S (fetches tr) + j)%nat with (fetches tr + S j)%nat by lia.
      apply Hfail. lia. }
    exists tr'. rewrite Hstep, Hrun. split; [reflexivity|]. split; [lia|].
    unfold backoff, rounds in *. cbn [flat_map]. fold (backoff max_retries (S a) n).
    rewrite Hs, Hs1, Hsch, Hsch1, <- !app_assoc. split; reflexivity.
Qed.

(** Attempt [a + k] is the first to yield a text: the loop makes [k + 1]
    fetches, sleeps after the [k] failed attempts only, and returns the text
    right after its extraction. *)
Lemma retry_loop_first_success (url : string) (max_retries : Z) (text : string) (k : nat) :
  forall (n a : nat) (tr : Trace),
    (k < n)%nat ->
    (forall j, (j < k)%nat -> attempt_result (fetches tr + j) url = None) ->
    attempt_result (fetches tr + k) url = Some text ->
    exists tr',
      retry_loop fetch_url extract url max_retries (map Z.of_nat (seq a n)) tr
        = (Py.Ret (Some text), tr') /\
      fetches tr' = (fetches tr + S k)%nat /\
      sleeps tr' = (sleeps tr ++ backoff max_retries a k)%list /\
      schedule tr' = (schedule tr ++ rounds max_retries a k ++ [Attempt])%list /\
      ends_with_extract tr'.
Proof.
  induction k as [|k IH]; intros n a tr Hk Hfail Hok.
  - destruct n as [|n]; [lia|]. simpl seq. simpl map.
    rewrite Nat.add_0_r in Hok.
    destruct (retry_loop_step_success url max_retries (Z.of_nat a)
                (map Z.of_nat (seq (S a) n)) tr text Hok)
      as (tr1 & Hrun & Hf & Hs & Hsch & Hlast).
    exists tr1. unfold backoff, rounds. simpl. rewrite app_nil_r. repeat split; auto. lia.
  - destruct n as [|n]; [lia|]. simpl seq. simpl map.
    destruct (retry_loop_step_fail url max_retries (Z.of_nat a)
                (map Z.of_nat (seq (S a) n)) tr) as (tr1 & Hstep & Hf1 & Hs1 & Hsch1).
    { rewrite <- (Nat.add_0_r (fetches tr)). apply Hfail. lia. }
    destruct (IH n (S a) tr1) as (tr' & Hrun & Hf & Hs & Hsch & Hlast).
    { lia. }
    { intros j Hj. rewrite Hf1. replace (S (fetches tr) + j)%nat with (fetches tr + S j)%nat by lia.
      apply Hfail. lia. }
    { rewrite Hf1. replace (S (fetches tr) + k)%nat with (fetches tr + S k)%nat by lia. exact Hok. }
    exists tr'. rewrite Hstep, Hrun. split; [reflexivity|]. split; [lia|].
    unfold backoff, rounds in *. cbn [flat_map seq].
    rewrite Hs, Hs1, Hsch, Hsch1, <- !app_assoc. repeat split; auto.
Qed.

(** The attempts [0, ..., n-1], each followed by its sleep. *)
Definition failed_rounds (n : nat) : list Step :=
  flat_map (fun i => [Attempt; Pause (Z.of_nat i + 1)]) (seq 0 n).

(** Below [max_retries - 1] every attempt is followed by its sleep. *)
Lemma backoff_below (max_retries : Z) (n : nat) : forall a : nat,
  Z.of_nat (a + n) <= max_retries - 1 ->
  backoff max_retries a n = map (fun i => Z.of_nat i + 1) (seq a n) /\
  rounds max_retries a n = flat_map (fun i => [Attempt; Pause (Z.of_nat i + 1)]) (seq a n).
Proof.
  induction n as [|n IH]; intros a Hle; [split; reflexivity|].
  destruct (IH (S a)) as [IHb IHr]; [lia|].
  unfold backoff, rounds in *. cbn [seq flat_map map]. rewrite IHb, IHr.
  unfold pause_after.
  destruct (Z.of_nat a <? max_retries - 1) eqn:E; [split; reflexivity | apply Z.ltb_ge in E; lia].
Qed.

Lemma map_succ_seq (n : nat) : forall a : nat,
  map (fun i => Z.of_nat i + 1) (seq a n) = map Z.of_nat (seq (S a) n).
Proof.
  induction n as [|n IH]; intros a; simpl; [reflexivity|].
  rewrite IH. f_equal. lia.
Qed.

(** Over the whole range the sleeps are [1, ..., max_retries - 1], one
    between each attempt and the next. *)
Lemma backoff_range (max_retries : Z) :
  1 <= max_retries ->
  backoff max_retries 0 (Z.to_nat max_retries) = durations (max_retries - 1) /\
  rounds max_retries 0 (Z.to_nat max_retries)
  = (failed_rounds (Z.to_nat (max_retries - 1)) ++ [Attempt])%list.
Proof.
  intros Hpos. unfold durations, failed_rounds.
  replace (Z.to_nat max_retries) with (Z.to_nat (max_retries - 1) + 1)%nat by lia.
  destruct (backoff_below max_retries (Z.to_nat (max_retries - 1)) 0) as [Hb Hr]; [lia|].
  unfold backoff, rounds in *. rewrite seq_app, !flat_map_app, Hb, Hr.
  cbn [seq flat_map]. unfold pause_after.
  destruct (Z.of_nat (0 + Z.to_nat (max_retries - 1)) <? max_retries - 1) eqn:E;
    [apply Z.ltb_lt in E; lia|].
  cbn [map app]. rewrite !app_nil_r. split; [apply map_succ_seq | reflexivity].
Qed.

(** A call on a fresh trace. *)
Definition run (url : string) (max_retries : Z) : Py.Outcome (option string) * Trace :=
  get_website_text_content fetch_url extract url max_retries [].

(** The budget as the specification words it: when every attempt fails,
    absence is returned after exactly [max_retries] attempts and exactly
    [max_retries - 1] sleeps, of 1, 2, ..., [max_retries - 1] seconds, one
    between each attempt and the next. *)
Definition exhausts_as_specified (url : string) (max_retries : Z) : Prop :=
  (forall i, Z.of_nat i < max_retries -> attempt_result i url = None) ->
  exists tr,
    run url max_retries = (Py.Ret None, tr) /\
    Z.of_nat (fetches tr) = max_retries /\
    Z.of_nat (List.length (sleeps tr)) = max_retries - 1 /\
    sleeps tr = durations (max_retries - 1) /\
    schedule tr = (failed_rounds (Z.to_nat (max_retries - 1)) ++ [Attempt])%list.

(** The short circuit: when attempt [k] is the first to yield a text, the
    text is returned after [k + 1] attempts and the [k] sleeps between them,
    and its extraction is the last thing the call does. *)
Definition short_circuits_as_specified (url : string) (max_retries : Z) : Prop :=
  forall (k : nat) (text : string),
    Z.of_nat k < max_retries ->
    (forall j, (j < k)%nat -> attempt_result j url = None) ->
    attempt_result k url = Some text ->
    exists tr,
      run url max_retries = (Py.Ret (Some text), tr) /\
      fetches tr = S k /\
      sleeps tr = durations (Z.of_nat k) /\
      schedule tr = (failed_rounds k ++ [Attempt])%list /\
      ends_with_extract tr.

Lemma durations_length (n : Z) : 0 <= n -> Z.of_nat (List.length (durations n)) = n.
Proof.
  intros Hn. unfold durations. rewrite length_map, length_seq. lia.
Qed.

(** C6, as amended: for every [max_retries >= 1], all attempts failing, the
    call returns absence after exactly [max_retries] attempts and
    [max_retries - 1] sleeps of 1, ..., [max_retries - 1] seconds, one
    between each attempt and the next; for [max_retries <= 0] it returns
    absence without any attempt or sleep; and for every [max_retries], the
    first attempt to yield a text ends the call at once. *)
Theorem retry_budget_and_short_circuit (url : string) (max_retries : Z) :
  (1 <= max_retries -> exhausts_as_specified url max_retries) /\
  (max_retries <= 0 -> run url max_retries = (Py.Ret None, [])) /\
  short_circuits_as_specified url max_retries.
Proof.
  unfold exhausts_as_specified, short_circuits_as_specified, run,
    get_website_text_content, range.
  split; [|split].
  - intros Hpos Hfail.
    destruct (retry_loop_all_fail url max_retries (Z.to_nat max_retries) 0%nat [])
      as (tr & Hrun & Hf & Hs & Hsch).
    { intros j Hj. change (fetches [] + j)%nat with j. apply Hfail. lia. }
    destruct (backoff_range max_retries Hpos) as [Hb Hr].
    exists tr. simpl in Hf, Hs, Hsch. rewrite Hb in Hs. rewrite Hr in Hsch.
    rewrite Hrun, Hs, durations_length by lia. repeat split; [lia | exact Hsch].
  - intros Hneg. replace (Z.to_nat max_retries) with 0%nat by lia. reflexivity.
  - intros k text Hk Hfail Hok.
    destruct (retry_loop_first_success url max_retries text k (Z.to_nat max_retries) 0%nat [])
      as (tr & Hrun & Hf & Hs & Hsch & Hlast); [lia | exact Hfail | exact Hok |].
    destruct (backoff_below max_retries k 0) as [Hb Hr]; [lia|].
    exists tr. simpl in Hf, Hs, Hsch. rewrite Hb in Hs. rewrite Hr in Hsch. rewrite Hrun.
    split; [reflexivity|]. split; [exact Hf|]. split; [|split; [exact Hsch | exact Hlast]].
    rewrite Hs. unfold durations. rewrite Nat2Z.id. apply map_succ_seq.
Qed.

End Retry.

(** Two scripted collaborators: one that never yields anything, and one that
    yields a page from its third answer on. *)
Definition never_fetches : nat -> string -> Py.Outcome (option string) :=
  fun _ _ => Py.Ret None.
Definition fetches_third_time : nat -> string -> Py.Outcome (option string) :=
  fun i _ => if (i <? 2)%nat then Py.Ret None else Py.Ret (Some "<p>hello</p>").
Definition extracts_hello : nat -> string -> Py.Outcome (option string) :=
  fun _ _ => Py.Ret (Some "hello").

Lemma retry_budget_and_short_circuit_witness :
  1 <= 3 /\
  (exists tr,
     run never_fetches extracts_hello "http://example.com" 3 = (Py.Ret None, tr) /\
     Z.of_nat (WebScraper.fetches tr) = 3 /\
     Z.of_nat (List.length (WebScraper.sleeps tr)) = 3 - 1 /\
     WebScraper.sleeps tr = durations (3 - 1) /\
     WebScraper.schedule tr = (failed_rounds (Z.to_nat (3 - 1)) ++ [WebScraper.Attempt])%list) /\
  (exists tr,
     run fetches_third_time extracts_hello "http://example.com" 3 = (Py.Ret (Some "hello"), tr) /\
     WebScraper.fetches tr = 3%nat /\
     WebScraper.sleeps tr = durations 2 /\
     WebScraper.schedule tr = (failed_rounds 2 ++ [WebScraper.Attempt])%list /\
     ends_with_extract tr).
Proof.
  split; [lia|]. split.
  - apply (proj1 (retry_budget_and_short_circuit never_fetches extracts_hello
                    "http://example.com" 3)); [lia|].
    intros i _. reflexivity.
  - apply (proj2 (proj2 (retry_budget_and_short_circuit fetches_third_time extracts_hello
                           "http://example.com" 3)) 2%nat "hello"); [lia | | reflexivity].
    intros j Hj. destruct j as [|[|j]]; [reflexivity | reflexivity | lia].
Defined.

(** C6 as stated fails for [max_retries <= 0]: the loop body never runs, so
    the call makes no attempt and no sleep, where the statement asks for
    [max_retries] attempts and [max_retries - 1] sleeps. *)
Lemma retry_budget_not_for_zero_retries :
  run never_fetches extracts_hello "http://example.com" 0 = (Py.Ret None, []) /\
  ~ exhausts_as_specified never_fetches extracts_hello "http://example.com" 0 /\
  run never_fetches extracts_hello "http://example.com" (-2) = (Py.Ret None, []) /\
  ~ exhausts_as_specified never_fetches extracts_hello "http://example.com" (-2).
Proof.
  split; [reflexivity|]. split; [|split; [reflexivity|]].
  - intros H. destruct H as (tr & Hrun & _ & Hsleeps & _); [reflexivity|].
    inversion Hrun; subst tr. simpl in Hsleeps. lia.
  - intros H. destruct H as (tr & Hrun & Hfetches & _); [reflexivity|].
    inversion Hrun; subst tr. simpl in Hfetches. lia.
Qed.

(** ** Scanning a text for a pattern *)

Section Scanning.
Import Re.

(** The last character of a string, if any. *)
Fixpoint last_char (s : string) : option ascii :=
  match s with
  | EmptyString => None
  | String c s' =>
      match last_char s' with
      | Some d => Some d
      | None => Some c
      end
  end.

Definition snoc (s : string) (c : ascii) : string := s ++ String c EmptyString.

Lemma last_char_app (a b : string) :
  last_char (a ++ b) = match last_char b with
                       | Some d => Some d
                       | None => last_char a
                       end.
Proof.
  induction a as [|c a IH]; simpl.
  - now destruct (last_char b).
  - rewrite IH. now destruct (last_char b).
Qed.

Lemma last_char_snoc (s : string) (c : ascii) : last_char (snoc s c) = Some c.
Proof.
  unfold snoc. now rewrite last_char_app.
Qed.

Lemma length_snoc (s : string) (c : ascii) : String.length (snoc s c) = S (String.length s).
Proof.
  unfold snoc. rewrite length_append. simpl. lia.
Qed.

Lemma snoc_append (pre : string) (c : ascii) (s : string) :
  snoc pre c ++ s = pre ++ String c s.
Proof.
  unfold snoc. now rewrite append_assoc.
Qed.

(** Two splits of a text at the same offset are the same split. *)
Lemma append_eq_length (a : string) : forall b c d : string,
  a ++ b = c ++ d -> String.length a = String.length c -> a = c /\ b = d.
Proof.
  induction a as [|x a IH]; intros b c d H Hlen; destruct c as [|y c]; simpl in *;
    try discriminate; [auto|].
  injection H as -> H. destruct (IH b c d H) as [-> ->]; [lia | auto].
Qed.

Ltac len_lia := cbn [String.length] in *; lia.

Variable p : Pattern.

(** A pattern that matches at least one character, within the text. *)
Hypothesis p_fits : forall prev s n, p prev s = Some n -> (1 <= n <= String.length s)%nat.

(** [m] is a match of [p] in [text]: the text splits at [m_start m] into
    what comes before and a rest that [p] matches over [m_group m]. *)
Definition match_of (text : string) (m : Match) : Prop :=
  exists pre rest,
    text = pre ++ rest /\
    String.length pre = m_start m /\
    p (last_char pre) rest = Some (String.length (m_group m)) /\
    m_group m = substring 0 (String.length (m_group m)) rest.

Lemma substring_prefix_length (s : string) (n : nat) :
  (n <= String.length s)%nat -> String.length (substring 0 n s) = n.
Proof.
  intros Hn. destruct (substring_split s 0 n) as (pre & post & _ & _ & Hlen); [lia | exact Hlen].
Qed.

(** Every reported match is a match of the pattern; it starts at or after
    the skipped characters and ends within the text. *)
Lemma scan_sound (s : string) : forall (pre : string) (skip : nat),
  Forall (fun m => match_of (pre ++ s) m /\
                   (String.length pre + skip <= m_start m)%nat /\
                   (m_end m <= String.length pre + String.length s)%nat)
         (scan p (last_char pre) s (String.length pre) skip).
Proof.
  induction s as [|c s IH]; intros pre skip; cbn [scan]; [constructor|].
  pose proof (IH (snoc pre c)) as IH'.
  rewrite last_char_snoc, length_snoc, snoc_append in IH'.
  destruct skip as [|k].
  - destruct (p (last_char pre) (String c s)) as [n|] eqn:Hp.
    + destruct (p_fits _ _ _ Hp) as [Hn1 Hn2].
      assert (Hlen : String.length (substring 0 n (String c s)) = n)
        by now apply substring_prefix_length.
      constructor.
      * unfold m_end. cbn [m_start m_group]. rewrite Hlen. split; [|len_lia].
        exists pre, (String c s). cbn [m_start m_group]. rewrite Hlen. auto.
      * eapply Forall_impl; [|apply (IH' (Nat.pred n))].
        intros m (Hm & Hstart & Hend). repeat split; [exact Hm | len_lia | len_lia].
    + eapply Forall_impl; [|apply (IH' 0%nat)].
      intros m (Hm & Hstart & Hend). repeat split; [exact Hm | len_lia | len_lia].
  - eapply Forall_impl; [|apply (IH' k)].
    intros m (Hm & Hstart & Hend). repeat split; [exact Hm | len_lia | len_lia].
Qed.

(** The reported matches come in order and do not overlap. *)
Lemma scan_sorted (s : string) : forall (pre : string) (skip : nat),
  StronglySorted (fun a b => (m_end a <= m_start b)%nat)
                 (scan p (last_char pre) s (String.length pre) skip).
Proof.
  induction s as [|c s IH]; intros pre skip; cbn [scan]; [constructor|].
  pose proof (IH (snoc pre c)) as IH'.
  pose proof (scan_sound s (snoc pre c)) as Hs.
  rewrite last_char_snoc, length_snoc in IH', Hs.
  destruct skip as [|k]; [|apply IH'].
  destruct (p (last_char pre) (String c s)) as [n|] eqn:Hp; [|apply IH'].
  destruct (p_fits _ _ _ Hp) as [Hn1 Hn2].
  constructor; [apply IH'|].
  eapply Forall_impl; [|apply (Hs (Nat.pred n))].
  intros m (_ & Hstart & _). unfold m_end. cbn [m_start m_group].
  rewrite substring_prefix_length by exact Hn2. len_lia.
Qed.

(** Every place where the pattern matches is reported, unless it lies
    inside a match that starts before it or among the skipped characters. *)
Lemma scan_complete (s : string) : forall (pre : string) (skip : nat) (pre' rest : string) (n : nat),
  pre ++ s = pre' ++ rest ->
  (String.length pre + skip <= String.length pre')%nat ->
  p (last_char pre') rest = Some n ->
  let ms := scan p (last_char pre) s (String.length pre) skip in
  (exists m, In m ms /\ m_start m = String.length pre') \/
  (exists m, In m ms /\ (m_start m < String.length pre' < m_end m)%nat).
Proof.
  induction s as [|c s IH]; intros pre skip pre' rest n Hsplit Hskip Hp.
  - exfalso. destruct (p_fits _ _ _ Hp) as [Hn1 Hn2].
    assert (Hl : String.length (pre ++ EmptyString) = String.length (pre' ++ rest))
      by now rewrite Hsplit.
    rewrite !length_append in Hl. simpl in Hl. lia.
  - pose proof (IH (snoc pre c)) as IH'.
    rewrite last_char_snoc, length_snoc, snoc_append in IH'.
    cbn [scan]. destruct skip as [|k].
    + destruct (Nat.eq_dec (String.length pre') (String.length pre)) as [Heq|Hne].
      * destruct (append_eq_length pre (String c s) pre' rest Hsplit) as [<- <-]; [lia|].
        rewrite Hp. left. eexists. split; [left; reflexivity | reflexivity].
      * destruct (p (last_char pre) (String c s)) as [n0|] eqn:Hp0.
        -- destruct (p_fits _ _ _ Hp0) as [Hn1 Hn2].
           destruct (Nat.le_gt_cases (String.length pre + n0) (String.length pre')) as [Hfar|Hin].
           ++ destruct (IH' (Nat.pred n0) pre' rest n Hsplit) as [(m & Hm & Hst)|(m & Hm & Hst)];
                [len_lia | exact Hp | left | right]; exists m; (split; [right; exact Hm | exact Hst]).
           ++ right. eexists. split; [left; reflexivity|].
              unfold m_end. cbn [m_start m_group].
              rewrite substring_prefix_length by exact Hn2. len_lia.
        -- destruct (IH' 0%nat pre' rest n Hsplit) as [(m & Hm & Hst)|(m & Hm & Hst)];
             [len_lia | exact Hp | left | right]; exists m; (split; [exact Hm | exact Hst]).
    + destruct (IH' k pre' rest n Hsplit) as [(m & Hm & Hst)|(m & Hm & Hst)];
        [len_lia | exact Hp | left | right]; exists m; (split; [exact Hm | exact Hst]).
Qed.

End Scanning.

(** ** [search_content] *)

Section Search.
Import Re TextAnalyzer.

(** [term] occurs in [text] at offset [pos] as [search_content] looks for
    it: the text reads [term] there, letter case apart, between two word
    boundaries. *)
Definition occurs_at (text term : string) (pos : nat) : Prop :=
  exists pre mid post,
    text = pre ++ mid ++ post /\
    String.length pre = pos /\
    Py.lower mid = Py.lower term /\
    boundary (last_char pre) (head (mid ++ post)) = true /\
    boundary (last_char (pre ++ mid)) (head post) = true.

(** The offsets at which [search_content] finds [term]. *)
Definition occurrences (text term : string) : list nat :=
  map m_start (finditer (word term) text).

Lemma lower_length (a : string) : forall b : string,
  Py.lower a = Py.lower b -> String.length a = String.length b.
Proof.
  induction a as [|x a IH]; intros [|y b] H; simpl in *; try discriminate; [reflexivity|].
  injection H as _ H. f_equal. now apply IH.
Qed.

Lemma literal_then_boundary_iff (term : string) : forall (prev : option ascii) (s : string),
  literal_then_boundary term prev s = true <->
  exists mid post,
    s = mid ++ post /\ Py.lower mid = Py.lower term /\
    boundary (match last_char mid with Some d => Some d | None => prev end) (head post) = true.
Proof.
  induction term as [|t term IH]; intros prev s; simpl.
  - split.
    + intros H. exists EmptyString, s. auto.
    + intros (mid & post & -> & Hlow & Hb). destruct mid; [exact Hb | discriminate].
  - destruct s as [|c s].
    + split; [discriminate|]. intros (mid & post & Hs & Hlow & _).
      destruct mid; simpl in *; discriminate.
    + rewrite andb_true_iff, IH. unfold eqb_ignorecase. rewrite Ascii.eqb_eq. split.
      * intros (Hc & mid & post & -> & Hlow & Hb).
        exists (String c mid), post. simpl. rewrite Hlow, Hc.
        destruct (last_char mid); auto.
      * intros (mid & post & Hs & Hlow & Hb). destruct mid as [|c' mid]; [discriminate|].
        simpl in Hs, Hlow, Hb. injection Hs as -> ->. injection Hlow as Hc Hlow.
        split; [congruence|]. exists mid, post.
        destruct (last_char mid); auto.
Qed.

(** What the pattern of [search_content] matches, in words. *)
Lemma word_matches_iff (term pre rest : string) (n : nat) :
  word term (last_char pre) rest = Some n <->
  n = String.length term /\
  exists mid post,
    rest = mid ++ post /\ Py.lower mid = Py.lower term /\
    boundary (last_char pre) (head rest) = true /\
    boundary (last_char (pre ++ mid)) (head post) = true.
Proof.
  unfold word.
  destruct (boundary (last_char pre) (head rest)) eqn:Hb; simpl.
  - destruct (literal_then_boundary term (last_char pre) rest) eqn:Hl.
    + apply literal_then_boundary_iff in Hl. destruct Hl as (mid & post & Hs & Hlow & Hb').
      split.
      * intros [= <-]. split; [reflexivity|]. exists mid, post.
        rewrite last_char_app. auto.
      * intros [-> _]. reflexivity.
    + split; [discriminate|]. intros (_ & mid & post & Hs & Hlow & _ & Hb').
      rewrite last_char_app in Hb'.
      assert (literal_then_boundary term (last_char pre) rest = true)
        by (apply literal_then_boundary_iff; exists mid, post; auto).
      congruence.
  - split; [discriminate|]. intros (_ & mid & post & _ & _ & H & _). discriminate.
Qed.

(** A non-empty term matches at least one character, within the text. *)
Lemma word_fits (term : string) :
  term <> EmptyString ->
  forall prev s n, word term prev s = Some n -> (1 <= n <= String.length s)%nat.
Proof.
  intros Hne prev s n H.
  assert (Hn : n = String.length term).
  { unfold word in H. destruct (_ && _); [now injection H | discriminate]. }
  unfold word in H. destruct (boundary prev (head s)); simpl in H; [|discriminate].
  destruct (literal_then_boundary term prev s) eqn:Hl; [|discriminate].
  apply literal_then_boundary_iff in Hl. destruct Hl as (mid & post & -> & Hlow & _).
  apply lower_length in Hlow. rewrite length_append. subst n.
  destruct term; [contradiction|]. simpl in *. lia.
Qed.

Lemma match_of_word (text term : string) (m : Match) :
  term <> EmptyString ->
  match_of (word term) text m ->
  occurs_at text term (m_start m) /\ String.length (m_group m) = String.length term.
Proof.
  intros Hne (pre & rest & -> & Hpre & Hp & _).
  apply word_matches_iff in Hp. destruct Hp as (Hn & mid & post & -> & Hlow & Hb1 & Hb2).
  split; [|exact Hn]. exists pre, mid, post. auto.
Qed.

(** The matches [search_content] finds for a non-empty term: each is an
    occurrence of the term, lies within the text and is as long as the
    term. *)
Lemma finditer_word_sound (text term : string) :
  term <> EmptyString ->
  Forall (fun m => occurs_at text term (m_start m) /\
                   String.length (m_group m) = String.length term /\
                   (m_end m <= String.length text)%nat)
         (finditer (word term) text).
Proof.
  intros Hne. unfold finditer.
  pose proof (scan_sound (word term) (word_fits term Hne) text EmptyString 0) as H.
  simpl in H. eapply Forall_impl; [|exact H].
  intros m (Hm & _ & Hend). destruct (match_of_word text term m Hne Hm). auto.
Qed.

(** They come in order and do not overlap. *)
Lemma finditer_word_sorted (text term : string) :
  term <> EmptyString ->
  StronglySorted (fun a b => (m_end a <= m_start b)%nat) (finditer (word term) text).
Proof.
  intros Hne. apply (scan_sorted (word term) (word_fits term Hne) text EmptyString 0).
Qed.

(** No occurrence is missed: each one is found, or overlaps one found
    before it. *)
Lemma finditer_word_complete (text term : string) (pos : nat) :
  term <> EmptyString ->
  occurs_at text term pos ->
  In pos (occurrences text term) \/
  exists m, In m (finditer (word term) text) /\ (m_start m < pos < m_end m)%nat.
Proof.
  intros Hne (pre & mid & post & Htext & Hpos & Hlow & Hb1 & Hb2).
  assert (Hp : word term (last_char pre) (mid ++ post) = Some (String.length term)).
  { apply word_matches_iff. split; [reflexivity|]. exists mid, post. auto. }
  destruct (scan_complete (word term) (word_fits term Hne) text EmptyString 0 pre (mid ++ post)
              (String.length term)) as [(m & Hm & Hst)|(m & Hm & Hst)];
    [exact Htext | simpl; lia | exact Hp | left | right].
  - unfold occurrences. rewrite <- Hpos, <- Hst. now apply in_map.
  - exists m. rewrite <- Hpos. auto.
Qed.

(** The context entry [search_content] builds for a match. *)
Definition context_of (text : string) (m : Match) : Context :=
  mkContext (Py.slice text (Z.max 0 (Z.of_nat (m_start m) - 100))
                           (Z.min (Py.len text) (Z.of_nat (m_end m) + 100)))
            (Z.of_nat (m_start m)).

Lemma collect_contexts_map (text : string) (matches : list Match) :
  collect_contexts text matches = map (context_of text) matches.
Proof.
  unfold collect_contexts.
  enough (H : forall acc, fold_left
                (fun contexts m =>
                   (contexts ++ [mkContext
                      (Py.slice text (Z.max 0 (Z.of_nat (m_start m) - 100))
                                     (Z.min (Py.len text) (Z.of_nat (m_end m) + 100)))
                      (Z.of_nat (m_start m))])%list) matches acc
              = (acc ++ map (context_of text) matches)%list) by apply (H []).
  induction matches as [|m ms IH]; intros acc; simpl.
  - now rewrite app_nil_r.
  - rewrite IH, <- app_assoc. reflexivity.
Qed.

(** What [search_content] returns, by cases on its arguments and on the
    matches of the pattern. *)
Lemma search_content_cases (text term : string) :
  search_content text term =
  if negb (Py.truthy text) || negb (Py.truthy term)
  then Py.Ret (SearchError "No text or search term provided")
  else match finditer (word term) text with
       | [] => Py.Ret (SearchMessage ("No exact matches found for '" ++ term ++ "'"))
       | m :: ms =>
           Py.Ret (SearchMatches (Z.of_nat (List.length (m :: ms)))
                                 (map (context_of text) (m :: ms)))
       end.
Proof.
  unfold search_content, search_content_body.
  destruct (negb (Py.truthy text) || negb (Py.truthy term)); [reflexivity|].
  destruct (finditer (word term) text) as [|m ms]; [reflexivity|].
  rewrite collect_contexts_map. reflexivity.
Qed.

Lemma both_given (text term : string) :
  text <> EmptyString -> term <> EmptyString ->
  negb (Py.truthy text) || negb (Py.truthy term) = false.
Proof.
  intros Ht Hs. apply truthy_true_iff in Ht, Hs. now rewrite Ht, Hs.
Qed.

(** The occurrences of [term] in [text] as one counts them reading from
    the left: [found] lists offsets at which [term] occurs, in increasing
    order and without overlap, and leaves an occurrence out only where it
    overlaps a listed one that starts before it. *)
Definition non_overlapping_occurrences (text term : string) (found : list nat) : Prop :=
  Forall (occurs_at text term) found /\
  StronglySorted (fun a b => (a + String.length term <= b)%nat) found /\
  (forall pos, occurs_at text term pos ->
     In pos found \/
     exists q, In q found /\ (q < pos < q + String.length term)%nat).

(** Two lists that pick the members of [P] from [lo] on, from the left and
    [width] apart, are one list. *)
Lemma leftmost_unique (P : nat -> Prop) (width : nat) :
  (1 <= width)%nat ->
  forall (l1 l2 : list nat) (lo : nat),
    Forall (fun a => P a /\ (lo <= a)%nat) l1 ->
    Forall (fun a => P a /\ (lo <= a)%nat) l2 ->
    StronglySorted (fun a b => (a + width <= b)%nat) l1 ->
    StronglySorted (fun a b => (a + width <= b)%nat) l2 ->
    (forall pos, P pos -> (lo <= pos)%nat ->
       In pos l1 \/ exists q, In q l1 /\ (q < pos < q + width)%nat) ->
    (forall pos, P pos -> (lo <= pos)%nat ->
       In pos l2 \/ exists q, In q l2 /\ (q < pos < q + width)%nat) ->
    l1 = l2.
Proof.
  intros Hwidth.
  assert (Hmin : forall a l, StronglySorted (fun a b => (a + width <= b)%nat) (a :: l) ->
                   forall q, In q (a :: l) -> (a <= q)%nat).
  { intros a l Hs q [<-|Hq]; [lia|]. apply StronglySorted_inv in Hs as (_ & Hall).
    rewrite Forall_forall in Hall. specialize (Hall q Hq). lia. }
  assert (Hhead : forall a b l' lo,
            P a -> (lo <= a)%nat ->
            StronglySorted (fun a b => (a + width <= b)%nat) (b :: l') ->
            (forall pos, P pos -> (lo <= pos)%nat ->
               In pos (b :: l') \/ exists q, In q (b :: l') /\ (q < pos < q + width)%nat) ->
            (b <= a)%nat).
  { intros a b l' lo Ha Hlo Hs Hc.
    destruct (Hc a Ha Hlo) as [Hin|(q & Hq & Hlt)].
    - now apply (Hmin b l' Hs).
    - pose proof (Hmin b l' Hs q Hq). lia. }
  assert (Htail : forall a l lo,
            StronglySorted (fun a b => (a + width <= b)%nat) (a :: l) ->
            Forall (fun x => P x /\ (lo <= x)%nat) (a :: l) ->
            (forall pos, P pos -> (lo <= pos)%nat ->
               In pos (a :: l) \/ exists q, In q (a :: l) /\ (q < pos < q + width)%nat) ->
            Forall (fun x => P x /\ (a + width <= x)%nat) l /\
            (forall pos, P pos -> (a + width <= pos)%nat ->
               In pos l \/ exists q, In q l /\ (q < pos < q + width)%nat)).
  { intros a l lo Hs Hall Hc. apply StronglySorted_inv in Hs as (_ & Hgap).
    apply Forall_inv in Hall as Ha. apply Forall_inv_tail in Hall.
    split.
    - rewrite Forall_forall in *. intros x Hx. split; [apply (Hall x Hx) | apply (Hgap x Hx)].
    - intros pos Hpos Hge. destruct (Hc pos Hpos ltac:(lia)) as [[Heq|Hin]|(q & [Heq|Hq] & Hlt)].
      + lia.
      + now left.
      + lia.
      + right. now exists q. }
  induction l1 as [|a l1 IH]; intros [|b l2] lo H1 H2 Hs1 Hs2 Hc1 Hc2.
  - reflexivity.
  - apply Forall_inv in H2 as (Hb & Hlo).
    destruct (Hc1 b Hb Hlo) as [[]|(q & [] & _)].
  - apply Forall_inv in H1 as (Ha & Hlo).
    destruct (Hc2 a Ha Hlo) as [[]|(q & [] & _)].
  - apply Forall_inv in H1 as Ha. apply Forall_inv in H2 as Hb.
    destruct Ha as (Ha & Hloa), Hb as (Hb & Hlob).
    assert (Hba : (b <= a)%nat) by exact (Hhead a b l2 lo Ha Hloa Hs2 Hc2).
    assert (Hab : (a <= b)%nat) by exact (Hhead b a l1 lo Hb Hlob Hs1 Hc1).
    assert (a = b) as -> by lia. f_equal.
    destruct (Htail b l1 lo Hs1 H1 Hc1) as (H1' & Hc1').
    destruct (Htail b l2 lo Hs2 H2 Hc2) as (H2' & Hc2').
    apply StronglySorted_inv in Hs1 as (Hs1' & _). apply StronglySorted_inv in Hs2 as (Hs2' & _).
    exact (IH l2 (b + width)%nat H1' H2' Hs1' Hs2' Hc1' Hc2').
Qed.

(** The occurrences found are occurrences, in increasing order and one
    term's length apart at least, and an occurrence that is not found
    overlaps one that is. *)
Lemma occurrences_spec (text term : string) :
  term <> EmptyString ->
  non_overlapping_occurrences text term (occurrences text term).
Proof.
  intros Hne. pose proof (finditer_word_sound text term Hne) as Hsound.
  pose proof (finditer_word_sorted text term Hne) as Hsorted.
  unfold occurrences. split; [|split].
  - apply Forall_map. eapply Forall_impl; [|exact Hsound]. now intros m (H & _).
  - induction Hsorted as [|m ms Hs IH Hall]; simpl; [constructor|].
    apply Forall_inv_tail in Hsound as Htail. apply Forall_inv in Hsound as (_ & Hlen & _).
    constructor; [now apply IH|].
    apply Forall_map. eapply Forall_impl; [|exact Hall].
    intros b Hb. unfold m_end in Hb. lia.
  - intros pos Hocc.
    destruct (finditer_word_complete text term pos Hne Hocc) as [Hin|(m & Hm & Hlt)]; [now left|].
    right. exists (m_start m). split; [now apply in_map|].
    rewrite Forall_forall in Hsound. destruct (Hsound m Hm) as (_ & Hlen & _).
    unfold m_end in Hlt. lia.
Qed.

(** The occurrences counted from the left without overlap are the ones
    found: there is one such list. *)
Lemma occurrences_unique (text term : string) (found : list nat) :
  term <> EmptyString ->
  non_overlapping_occurrences text term found -> found = occurrences text term.
Proof.
  intros Hne (Hocc & Hsorted & Hall).
  destruct (occurrences_spec text term Hne) as (Hocc' & Hsorted' & Hall').
  apply (leftmost_unique (occurs_at text term) (String.length term)) with (lo := O);
    try assumption.
  - destruct term; [contradiction | simpl; lia].
  - eapply Forall_impl; [|exact Hocc]. intros a Ha. split; [exact Ha | lia].
  - eapply Forall_impl; [|exact Hocc']. intros a Ha. split; [exact Ha | lia].
  - intros pos Hpos _. now apply Hall.
  - intros pos Hpos _. now apply Hall'.
Qed.

(** C7: [search_content] answers with an error field when the text or the
    term is empty; with a message field when the term, read literally and
    without regard to case, occurs nowhere between word boundaries; and, when
    it occurs [N > 0] times (the occurrences counted from the left without
    overlap, listed in [found]), with [total_matches = N] and exactly [N]
    contexts, one per occurrence counted. *)
Theorem search_content_shape (text term : string) :
  ((text = EmptyString \/ term = EmptyString) ->
   search_content text term = Py.Ret (SearchError "No text or search term provided")) /\
  (text <> EmptyString -> term <> EmptyString ->
   (forall pos, ~ occurs_at text term pos) ->
   search_content text term
   = Py.Ret (SearchMessage ("No exact matches found for '" ++ term ++ "'"))) /\
  (text <> EmptyString -> term <> EmptyString ->
   forall (found : list nat) (N : nat),
     non_overlapping_occurrences text term found ->
     N = List.length found -> (0 < N)%nat ->
     exists contexts,
       search_content text term = Py.Ret (SearchMatches (Z.of_nat N) contexts) /\
       List.length contexts = N /\
       map position contexts = map Z.of_nat found).
Proof.
  rewrite search_content_cases. split; [|split].
  - intros [-> | ->]; [reflexivity|]. now rewrite orb_true_r.
  - intros Ht Hs Hnone. rewrite both_given by assumption.
    pose proof (finditer_word_sound text term Hs) as Hsound.
    destruct (finditer (word term) text) as [|m ms]; [reflexivity|].
    apply Forall_inv in Hsound as (Hocc & _). now apply Hnone in Hocc.
  - intros Ht Hs found N Hfound HN Hpos. rewrite both_given by assumption.
    apply occurrences_unique in Hfound; [|exact Hs]. subst found.
    unfold occurrences in *.
    destruct (finditer (word term) text) as [|m ms]; [simpl in HN; lia|].
    eexists. split; [|split].
    + rewrite HN, length_map. reflexivity.
    + now rewrite HN, !length_map.
    + rewrite !map_map. reflexivity.
Qed.

Lemma search_content_shape_witness :
  search_content "" "cat" = Py.Ret (SearchError "No text or search term provided") /\
  search_content "a concatenation" "cat"
  = Py.Ret (SearchMessage "No exact matches found for 'cat'") /\
  non_overlapping_occurrences "Cat, cat and cat.cat" "cat" [0; 5; 13; 17]%nat /\
  exists contexts,
    search_content "Cat, cat and cat.cat" "cat" = Py.Ret (SearchMatches 4 contexts) /\
    List.length contexts = 4%nat /\
    map position contexts = [0; 5; 13; 17].
Proof.
  assert (Hfound : non_overlapping_occurrences "Cat, cat and cat.cat" "cat" [0; 5; 13; 17]%nat)
    by (apply (occurrences_spec "Cat, cat and cat.cat" "cat"); discriminate).
  split; [|split; [|split]].
  - apply (proj1 (search_content_shape "" "cat")). now left.
  - apply (proj1 (proj2 (search_content_shape "a concatenation" "cat"))); try discriminate.
    intros pos Hocc.
    destruct (finditer_word_complete "a concatenation" "cat" pos) as [H|(m & H & _)];
      [discriminate | exact Hocc | exact H | exact H].
  - exact Hfound.
  - apply (proj2 (proj2 (search_content_shape "Cat, cat and cat.cat" "cat")) ltac:(discriminate)
             ltac:(discriminate) [0; 5; 13; 17]%nat 4%nat Hfound); [reflexivity | lia].
Defined.

(** The context of a match of a term: its position is an offset of the
    text, and its string is a piece of the text of at most the term's length
    and 200 characters. *)
Lemma context_of_bounds (text term : string) (m : Match) :
  String.length (m_group m) = String.length term ->
  (1 <= String.length term)%nat ->
  (m_end m <= String.length text)%nat ->
  0 <= position (context_of text m) < Py.len text /\
  (exists pre post, text = pre ++ context (context_of text m) ++ post) /\
  Py.len (context (context_of text m)) <= Py.len term + 200.
Proof.
  intros Hlen Hpos Hend. unfold context_of, m_end in *. cbn [position context].
  assert (Htext : Py.len text = Z.of_nat (String.length text)) by reflexivity.
  assert (Hterm : Py.len term = Z.of_nat (String.length term)) by reflexivity.
  split; [lia|].
  destruct (slice_within text (Z.max 0 (Z.of_nat (m_start m) - 100))
              (Z.min (Py.len text) (Z.of_nat (m_start m + String.length (m_group m)) + 100)))
    as (pre & post & Hs & _ & Hl); [lia | lia |].
  split; [now exists pre, post|]. rewrite Hl. lia.
Qed.

(** Matches of one length that do not overlap start at increasing offsets. *)
Lemma starts_increase (n : nat) (ms : list Match) :
  (1 <= n)%nat ->
  Forall (fun m => String.length (m_group m) = n) ms ->
  StronglySorted (fun a b => (m_end a <= m_start b)%nat) ms ->
  StronglySorted Z.lt (map (fun m => Z.of_nat (m_start m)) ms).
Proof.
  intros Hn Hlen Hs. induction Hs as [|a l Hs IH Hall]; simpl; constructor.
  - apply IH. now apply Forall_inv_tail in Hlen.
  - apply Forall_inv in Hlen. apply Forall_map. eapply Forall_impl; [|exact Hall].
    intros b Hb. unfold m_end in Hb. lia.
Qed.

(** C9: whenever [search_content] returns matches, the contexts are listed
    by strictly increasing position; every position is an offset of the text;
    and every context string is a contiguous piece of the text, of at most
    the term's length plus 200 characters. *)
Theorem search_content_contexts (text term : string) (total : Z) (contexts : list Context) :
  search_content text term = Py.Ret (SearchMatches total contexts) ->
  StronglySorted Z.lt (map position contexts) /\
  Forall (fun c => 0 <= position c < Py.len text /\
                   (exists pre post, text = pre ++ context c ++ post) /\
                   Py.len (context c) <= Py.len term + 200)
         contexts.
Proof.
  rewrite search_content_cases. intros H.
  destruct (negb (Py.truthy text) || negb (Py.truthy term)) eqn:Hgiven; [discriminate|].
  apply orb_false_elim in Hgiven as [_ Hterm]. apply negb_false_iff, truthy_true_iff in Hterm.
  assert (Hpos : (1 <= String.length term)%nat) by (destruct term; [contradiction | simpl; lia]).
  pose proof (finditer_word_sound text term Hterm) as Hsound.
  pose proof (finditer_word_sorted text term Hterm) as Hsorted.
  destruct (finditer (word term) text) as [|m ms]; [discriminate|].
  assert (Hctx : contexts = map (context_of text) (m :: ms)) by congruence.
  rewrite Hctx. split.
  - rewrite map_map. apply (starts_increase (String.length term)); [exact Hpos | | exact Hsorted].
    eapply Forall_impl; [|exact Hsound]. now intros a (_ & Hlen & _).
  - apply Forall_map. eapply Forall_impl; [|exact Hsound].
    intros c (_ & Hlen & Hend). now apply context_of_bounds with (term := term).
Qed.

Lemma search_content_contexts_witness :
  search_content "Cat, cat and cat.cat" "cat"
  = Py.Ret (SearchMatches 4
      [ mkContext "Cat, cat and cat.cat" 0; mkContext "Cat, cat and cat.cat" 5;
        mkContext "Cat, cat and cat.cat" 13; mkContext "Cat, cat and cat.cat" 17 ]) /\
  StronglySorted Z.lt [0; 5; 13; 17] /\
  Forall (fun c => 0 <= position c < 20 /\
                   (exists pre post, "Cat, cat and cat.cat" = pre ++ context c ++ post) /\
                   Py.len (context c) <= 3 + 200)
    [ mkContext "Cat, cat and cat.cat" 0; mkContext "Cat, cat and cat.cat" 5;
      mkContext "Cat, cat and cat.cat" 13; mkContext "Cat, cat and cat.cat" 17 ].
Proof.
  split; [reflexivity|].
  exact (search_content_contexts "Cat, cat and cat.cat" "cat" 4
           [ mkContext "Cat, cat and cat.cat" 0; mkContext "Cat, cat and cat.cat" 5;
             mkContext "Cat, cat and cat.cat" 13; mkContext "Cat, cat and cat.cat" 17 ]
           eq_refl).
Defined.

End Search.

(** ** Theme scores *)

Section Themes.
Import TextAnalyzer.

Lemma sum_int_cons (x : Z) (l : list Z) : Py.sum_int (x :: l) = x + Py.sum_int l.
Proof.
  unfold Py.sum_int. simpl.
  enough (H : forall a b, fold_left Z.add l (a + b) = a + fold_left Z.add l b)
    by (rewrite <- (Z.add_0_r x) at 1; apply H).
  induction l as [|y l IH]; intros a b; simpl; [reflexivity|].
  rewrite <- Z.add_assoc. apply IH.
Qed.

Lemma sum_int_ones {A} (l : list A) : Py.sum_int (map (fun _ => 1) l) = Z.of_nat (List.length l).
Proof.
  induction l as [|x l IH]; [reflexivity|].
  cbn [map List.length]. rewrite sum_int_cons, IH. lia.
Qed.

(** A theme's count is the number of its keywords found in the text. *)
Lemma keyword_matches_length (keywords : list string) (text : string) :
  keyword_matches keywords text
  = Z.of_nat (List.length (filter (fun keyword => Py.contains keyword text) keywords)).
Proof.
  unfold keyword_matches. apply sum_int_ones.
Qed.

Lemma keyword_matches_range (keywords : list string) (text : string) :
  0 <= keyword_matches keywords text <= Z.of_nat (List.length keywords).
Proof.
  rewrite keyword_matches_length. pose proof (filter_length_le (fun k => Py.contains k text) keywords).
  lia.
Qed.

Lemma keyword_matches_positive (keywords : list string) (text : string) :
  0 < keyword_matches keywords text <->
  exists keyword, In keyword keywords /\ Py.contains keyword text = true.
Proof.
  rewrite keyword_matches_length. split.
  - intros H. destruct (filter _ keywords) as [|k l] eqn:E; [simpl in H; lia|].
    exists k. apply (filter_In (fun keyword => Py.contains keyword text)). rewrite E. now left.
  - intros (k & Hin & Hk).
    assert (Hf : In k (filter (fun keyword => Py.contains keyword text) keywords))
      by (apply filter_In; auto).
    destruct (filter _ keywords); [contradiction | simpl; lia].
Qed.

(** Setting a key that the dictionary does not hold adds it at the end. *)
Lemma dict_set_fresh {V} (d : Py.dict V) (k : string) (v : V) :
  ~ In k (Py.keys d) -> Py.dict_set d k v = (d ++ [(k, v)])%list.
Proof.
  induction d as [|[k' v'] d IH]; simpl; intros Hfresh; [reflexivity|].
  destruct (String.eqb_spec k' k) as [->|Hne]; [tauto|].
  rewrite IH by tauto. reflexivity.
Qed.

(** The counts of a table, theme by theme. *)
Definition theme_counts (table : Py.dict (list string)) (text : string) : Py.dict Z :=
  map (fun item => (fst item, keyword_matches (snd item) text)) table.

Lemma count_themes_from (text : string) (table : Py.dict (list string)) :
  forall (acc : Py.dict Z) (total : Z),
    NoDup (Py.keys acc ++ Py.keys table) ->
    fold_left
      (fun acc item =>
         let '(theme_scores, total_theme_matches) := acc in
         let '(theme, keywords) := item in
         let matches := keyword_matches keywords text in
         (Py.dict_set theme_scores theme matches, total_theme_matches + matches))
      table (acc, total)
    = ((acc ++ theme_counts table text)%list,
       total + Py.sum_int (Py.values (theme_counts table text))).
Proof.
  induction table as [|[theme keywords] table IH]; intros acc total Hnodup.
  - simpl. rewrite app_nil_r. f_equal. unfold Py.sum_int. simpl. lia.
  - cbn [fold_left]. rewrite dict_set_fresh.
    + rewrite IH.
      * cbn [theme_counts map fst snd Py.values]. rewrite <- app_assoc, sum_int_cons.
        f_equal. unfold Py.values, theme_counts. lia.
      * unfold Py.keys in *. rewrite map_app, <- app_assoc. exact Hnodup.
    + intros Hin. unfold Py.keys in Hnodup. simpl in Hnodup.
      apply NoDup_remove_2 in Hnodup. apply Hnodup. apply in_or_app. now left.
Qed.

(** The loop of [_analyze_themes] over a table without repeated themes. *)
Lemma count_themes_spec (table : Py.dict (list string)) (text : string) :
  NoDup (Py.keys table) ->
  count_themes table text
  = (theme_counts table text, Py.sum_int (Py.values (theme_counts table text))).
Proof.
  intros Hnodup. unfold count_themes. now rewrite count_themes_from.
Qed.

(** The scores [_analyze_themes] makes of the counts: each count divided
    by their sum when the sum is positive, the counts themselves otherwise. *)
Definition scores_of (counts : Py.dict Z) : Py.dict Py.Num :=
  let total := Py.sum_int (Py.values counts) in
  if 0 <? total
  then map (fun item => (fst item, Py.PFloat (PrimFloat.div (Py.float_of_int (snd item))
                                                            (Py.float_of_int total))))
           counts
  else map (fun item => (fst item, Py.PInt (snd item))) counts.

Lemma normalize_returns (total : Z) (counts : Py.dict Z) :
  total <> 0 ->
  Py.mapM (fun item => let '(theme, score) := item in
                       Py.bind (Py.truediv score total) (fun s => Py.Ret (theme, s)))
          counts
  = Py.Ret (map (fun item => (fst item, Py.PFloat (PrimFloat.div (Py.float_of_int (snd item))
                                                                  (Py.float_of_int total))))
                counts).
Proof.
  intros Hne. induction counts as [|[theme score] counts IH]; [reflexivity|].
  cbn [Py.mapM map fst snd]. rewrite IH. unfold Py.truediv.
  destruct (total =? 0) eqn:E; [apply Z.eqb_eq in E; contradiction | reflexivity].
Qed.

(** [_analyze_themes] never raises: the division is made by a positive sum
    only. *)
Lemma analyze_themes_spec (self : t) (text : string) :
  NoDup (Py.keys (themes self)) ->
  _analyze_themes self text = Py.Ret (scores_of (theme_counts (themes self) text)).
Proof.
  intros Hnodup. unfold _analyze_themes, scores_of. rewrite count_themes_spec by exact Hnodup.
  destruct (0 <? Py.sum_int (Py.values (theme_counts (themes self) text))) eqn:E.
  - apply Z.ltb_lt in E. apply normalize_returns. lia.
  - apply f_equal. apply map_ext. now intros [theme score].
Qed.

Lemma theme_table_nodup : NoDup (Py.keys theme_table).
Proof.
  unfold theme_table, Py.keys. simpl.
  repeat (constructor; [simpl; intuition discriminate|]). constructor.
Qed.

End Themes.

(** ** [analyze_text] returns a report whenever the tokenizer answers *)

Section AnalyzeText.
Import TextAnalyzer.

Variable word_tokenize : string -> Py.Outcome (list string).
Variable self : t.

(** The number of sentence ends [_analyze_language_patterns] counts. *)
Definition sentence_ends (text : string) : Z :=
  Z.of_nat (List.length (Re.findall (Re.class_plus Re.is_terminator) text)).

(** A guarded division [a / b if b > 0 else 0] never raises. *)
Lemma guarded_division (a b : Z) :
  exists q, (if 0 <? b then Py.truediv a b else Py.Ret (Py.PInt 0)) = Py.Ret q /\
            (b = 0 -> q = Py.PInt 0).
Proof.
  destruct (0 <? b) eqn:E.
  - apply Z.ltb_lt in E. unfold Py.truediv.
    destruct (b =? 0) eqn:E'; [apply Z.eqb_eq in E'; lia|].
    eexists. split; [reflexivity | lia].
  - eexists. split; [reflexivity | reflexivity].
Qed.

(** [_analyze_language_patterns] never raises, and the average is the int
    [0] when no sentence end is counted. *)
Lemma language_patterns_returns (text : string) :
  exists p,
    _analyze_language_patterns text = Py.Ret p /\
    sentence_count p = sentence_ends text /\
    (sentence_ends text = 0 -> average_sentence_length p = Py.PInt 0).
Proof.
  unfold _analyze_language_patterns. fold (sentence_ends text).
  destruct (guarded_division (Z.of_nat (List.length (Py.split text))) (sentence_ends text))
    as (q & Hq & Hzero).
  rewrite Hq. cbn [Py.bind]. eexists. split; [reflexivity|]. split; [reflexivity | exact Hzero].
Qed.

(** The words [analyze_text] counts: alphanumeric and no stopword. *)
Definition filtered (words : list string) : list string :=
  filter (fun word => Py.isalnum word && negb (Py.mem word (stop_words self))) words.

(** With a non-empty text, a tokenizer that answers and a theme table
    without repeated themes, [analyze_text] returns the report. *)
Lemma analyze_text_returns (text : string) (words : list string) :
  text <> EmptyString ->
  word_tokenize (Py.lower text) = Py.Ret words ->
  NoDup (Py.keys (themes self)) ->
  exists average_word_length patterns,
    _analyze_language_patterns text = Py.Ret patterns /\
    analyze_text word_tokenize self text
    = Py.Ret (Analysis
                (mkStatistics (Z.of_nat (List.length words)) (Py.count_distinct words)
                              average_word_length)
                (scores_of (theme_counts (themes self) (Py.lower text)))
                patterns
                (Py.dict_of_pairs (most_common 20 (Counter (filtered words))))).
Proof.
  intros Hne Htok Hnodup. apply truthy_true_iff in Hne.
  destruct (language_patterns_returns text) as (patterns & Hpat & _).
  destruct (guarded_division (Py.sum_int (map Py.len words)) (Z.of_nat (List.length words)))
    as (awl & Hawl & _).
  exists awl, patterns. split; [exact Hpat|].
  unfold analyze_text, analyze_text_body. rewrite Hne. cbn [negb].
  rewrite Htok. cbn [Py.bind]. rewrite analyze_themes_spec by exact Hnodup.
  cbn [Py.bind]. rewrite Hpat. cbn [Py.bind]. rewrite Hawl. reflexivity.
Qed.

End AnalyzeText.

(** ** The scores of the six themes sum to one *)

Section Normalization.
Import TextAnalyzer.

(** One unit in the last place of [1.0]: the tolerance of the sum. *)
Definition tolerance : float := 0x1p-52%float.

(** [abs(x - 1.0) <= tolerance]. *)
Definition close_to_one (x : Py.Num) : bool :=
  match x with
  | Py.PFloat f => PrimFloat.leb (PrimFloat.abs (PrimFloat.sub f 1%float)) tolerance
  | Py.PInt z => z =? 1
  end.

(** All the lists of counts within the given bounds, one bound per theme. *)
Fixpoint count_vectors (bounds : list nat) : list (list Z) :=
  match bounds with
  | [] => [[]]
  | b :: bounds' =>
      flat_map (fun c => map (cons c) (count_vectors bounds')) (map Z.of_nat (seq 0 (S b)))
  end.

Lemma count_vectors_complete (bounds : list nat) : forall counts : list Z,
  Forall2 (fun c b => 0 <= c <= Z.of_nat b) counts bounds ->
  In counts (count_vectors bounds).
Proof.
  induction bounds as [|b bounds IH]; intros counts H; inversion H; subst; cbn [count_vectors].
  - now left.
  - apply in_flat_map. exists x. split.
    + replace x with (Z.of_nat (Z.to_nat x)) by lia. apply in_map, in_seq. lia.
    + apply in_map. now apply IH.
Qed.

Definition theme_names : list string := Py.keys theme_table.
Definition keyword_lists : list (list string) := Py.values theme_table.

(** The sum of the scores made of one list of counts is within the
    tolerance of one, if any count is positive. *)
Definition sum_close (counts : list Z) : bool :=
  let d := combine theme_names counts in
  implb (0 <? Py.sum_int (Py.values d)) (close_to_one (Py.sum (Py.values (scores_of d)))).

(** Every list of counts the table allows, tried in turn: 200704 lists. *)
Lemma sum_close_everywhere :
  forallb sum_close (count_vectors (map (@List.length string) keyword_lists)) = true.
Proof.
  vm_compute. reflexivity.
Qed.

Lemma theme_counts_combine (text : string) :
  theme_counts theme_table text
  = combine theme_names (map (fun keywords => keyword_matches keywords text) keyword_lists).
Proof.
  reflexivity.
Qed.

Lemma counts_within_bounds (text : string) (lists : list (list string)) :
  Forall2 (fun c b => 0 <= c <= Z.of_nat b)
          (map (fun keywords => keyword_matches keywords text) lists)
          (map (@List.length string) lists).
Proof.
  induction lists as [|k lists IH]; simpl; constructor; [apply keyword_matches_range | exact IH].
Qed.

(** The sum of the six scores of any text is within the tolerance of one
    when the total count is positive. *)
Lemma theme_scores_sum (text : string) :
  0 < Py.sum_int (Py.values (theme_counts theme_table text)) ->
  close_to_one (Py.sum (Py.values (scores_of (theme_counts theme_table text)))) = true.
Proof.
  intros Hpos. rewrite theme_counts_combine in *.
  pose proof sum_close_everywhere as Hall. rewrite forallb_forall in Hall.
  specialize (Hall _ (count_vectors_complete _ _ (counts_within_bounds text keyword_lists))).
  unfold sum_close in Hall. apply Z.ltb_lt in Hpos. rewrite Hpos in Hall. exact Hall.
Qed.

Lemma sum_int_nonneg (l : list Z) : Forall (fun x => 0 <= x) l -> 0 <= Py.sum_int l.
Proof.
  induction 1 as [|x l Hx Hl IH]; [reflexivity | rewrite sum_int_cons; lia].
Qed.

Lemma sum_int_zero (l : list Z) :
  Forall (fun x => 0 <= x) l -> Py.sum_int l = 0 -> Forall (fun x => x = 0) l.
Proof.
  induction 1 as [|x l Hx Hl IH]; intros Hsum; constructor; rewrite sum_int_cons in Hsum;
    pose proof (sum_int_nonneg l Hl); [lia | apply IH; lia].
Qed.

(** The total count of a table is positive exactly when some keyword of
    some theme occurs in the text. *)
Definition some_keyword_in (table : Py.dict (list string)) (text : string) : Prop :=
  exists theme keywords keyword,
    In (theme, keywords) table /\ In keyword keywords /\ Py.contains keyword text = true.

Lemma theme_counts_nonneg (table : Py.dict (list string)) (text : string) :
  Forall (fun x => 0 <= x) (Py.values (theme_counts table text)).
Proof.
  induction table as [|[theme keywords] table IH]; simpl; constructor; [|exact IH].
  apply keyword_matches_range.
Qed.

Lemma total_positive_iff (table : Py.dict (list string)) (text : string) :
  0 < Py.sum_int (Py.values (theme_counts table text)) <-> some_keyword_in table text.
Proof.
  induction table as [|[theme keywords] table IH].
  - split; [unfold Py.sum_int; simpl; lia | now intros (? & ? & ? & [] & _)].
  - cbn [theme_counts map Py.values fst snd]. rewrite sum_int_cons.
    pose proof (keyword_matches_range keywords text) as Hk.
    pose proof (sum_int_nonneg _ (theme_counts_nonneg table text)) as Ht.
    fold (theme_counts table text) in *. fold (Py.values (theme_counts table text)) in *.
    split.
    + intros Hpos. destruct (Z.lt_ge_cases 0 (keyword_matches keywords text)) as [H|H].
      * apply keyword_matches_positive in H as (keyword & Hin & Hc).
        exists theme, keywords, keyword. split; [now left | auto].
      * destruct (proj1 IH) as (th & ks & k & Hin & Hk' & Hc); [lia|].
        exists th, ks, k. split; [now right | auto].
    + intros (th & ks & k & [Hin|Hin] & Hk' & Hc).
      * injection Hin as <- <-.
        assert (0 < keyword_matches keywords text)
          by (apply keyword_matches_positive; now exists k).
        lia.
      * assert (0 < Py.sum_int (Py.values (theme_counts table text)))
          by (apply IH; now exists th, ks, k).
        lia.
Qed.

Lemma scores_of_keys (counts : Py.dict Z) : Py.keys (scores_of counts) = Py.keys counts.
Proof.
  unfold scores_of, Py.keys. destruct (0 <? _); rewrite map_map; reflexivity.
Qed.

Lemma theme_counts_keys (table : Py.dict (list string)) (text : string) :
  Py.keys (theme_counts table text) = Py.keys table.
Proof.
  unfold theme_counts, Py.keys. rewrite map_map. reflexivity.
Qed.

(** C2: for every non-empty text on which the tokenizer answers,
    [analyze_text] returns scores for the six themes, in the order of the
    table; if some keyword occurs in the lower-cased text, their sum as
    floats is within one unit in the last place of [1.0]; if none occurs,
    every score is the int [0]. *)
Theorem theme_scores_normalized
  (word_tokenize : string -> Py.Outcome (list string)) (english_stopwords words : list string)
  (text : string) :
  text <> EmptyString ->
  word_tokenize (Py.lower text) = Py.Ret words ->
  exists statistics scores patterns top,
    analyze_text word_tokenize (init english_stopwords) text
    = Py.Ret (Analysis statistics scores patterns top) /\
    Py.keys scores = ["community"; "convenience"; "location"; "amenities"; "lifestyle";
                      "sustainability"] /\
    (some_keyword_in theme_table (Py.lower text) ->
     close_to_one (Py.sum (Py.values scores)) = true) /\
    (~ some_keyword_in theme_table (Py.lower text) ->
     Forall (fun score => score = Py.PInt 0) (Py.values scores)).
Proof.
  intros Hne Htok.
  destruct (analyze_text_returns word_tokenize (init english_stopwords) text words Hne Htok
              theme_table_nodup) as (awl & patterns & _ & Hrun).
  cbn [themes init] in Hrun.
  eexists _, _, _, _. split; [exact Hrun|]. split; [|split].
  - rewrite scores_of_keys, theme_counts_keys. reflexivity.
  - intros Hsome. apply theme_scores_sum. now apply total_positive_iff.
  - intros Hnone.
    assert (Hzero : Py.sum_int (Py.values (theme_counts theme_table (Py.lower text))) = 0).
    { pose proof (sum_int_nonneg _ (theme_counts_nonneg theme_table (Py.lower text))).
      destruct (Z.lt_ge_cases 0 (Py.sum_int (Py.values (theme_counts theme_table (Py.lower text)))))
        as [H'|H']; [apply total_positive_iff in H'; contradiction | lia]. }
    pose proof (sum_int_zero _ (theme_counts_nonneg theme_table (Py.lower text)) Hzero) as Hall.
    unfold scores_of. rewrite Hzero. cbn [Z.ltb Z.compare].
    unfold Py.values in *. rewrite map_map. apply Forall_map. apply Forall_map in Hall.
    eapply Forall_impl; [|exact Hall].
    intros item Hitem. cbn [snd]. now rewrite Hitem.
Qed.

(** A tokenizer that answers on every text, and the report on a text with
    keywords of two themes. *)
Lemma theme_scores_normalized_witness :
  exists statistics scores patterns top,
    analyze_text split_tokenize (init few_stopwords) "A green and quiet place, easy to reach"
    = Py.Ret (Analysis statistics scores patterns top) /\
    Py.keys scores = ["community"; "convenience"; "location"; "amenities"; "lifestyle";
                      "sustainability"] /\
    close_to_one (Py.sum (Py.values scores)) = true.
Proof.
  destruct (theme_scores_normalized split_tokenize few_stopwords
              (Py.split (Py.lower "A green and quiet place, easy to reach"))
              "A green and quiet place, easy to reach")
    as (statistics & scores & patterns & top & Hrun & Hkeys & Hsome & _);
    [discriminate | reflexivity |].
  exists statistics, scores, patterns, top. split; [exact Hrun|]. split; [exact Hkeys|].
  apply Hsome. exists "sustainability", ["sustainable"; "eco-friendly"; "green"; "environmental";
                                         "energy"; "recycle"], "green".
  split; [simpl; tauto|]. split; [simpl; tauto | reflexivity].
Defined.

(** The tolerance is needed: with one keyword of each theme in the text,
    the six scores are [1/6] each and add up to the float just below [1.0]. *)
Example theme_scores_sum_below_one :
  Py.sum (Py.values (scores_of (theme_counts theme_table
                                  "community easy area amenities living green")))
  = Py.PFloat 0x1.fffffffffffffp-1%float.
Proof. vm_compute. reflexivity. Qed.

(** *** The scenario ["community community amenities"] *)

Definition scenario : string := "community community amenities".

(** The score of a theme in what [analyze_text] returned. *)
Definition theme_score (r : Py.Outcome AnalysisResult) (theme : string) : option Py.Num :=
  match r with
  | Py.Ret (Analysis _ scores _ _) => Py.dict_get scores theme
  | _ => None
  end.

(** The outcome of the scenario as the specification states it. *)
Definition community_above_amenities (r : Py.Outcome AnalysisResult) : Prop :=
  exists c a,
    theme_score r "community" = Some c /\ theme_score r "amenities" = Some a /\
    Py.gt c a = true.

(** C3, as amended: whenever the tokenizer answers,
    [analyze_text("community community amenities")] returns a report in
    which the scores of [community] and [amenities] are equal, [0.5] each,
    the other four being [0.0]: a keyword counts once however often it
    occurs. *)
Theorem scenario_scores_equal
  (word_tokenize : string -> Py.Outcome (list string)) (english_stopwords words : list string) :
  word_tokenize (Py.lower scenario) = Py.Ret words ->
  exists statistics patterns top,
    analyze_text word_tokenize (init english_stopwords) scenario
    = Py.Ret (Analysis statistics
                [ ("community", Py.PFloat 0.5); ("convenience", Py.PFloat 0);
                  ("location", Py.PFloat 0); ("amenities", Py.PFloat 0.5);
                  ("lifestyle", Py.PFloat 0); ("sustainability", Py.PFloat 0) ]
                patterns top) /\
    theme_score (analyze_text word_tokenize (init english_stopwords) scenario) "community"
    = theme_score (analyze_text word_tokenize (init english_stopwords) scenario) "amenities".
Proof.
  intros Htok.
  destruct (analyze_text_returns word_tokenize (init english_stopwords) scenario words
              ltac:(discriminate) Htok theme_table_nodup) as (awl & patterns & _ & Hrun).
  eexists _, patterns, _. rewrite Hrun. split; reflexivity.
Qed.

Lemma scenario_scores_equal_witness :
  exists statistics patterns top,
    analyze_text split_tokenize (init few_stopwords) scenario
    = Py.Ret (Analysis statistics
                [ ("community", Py.PFloat 0.5); ("convenience", Py.PFloat 0);
                  ("location", Py.PFloat 0); ("amenities", Py.PFloat 0.5);
                  ("lifestyle", Py.PFloat 0); ("sustainability", Py.PFloat 0) ]
                patterns top) /\
    theme_score (analyze_text split_tokenize (init few_stopwords) scenario) "community"
    = theme_score (analyze_text split_tokenize (init few_stopwords) scenario) "amenities".
Proof.
  exact (scenario_scores_equal split_tokenize few_stopwords
           ["community"; "community"; "amenities"] eq_refl).
Defined.

(** C3 as stated fails: on the scenario the two scores are both [0.5], and
    [0.5 > 0.5] does not hold. *)
Lemma scenario_community_not_above :
  theme_score (analyze_text split_tokenize (init few_stopwords) scenario) "community"
  = Some (Py.PFloat 0.5) /\
  theme_score (analyze_text split_tokenize (init few_stopwords) scenario) "amenities"
  = Some (Py.PFloat 0.5) /\
  ~ community_above_amenities (analyze_text split_tokenize (init few_stopwords) scenario).
Proof.
  split; [reflexivity|]. split; [reflexivity|].
  intros (c & a & Hc & Ha & Hgt).
  change (Some (Py.PFloat 0.5) = Some c) in Hc. change (Some (Py.PFloat 0.5) = Some a) in Ha.
  injection Hc as <-. injection Ha as <-. discriminate Hgt.
Qed.

End Normalization.

(** ** The guarded average sentence length *)

Section Sentences.
Import TextAnalyzer.

(** No ['.'], ['!'] or ['?'] in the text. *)
Definition no_terminator (text : string) : Prop :=
  Py.contains "." text = false /\ Py.contains "!" text = false /\ Py.contains "?" text = false.

Lemma contains_char_cons (c d : ascii) (s : string) :
  Py.contains (String c EmptyString) (String d s) = false ->
  Ascii.eqb d c = false /\ Py.contains (String c EmptyString) s = false.
Proof.
  cbn [Py.contains prefix]. destruct (ascii_dec c d) as [->|Hne].
  - destruct s; discriminate.
  - intros H. split; [now apply Ascii.eqb_neq; intros ->|].
    destruct s; exact H.
Qed.

Lemma no_terminator_cons (c : ascii) (s : string) :
  no_terminator (String c s) -> Re.is_terminator c = false /\ no_terminator s.
Proof.
  intros (H1 & H2 & H3).
  apply contains_char_cons in H1 as [E1 H1], H2 as [E2 H2], H3 as [E3 H3].
  unfold Re.is_terminator, no_terminator. rewrite E1, E2, E3. auto.
Qed.

(** A text without terminator holds no match of [[.!?]+]. *)
Lemma scan_no_terminator (s : string) : forall (prev : option ascii) (pos skip : nat),
  no_terminator s -> Re.scan (Re.class_plus Re.is_terminator) prev s pos skip = [].
Proof.
  induction s as [|c s IH]; intros prev pos skip Hno; [reflexivity|].
  apply no_terminator_cons in Hno as [Hc Hno]. cbn [Re.scan].
  destruct skip; [|now apply IH].
  unfold Re.class_plus. cbn [Re.run_length]. rewrite Hc. now apply IH.
Qed.

Lemma sentence_ends_zero (text : string) : no_terminator text -> sentence_ends text = 0.
Proof.
  intros Hno. unfold sentence_ends, Re.findall, Re.finditer.
  now rewrite scan_no_terminator.
Qed.

(** C8: [_analyze_language_patterns] never raises, whatever the text; for
    a text without ['.'], ['!'] and ['?'] its [sentence_count] is [0] and its
    [average_sentence_length] is the int [0], and these are the language
    patterns of the report [analyze_text] returns when the tokenizer
    answers. *)
Theorem average_sentence_length_guarded
  (word_tokenize : string -> Py.Outcome (list string)) (english_stopwords : list string)
  (text : string) :
  (exists patterns, _analyze_language_patterns text = Py.Ret patterns) /\
  (no_terminator text ->
   exists patterns,
     _analyze_language_patterns text = Py.Ret patterns /\
     sentence_count patterns = 0 /\
     average_sentence_length patterns = Py.PInt 0 /\
     forall words, text <> EmptyString -> word_tokenize (Py.lower text) = Py.Ret words ->
       exists statistics scores top,
         analyze_text word_tokenize (init english_stopwords) text
         = Py.Ret (Analysis statistics scores patterns top)).
Proof.
  destruct (language_patterns_returns text) as (patterns & Hpat & Hcount & Havg).
  split; [now exists patterns|].
  intros Hno. apply sentence_ends_zero in Hno.
  exists patterns. rewrite Hcount. repeat split; auto.
  intros words Hne Htok.
  destruct (analyze_text_returns word_tokenize (init english_stopwords) text words Hne Htok
              theme_table_nodup) as (awl & patterns' & Hpat' & Hrun).
  assert (patterns' = patterns) as -> by congruence.
  eexists _, _, _. exact Hrun.
Qed.

Lemma average_sentence_length_guarded_witness :
  exists patterns,
    _analyze_language_patterns "no full stop here" = Py.Ret patterns /\
    sentence_count patterns = 0 /\
    average_sentence_length patterns = Py.PInt 0 /\
    exists statistics scores top,
      analyze_text split_tokenize (init few_stopwords) "no full stop here"
      = Py.Ret (Analysis statistics scores patterns top).
Proof.
  destruct (proj2 (average_sentence_length_guarded split_tokenize few_stopwords
                     "no full stop here"))
    as (patterns & Hpat & Hcount & Havg & Hrun); [repeat split; reflexivity|].
  exists patterns. repeat split; auto.
  apply (Hrun (Py.split (Py.lower "no full stop here"))); [discriminate | reflexivity].
Defined.

End Sentences.

(** ** Dictionaries and counters *)

Section Counting.
Import TextAnalyzer.

Lemma dict_get_none {V} (d : Py.dict V) (k : string) :
  Py.dict_get d k = None <-> ~ In k (Py.keys d).
Proof.
  induction d as [|[k' v'] d IH]; simpl; [tauto|].
  destruct (String.eqb_spec k' k) as [->|Hne].
  - split; [discriminate | tauto].
  - rewrite IH. tauto.
Qed.

Lemma dict_get_set {V} (d : Py.dict V) (k k' : string) (v : V) :
  Py.dict_get (Py.dict_set d k v) k'
  = if String.eqb k k' then Some v else Py.dict_get d k'.
Proof.
  induction d as [|[k0 v0] d IH]; simpl.
  - reflexivity.
  - destruct (String.eqb_spec k0 k) as [->|Hne]; simpl.
    + now destruct (String.eqb_spec k k').
    + rewrite IH. destruct (String.eqb_spec k0 k') as [->|Hne'].
      * destruct (String.eqb_spec k k'); [congruence | reflexivity].
      * reflexivity.
Qed.

Lemma dict_set_keys_present {V} (d : Py.dict V) (k : string) (v : V) :
  In k (Py.keys d) -> Py.keys (Py.dict_set d k v) = Py.keys d.
Proof.
  induction d as [|[k0 v0] d IH]; simpl; [tauto|].
  intros Hin. destruct (String.eqb_spec k0 k) as [->|Hne]; [reflexivity|].
  simpl. f_equal. apply IH. destruct Hin; [contradiction | assumption].
Qed.

Lemma dict_get_in {V} (d : Py.dict V) (k : string) (v : V) :
  Py.dict_get d k = Some v -> In (k, v) d.
Proof.
  induction d as [|[k0 v0] d IH]; simpl; [discriminate|].
  destruct (String.eqb_spec k0 k) as [->|Hne]; [intros [= ->]; now left | auto].
Qed.

Lemma in_dict_get {V} (d : Py.dict V) (k : string) (v : V) :
  NoDup (Py.keys d) -> In (k, v) d -> Py.dict_get d k = Some v.
Proof.
  induction d as [|[k0 v0] d IH]; simpl; [tauto|].
  intros Hnodup [Heq|Hin].
  - injection Heq as -> ->. now rewrite String.eqb_refl.
  - inversion Hnodup as [|? ? Hfresh Hnodup']; subst.
    destruct (String.eqb_spec k0 k) as [->|Hne]; [|now apply IH].
    exfalso. apply Hfresh. unfold Py.keys. now apply (in_map fst _ (k, v)).
Qed.

(** [dict(pairs)] keeps a list of pairs with distinct keys as it is. *)
Lemma dict_of_pairs_nodup {V} (pairs : list (string * V)) :
  NoDup (Py.keys pairs) -> Py.dict_of_pairs pairs = pairs.
Proof.
  unfold Py.dict_of_pairs.
  enough (H : forall acc, NoDup (Py.keys acc ++ Py.keys pairs) ->
                fold_left (fun d kv => Py.dict_set d (fst kv) (snd kv)) pairs acc
                = (acc ++ pairs)%list) by (intros Hn; apply (H [] Hn)).
  induction pairs as [|[k v] pairs IH]; intros acc Hnodup; simpl.
  - now rewrite app_nil_r.
  - rewrite dict_set_fresh.
    + rewrite IH; [now rewrite <- app_assoc|].
      unfold Py.keys in *. rewrite map_app, <- app_assoc. exact Hnodup.
    + intros Hin. simpl in Hnodup. apply NoDup_remove_2 in Hnodup.
      apply Hnodup. apply in_or_app. now left.
Qed.

(** How often [w] stands in [l], and where it stands first. *)
Definition count_in (w : string) (l : list string) : Z :=
  Z.of_nat (count_occ string_dec l w).

Fixpoint first_index (w : string) (l : list string) : nat :=
  match l with
  | [] => O
  | x :: l' => if String.eqb x w then O else S (first_index w l')
  end.

Lemma first_index_app_in (w : string) (l m : list string) :
  In w l -> first_index w (l ++ m) = first_index w l.
Proof.
  induction l as [|x l IH]; simpl; [tauto|].
  intros Hin. destruct (String.eqb_spec x w) as [->|Hne]; [reflexivity|].
  f_equal. apply IH. destruct Hin; [contradiction | assumption].
Qed.

Lemma first_index_lt (w : string) (l : list string) :
  In w l -> (first_index w l < List.length l)%nat.
Proof.
  induction l as [|x l IH]; simpl; [tauto|].
  intros Hin. destruct (String.eqb_spec x w) as [->|Hne]; [lia|].
  destruct Hin; [contradiction|]. apply IH in H. lia.
Qed.

Lemma first_index_app_fresh (w : string) (l : list string) :
  ~ In w l -> first_index w (l ++ [w]) = List.length l.
Proof.
  induction l as [|x l IH]; simpl; intros Hfresh.
  - now rewrite String.eqb_refl.
  - destruct (String.eqb_spec x w) as [->|Hne]; [tauto|]. f_equal. apply IH. tauto.
Qed.

Lemma count_in_snoc_same (w : string) (l : list string) :
  count_in w (l ++ [w]) = count_in w l + 1.
Proof.
  unfold count_in. rewrite count_occ_app. simpl.
  destruct (string_dec w w); [lia | contradiction].
Qed.

Lemma count_in_snoc_other (w x : string) (l : list string) :
  x <> w -> count_in w (l ++ [x]) = count_in w l.
Proof.
  intros Hne. unfold count_in. rewrite count_occ_app. simpl.
  destruct (string_dec x w); [contradiction | lia].
Qed.

Lemma count_in_positive (w : string) (l : list string) : In w l <-> 1 <= count_in w l.
Proof.
  unfold count_in. rewrite (count_occ_In string_dec). lia.
Qed.

Lemma StronglySorted_weaken {A} (R R' : A -> A -> Prop) (l : list A) :
  (forall a b, In a l -> In b l -> R a b -> R' a b) ->
  StronglySorted R l -> StronglySorted R' l.
Proof.
  intros HR Hs. induction Hs as [|a l Hs IH Hall]; constructor.
  - apply IH. intros x y Hx Hy. apply HR; now right.
  - rewrite Forall_forall in *. intros b Hb. apply HR; [now left | now right | now apply Hall].
Qed.

Lemma StronglySorted_snoc {A} (R : A -> A -> Prop) (l : list A) (x : A) :
  StronglySorted R l -> Forall (fun a => R a x) l -> StronglySorted R (l ++ [x]).
Proof.
  intros Hs Hall. induction Hs as [|a l Hs IH Ha]; simpl.
  - repeat constructor.
  - inversion Hall; subst. constructor; [now apply IH|].
    apply Forall_app. split; [exact Ha | now constructor].
Qed.

(** What a counter holds after counting the words [l]: each word of [l]
    once, with its number of occurrences, in the order of first occurrence. *)
Definition counted (l : list string) (d : Py.dict Z) : Prop :=
  NoDup (Py.keys d) /\
  (forall w, In w l -> Py.dict_get d w = Some (count_in w l)) /\
  (forall w, ~ In w l -> Py.dict_get d w = None) /\
  StronglySorted (fun a b => (first_index a l < first_index b l)%nat) (Py.keys d).

Lemma counted_keys (l : list string) (d : Py.dict Z) (w : string) :
  counted l d -> (In w (Py.keys d) <-> In w l).
Proof.
  intros (_ & Hin & Hout & _). split.
  - intros Hk. destruct (in_dec string_dec w l) as [H|H]; [exact H|].
    apply Hout in H. apply dict_get_none in H. contradiction.
  - intros Hl. destruct (in_dec string_dec w (Py.keys d)) as [Hk|Hk]; [exact Hk|].
    apply dict_get_none in Hk. rewrite (Hin w Hl) in Hk. discriminate.
Qed.

Lemma counter_add_counted (l : list string) (d : Py.dict Z) (x : string) :
  counted l d -> counted (l ++ [x]) (counter_add d x).
Proof.
  intros Hd. pose proof Hd as (Hnodup & Hin & Hout & Hsorted).
  assert (Hget : forall w, In w (l ++ [x]) ->
            Py.dict_get (counter_add d x) w = Some (count_in w (l ++ [x]))).
  { intros w Hw. unfold counter_add. rewrite dict_get_set.
    destruct (String.eqb_spec x w) as [->|Hne].
    - rewrite count_in_snoc_same. destruct (in_dec string_dec w l) as [H|H].
      + now rewrite (Hin w H).
      + rewrite (Hout w H). unfold count_in.
        apply (count_occ_not_In string_dec) in H. rewrite H. reflexivity.
    - rewrite count_in_snoc_other by exact Hne. apply Hin.
      apply in_app_or in Hw as [H|[H|[]]]; [exact H | contradiction]. }
  assert (Hmiss : forall w, ~ In w (l ++ [x]) -> Py.dict_get (counter_add d x) w = None).
  { intros w Hw. unfold counter_add. rewrite dict_get_set.
    destruct (String.eqb_spec x w) as [->|Hne].
    - exfalso. apply Hw. apply in_or_app. right. now left.
    - apply Hout. intros H. apply Hw. apply in_or_app. now left. }
  assert (Hold : StronglySorted (fun a b => (first_index a (l ++ [x]) < first_index b (l ++ [x]))%nat)
                                (Py.keys d)).
  { eapply StronglySorted_weaken; [|exact Hsorted].
    intros a b Ha Hb Hab. apply (counted_keys l d a Hd) in Ha. apply (counted_keys l d b Hd) in Hb.
    now rewrite !first_index_app_in. }
  destruct (in_dec string_dec x l) as [Hx|Hx].
  - assert (Hk : In x (Py.keys d)) by now apply (counted_keys l d x Hd).
    unfold counted. unfold counter_add at 1 4.
    rewrite !dict_set_keys_present by exact Hk. auto.
  - assert (Hk : ~ In x (Py.keys d)) by (intros H; now apply (counted_keys l d x Hd) in H).
    assert (Hkeys : Py.keys (counter_add d x) = (Py.keys d ++ [x])%list).
    { unfold counter_add. rewrite dict_set_fresh by exact Hk. unfold Py.keys.
      now rewrite map_app. }
    unfold counted. rewrite Hkeys. repeat split; auto.
    + apply NoDup_app; [exact Hnodup | repeat constructor; tauto |].
      intros a Ha [<-|[]]. contradiction.
    + apply StronglySorted_snoc; [exact Hold|].
      apply Forall_forall. intros a Ha. apply (counted_keys l d a Hd) in Ha.
      rewrite first_index_app_in by exact Ha. rewrite first_index_app_fresh by exact Hx.
      now apply first_index_lt.
Qed.

Lemma Counter_counted (l : list string) : counted l (Counter l).
Proof.
  induction l as [|x l IH] using rev_ind.
  - unfold Counter, counted. simpl. split; [constructor|]. split; [tauto|].
    split; [reflexivity | constructor].
  - unfold Counter in *. rewrite fold_left_app. simpl. now apply counter_add_counted.
Qed.

End Counting.

(** ** The most common words *)

Section TopWords.
Import TextAnalyzer.

(** The words counted, in the order read: the key of the ordering below. *)
Variable counted_words : list string.

(** [a] comes before [b] in [top_words]: it is more frequent, or as
    frequent and seen first. *)
Definition ranks_before (a b : string * Z) : Prop :=
  snd b < snd a \/
  (snd a = snd b /\ (first_index (fst a) counted_words < first_index (fst b) counted_words)%nat).

Definition seen_before (a b : string * Z) : Prop :=
  (first_index (fst a) counted_words < first_index (fst b) counted_words)%nat.

Lemma insert_by_count_perm (x : string * Z) (s : list (string * Z)) :
  Permutation (insert_by_count x s) (x :: s).
Proof.
  induction s as [|y s IH]; simpl; [reflexivity|].
  destruct (snd x <? snd y); [|reflexivity].
  rewrite IH. apply perm_swap.
Qed.

Lemma sorted_by_count_perm (items : list (string * Z)) :
  Permutation (sorted_by_count items) items.
Proof.
  induction items as [|x items IH]; simpl; [reflexivity|].
  rewrite insert_by_count_perm. now constructor.
Qed.

(** Inserting an item seen before all the items of a ranked list keeps the
    list ranked. *)
Lemma insert_by_count_ranked (x : string * Z) (s : list (string * Z)) :
  StronglySorted ranks_before s ->
  Forall (seen_before x) s ->
  StronglySorted ranks_before (insert_by_count x s).
Proof.
  intros Hs Hseen. induction Hs as [|y s Hs IH Hy]; simpl.
  - repeat constructor.
  - inversion Hseen as [|? ? Hxy Hseen']; subst.
    destruct (snd x <? snd y) eqn:E.
    + apply Z.ltb_lt in E. constructor; [now apply IH|].
      eapply Permutation_Forall; [symmetry; apply insert_by_count_perm|].
      constructor; [now left | exact Hy].
    + apply Z.ltb_ge in E. constructor; [now constructor|].
      constructor.
      * unfold ranks_before, seen_before in *. lia.
      * rewrite Forall_forall in *. intros z Hz.
        specialize (Hy z Hz). specialize (Hseen' z Hz).
        unfold ranks_before, seen_before in *. lia.
Qed.

(** The stable sort ranks a list that comes in the order seen. *)
Lemma sorted_by_count_ranked (items : list (string * Z)) :
  StronglySorted seen_before items ->
  StronglySorted ranks_before (sorted_by_count items).
Proof.
  induction 1 as [|x items Hs IH Hx]; simpl; [constructor|].
  apply insert_by_count_ranked; [exact IH|].
  eapply Permutation_Forall; [symmetry; apply sorted_by_count_perm | exact Hx].
Qed.

Lemma in_firstn {A} (n : nat) (l : list A) (x : A) : In x (firstn n l) -> In x l.
Proof.
  intros H. rewrite <- (firstn_skipn n l). apply in_or_app. now left.
Qed.

Lemma StronglySorted_firstn {A} (R : A -> A -> Prop) (n : nat) : forall l : list A,
  StronglySorted R l -> StronglySorted R (firstn n l).
Proof.
  induction n as [|n IH]; intros l Hs; [constructor|].
  destruct Hs as [|a l Hs Ha]; simpl; [constructor|].
  constructor; [now apply IH|].
  rewrite Forall_forall in *. intros b Hb. apply Ha. eapply in_firstn. exact Hb.
Qed.

Lemma StronglySorted_app_inv {A} (R : A -> A -> Prop) (l1 l2 : list A) :
  StronglySorted R (l1 ++ l2) -> forall a b, In a l1 -> In b l2 -> R a b.
Proof.
  induction l1 as [|x l1 IH]; simpl; intros Hs a b Ha Hb; [contradiction|].
  inversion Hs as [|? ? Hs' Hx]; subst. destruct Ha as [->|Ha].
  - rewrite Forall_forall in Hx. apply Hx. apply in_or_app. now right.
  - now apply IH.
Qed.

Lemma StronglySorted_of_map {A B} (R : B -> B -> Prop) (f : A -> B) (l : list A) :
  StronglySorted R (map f l) -> StronglySorted (fun a b => R (f a) (f b)) l.
Proof.
  induction l as [|a l IH]; simpl; intros Hs; [constructor|].
  inversion Hs as [|? ? Hs' Ha]; subst. constructor; [now apply IH|].
  rewrite Forall_forall in *. intros b Hb. apply Ha. now apply in_map.
Qed.

End TopWords.

Section TopWordsOfText.
Import TextAnalyzer.

Lemma NoDup_firstn {A} (n : nat) (l : list A) : NoDup l -> NoDup (firstn n l).
Proof.
  intros H. rewrite <- (firstn_skipn n l) in H. now apply NoDup_app_remove_r in H.
Qed.

(** [dict(Counter(l).most_common(n))]: at most [n] entries with distinct
    keys; each key is a word of [l] with its number of occurrences; the
    entries are ranked; and a word of [l] that is left out is no more
    frequent than any entry, of which there are then [n]. *)
Lemma most_common_spec (l : list string) (n : nat) :
  let top := Py.dict_of_pairs (most_common n (Counter l)) in
  (List.length top <= n)%nat /\
  NoDup (Py.keys top) /\
  Forall (fun e => In (fst e) l /\ snd e = count_in (fst e) l) top /\
  StronglySorted (ranks_before l) top /\
  (forall w, In w l -> ~ In w (Py.keys top) ->
     List.length top = n /\ Forall (fun e => count_in w l <= snd e) top).
Proof.
  pose proof (Counter_counted l) as Hc. pose proof Hc as (Hnodup & Hin & Hout & Hseen).
  pose proof (sorted_by_count_perm (Counter l)) as Hperm.
  assert (Hnodup' : NoDup (Py.keys (sorted_by_count (Counter l)))).
  { unfold Py.keys. eapply Permutation_NoDup; [|exact Hnodup].
    symmetry. now apply Permutation_map. }
  assert (Hranked : StronglySorted (ranks_before l) (sorted_by_count (Counter l))).
  { apply sorted_by_count_ranked. now apply StronglySorted_of_map in Hseen. }
  assert (Htop : Py.dict_of_pairs (most_common n (Counter l)) = most_common n (Counter l)).
  { apply dict_of_pairs_nodup. unfold most_common, Py.keys. rewrite <- firstn_map.
    now apply NoDup_firstn. }
  cbv zeta. rewrite Htop. unfold most_common.
  assert (Hentry : forall e, In e (sorted_by_count (Counter l)) ->
                             In (fst e) l /\ snd e = count_in (fst e) l).
  { intros [w c] He. apply (Permutation_in _ Hperm) in He.
    assert (Hw : In w l).
    { apply (counted_keys l (Counter l) w Hc). unfold Py.keys. now apply (in_map fst _ (w, c)). }
    split; [exact Hw|]. apply (in_dict_get _ _ _ Hnodup) in He.
    rewrite (Hin w Hw) in He. simpl. congruence. }
  split; [apply firstn_le_length|]. split.
  { unfold Py.keys. rewrite <- firstn_map. now apply NoDup_firstn. }
  split.
  { apply Forall_forall. intros e He. apply Hentry. eapply in_firstn. exact He. }
  split; [now apply StronglySorted_firstn|].
  intros w Hw Hleft.
  assert (Hpair : In (w, count_in w l) (sorted_by_count (Counter l))).
  { apply (Permutation_in _ (Permutation_sym Hperm)). apply dict_get_in. now apply Hin. }
  rewrite <- (firstn_skipn n (sorted_by_count (Counter l))) in Hpair, Hranked.
  apply in_app_or in Hpair as [Hpair|Hpair].
  { exfalso. apply Hleft. unfold Py.keys. now apply (in_map fst _ (w, count_in w l)). }
  split.
  - rewrite length_firstn. apply Nat.min_l.
    destruct (Nat.le_gt_cases n (List.length (sorted_by_count (Counter l)))) as [H|H]; [exact H|].
    rewrite skipn_all2 in Hpair by lia. contradiction.
  - apply Forall_forall. intros e He.
    pose proof (StronglySorted_app_inv _ _ _ Hranked e (w, count_in w l) He Hpair) as Hr.
    unfold ranks_before in Hr. simpl in Hr. lia.
Qed.

(** C4: for every non-empty text on which the tokenizer answers,
    [analyze_text] returns [top_words] with at most 20 entries, on distinct
    words; each frequency is at least 1 and is the number of times the word
    stands among the tokens kept; no key is a stopword or a token that is not
    alphanumeric; the entries come most frequent first, ties in the order
    first seen; and a kept token left out is no more frequent than any
    entry, of which there are then 20. *)
Theorem top_words_postcondition
  (word_tokenize : string -> Py.Outcome (list string)) (english_stopwords words : list string)
  (text : string) :
  text <> EmptyString ->
  word_tokenize (Py.lower text) = Py.Ret words ->
  exists statistics scores patterns top,
    analyze_text word_tokenize (init english_stopwords) text
    = Py.Ret (Analysis statistics scores patterns top) /\
    (List.length top <= 20)%nat /\
    NoDup (Py.keys top) /\
    Forall (fun e => 1 <= snd e /\
                     snd e = count_in (fst e) (filtered (init english_stopwords) words) /\
                     In (fst e) words /\
                     Py.isalnum (fst e) = true /\
                     Py.mem (fst e) english_stopwords = false)
           top /\
    StronglySorted (ranks_before (filtered (init english_stopwords) words)) top /\
    (forall w, In w (filtered (init english_stopwords) words) -> ~ In w (Py.keys top) ->
       List.length top = 20%nat /\
       Forall (fun e => count_in w (filtered (init english_stopwords) words) <= snd e) top).
Proof.
  intros Hne Htok.
  destruct (analyze_text_returns word_tokenize (init english_stopwords) text words Hne Htok
              theme_table_nodup) as (awl & patterns & _ & Hrun).
  destruct (most_common_spec (filtered (init english_stopwords) words) 20)
    as (Hlen & Hnodup & Hentries & Hranked & Hleft).
  eexists _, _, _, _. split; [exact Hrun|].
  split; [exact Hlen|]. split; [exact Hnodup|]. split; [|split; [exact Hranked | exact Hleft]].
  eapply Forall_impl; [|exact Hentries].
  intros e (Hin & Hcount). pose proof Hin as Hpos. apply count_in_positive in Hpos.
  unfold filtered in Hin. apply filter_In in Hin as (Hw & Hkeep).
  apply andb_true_iff in Hkeep as (Halnum & Hstop). apply negb_true_iff in Hstop.
  cbn [stop_words init] in Hstop. repeat split; auto. lia.
Qed.

Lemma top_words_postcondition_witness :
  exists statistics scores patterns,
    analyze_text split_tokenize (init few_stopwords) "the dog and the cat and a dog !"
    = Py.Ret (Analysis statistics scores patterns [("dog", 2); ("cat", 1)]) /\
    StronglySorted
      (ranks_before (filtered (init few_stopwords)
                      ["the"; "dog"; "and"; "the"; "cat"; "and"; "a"; "dog"; "!"]))
      [("dog", 2); ("cat", 1)].
Proof.
  destruct (top_words_postcondition split_tokenize few_stopwords
              ["the"; "dog"; "and"; "the"; "cat"; "and"; "a"; "dog"; "!"]
              "the dog and the cat and a dog !")
    as (statistics & scores & patterns & top & Hrun & _ & _ & _ & Hranked & _);
    [discriminate | reflexivity |].
  assert (Htop : top = [("dog", 2); ("cat", 1)]).
  { assert (H : analyze_text split_tokenize (init few_stopwords) "the dog and the cat and a dog !"
                = analyze_text split_tokenize (init few_stopwords) "the dog and the cat and a dog !")
      by reflexivity.
    rewrite Hrun in H at 1. vm_compute in H. now injection H as _ _ _ ->. }
  rewrite Htop in Hrun, Hranked. now exists statistics, scores, patterns.
Defined.

(** Letters beyond Basic Latin count as letters: in [Caf\u00e9 caf\u00e9
    CAF\u00c9] the one top word is [caf\u00e9], met three times. *)
Example top_words_latin1 :
  match analyze_text split_tokenize (init few_stopwords)
          ("Caf" ++ Py.chr 233 ++ " caf" ++ Py.chr 233 ++ " CAF" ++ Py.chr 201) with
  | Py.Ret (Analysis _ _ _ top) => top = [("caf" ++ Py.chr 233, 3)]
  | _ => False
  end.
Proof. vm_compute. reflexivity. Qed.

End TopWordsOfText.

(** ** Which operations can raise *)

Section Raising.
Import WebScraper.

(** A handler that returns makes the whole [try] statement return. *)
Lemma try_except_returns {A} (body : Py.Outcome A) (handler : Py.Exn -> A) :
  Py.returns (Py.try_except body (fun e => Py.Ret (handler e))).
Proof.
  destruct body as [a|e]; simpl; eexists; reflexivity.
Qed.


(** [search_content] never raises. *)
Lemma search_content_never_raises (text search_term : string) :
  Py.returns (TextAnalyzer.search_content text search_term).
Proof.
  unfold TextAnalyzer.search_content. destruct (_ || _).
  - eexists; reflexivity.
  - apply try_except_returns.
Qed.

(** A computation of the scraper returns on the trace [tr]. *)
Definition returnsM {A} (m : M A) (tr : Trace) : Prop :=
  exists a tr', m tr = (Py.Ret a, tr').

Lemma try_exceptM_returns {A} (body : M A) (handler : Py.Exn -> M A) (tr : Trace) :
  (forall e tr', returnsM (handler e) tr') -> returnsM (try_exceptM body handler) tr.
Proof.
  intros Hh. unfold returnsM, try_exceptM. destruct (body tr) as [[a|e] tr'].
  - now exists a, tr'.
  - apply Hh.
Qed.

Variable fetch_url : nat -> string -> Py.Outcome (option string).
Variable extract : nat -> string -> Py.Outcome (option string).
Variable extract_metadata : string -> Py.Outcome (option Metadata).
Variable Element : Type.
Variable requests_get : string -> Py.Outcome Response.
Variable find_list_containers : string -> Py.Outcome (list Element).
Variable find_li : Element -> Py.Outcome (list Element).
Variable select : string -> string -> Py.Outcome (list Element).
Variable get_text : Element -> Py.Outcome string.
Variable time_now : Z.
Variable mkdir : string -> Py.Outcome unit.
Variable write_file : string -> string -> Py.Outcome unit.
Variable path_join : string -> string -> string.

(** [get_website_text_content] never raises, whatever the fetch and the
    extraction do. *)
Lemma get_website_text_content_never_raises (url : string) (max_retries : Z) (tr : Trace) :
  returnsM (get_website_text_content fetch_url extract url max_retries) tr.
Proof.
  unfold get_website_text_content. generalize (range max_retries) as attempts.
  intros attempts. revert tr.
  induction attempts as [|attempt rest IH]; intros tr; simpl.
  - now exists None, tr.
  - destruct (attempt_once_spec fetch_url extract url attempt tr) as (tr1 & Hrun & _).
    unfold returnsM, bindM at 1. rewrite Hrun.
    destruct (attempt_result fetch_url extract (fetches tr) url) as [text|].
    + now exists (Some text), tr1.
    + destruct (attempt <? max_retries - 1); unfold bindM, emit, call, ret; apply IH.
Qed.

(** [scrape_list_items] never raises: every failure of the request or of
    the parser ends in the empty list. *)
Lemma scrape_list_items_never_raises (url : string) (list_selector : option string) (tr : Trace) :
  returnsM (scrape_list_items Element requests_get find_list_containers find_li select get_text
              url list_selector) tr.
Proof.
  unfold scrape_list_items. apply try_exceptM_returns.
  intros e tr'. unfold returnsM, bindM, emit, call, ret. eexists _, _. reflexivity.
Qed.

(** [get_website_metadata] never raises: every failure ends in the empty
    mapping. *)
Lemma get_website_metadata_never_raises (url : string) (tr : Trace) :
  returnsM (get_website_metadata fetch_url extract_metadata url) tr.
Proof.
  unfold get_website_metadata, returnsM. unfold bindM at 1.
  destruct (try_exceptM_returns
              (bindM (trafilatura_fetch_url fetch_url url)
                 (fun downloaded =>
                    if Py.truthy_opt downloaded
                    then bindM (call (ExtractMetadata (or_empty downloaded))
                                     (extract_metadata (or_empty downloaded)))
                           (fun metadata =>
                              bindM (lift (attributes metadata))
                                (fun m => ret (Some [ ("title", or_empty (md_title m));
                                                      ("author", or_empty (md_author m));
                                                      ("date", or_empty (md_date m));
                                                      ("description", or_empty (md_description m)) ])))
                    else ret None))
              (fun e => bindM (emit (LogError ("Error getting metadata: " ++ Py.str_exn e)))
                          (fun _ => ret None))
              tr) as (found & tr' & Hrun).
  { intros e tr'. unfold returnsM, bindM, emit, call, ret. eexists _, _. reflexivity. }
  rewrite Hrun. destruct found; eexists _, _; reflexivity.
Qed.

(** [save_text_to_file] has no [try]: what the directory creation raises,
    it raises, and so for the write. *)
Lemma save_text_to_file_propagates (text : string) (filename : option string) (tr : Trace) :
  text <> EmptyString ->
  (forall e, mkdir "scraped_content" = Py.Raise e ->
     fst (save_text_to_file time_now mkdir write_file path_join text filename tr) = Py.Raise e) /\
  (forall e path, mkdir "scraped_content" = Py.Ret tt ->
     write_file path text = Py.Raise e ->
     path = path_join "scraped_content"
              (if Py.truthy_opt filename then or_empty filename
               else "scraped_content_" ++ Py.str_int time_now ++ ".txt") ->
     fst (save_text_to_file time_now mkdir write_file path_join text filename tr) = Py.Raise e).
Proof.
  intros Hne. apply truthy_true_iff in Hne.
  unfold save_text_to_file. rewrite Hne. cbn [negb]. unfold bindM, call. split.
  - intros e He. now rewrite He.
  - intros e path Hdir Hwrite ->. now rewrite Hdir, Hwrite.
Qed.

End Raising.

(** A file system on which no directory can be made, and one on which the
    directory exists but no file can be written. *)
Definition mkdir_denied : string -> Py.Outcome unit :=
  fun path => Py.Raise (Py.Exception "PermissionError"
                          ("[Errno 13] Permission denied: '" ++ path ++ "'")).
Definition mkdir_ok : string -> Py.Outcome unit := fun _ => Py.Ret tt.
Definition write_denied : string -> string -> Py.Outcome unit :=
  fun path _ => Py.Raise (Py.Exception "PermissionError"
                            ("[Errno 13] Permission denied: '" ++ path ++ "'")).
Definition write_ok : string -> string -> Py.Outcome unit := fun _ _ => Py.Ret tt.
Definition join_with_slash (dir name : string) : string := dir ++ "/" ++ name.

(** C1 fails on the code: [save_text_to_file("hello", "out.txt")] raises
    when the directory cannot be made, and when it can but the file cannot
    be written; on a file system that allows both it returns the path. *)
Theorem save_text_to_file_raises :
  WebScraper.save_text_to_file 0 mkdir_denied write_ok join_with_slash "hello" (Some "out.txt") []
  = (Py.Raise (Py.Exception "PermissionError"
                 "[Errno 13] Permission denied: 'scraped_content'"),
     [WebScraper.Mkdir "scraped_content"]) /\
  WebScraper.save_text_to_file 0 mkdir_ok write_denied join_with_slash "hello" (Some "out.txt") []
  = (Py.Raise (Py.Exception "PermissionError"
                 "[Errno 13] Permission denied: 'scraped_content/out.txt'"),
     [WebScraper.Mkdir "scraped_content";
      WebScraper.WriteFile "scraped_content/out.txt" "hello"]) /\
  WebScraper.save_text_to_file 0 mkdir_ok write_ok join_with_slash "hello" (Some "out.txt") []
  = (Py.Ret "scraped_content/out.txt",
     [WebScraper.Mkdir "scraped_content";
      WebScraper.WriteFile "scraped_content/out.txt" "hello"]).
Proof.
  repeat split.
Qed.

(** ** Determinism of the analyzer *)

(** *** The analyzer as an object with state

    What a call could depend on besides its arguments is the state the
    program keeps: the attributes of the analyzer object, which any method
    may read and assign, and the state of the tokenizer library.  Here the
    methods are written over that state, statement by statement. *)

Module AnalyzerObject.
Import Py.

(** The value of an attribute of the object: a set of strings or a
    dictionary of lists of strings. *)
Inductive Value :=
| StrSet (elems : list string)
| Table (d : dict (list string)).

(** The attributes of the object ([self.__dict__]), by name. *)
Definition Attributes := dict Value.

(** [word in v]: membership in a set, and among the keys of a dictionary. *)
Definition member (word : string) (v : Value) : bool :=
  match v with
  | StrSet elems => mem word elems
  | Table d => mem word (keys d)
  end.

(** [v.items()], which a set does not have. *)
Definition items (v : Value) : Outcome (dict (list string)) :=
  match v with
  | Table d => Ret d
  | StrSet _ => Raise (Exception "AttributeError" "'set' object has no attribute 'items'")
  end.

Inductive Call :=
| CallAnalyze (text : string)
| CallSearch (text search_term : string).

Inductive Reply :=
| ReplyAnalysis (r : Outcome TextAnalyzer.AnalysisResult)
| ReplySearch (r : Outcome TextAnalyzer.SearchResult).

Declare Scope object_scope.
Delimit Scope object_scope with object.

Section Methods.

(** The tokenizer is a library with a state of its own (the models it has
    loaded): a call answers and may change that state. *)
Variable World : Type.
Variable tokenize : World -> string -> Outcome (list string) * World.

Record State := mkState { attributes : Attributes; library : World }.

(** A computation on the state: it may raise, and what it did to the state
    before stays done. *)
Definition M (A : Type) := State -> Outcome A * State.

Definition ret {A} (a : A) : M A := fun st => (Ret a, st).

Definition bindM {A B} (m : M A) (k : A -> M B) : M B :=
  fun st =>
    match m st with
    | (Ret a, st') => k a st'
    | (Raise e, st') => (Raise e, st')
    end.

Definition try_exceptM {A} (body : M A) (handler : Exn -> M A) : M A :=
  fun st =>
    match body st with
    | (Ret a, st') => (Ret a, st')
    | (Raise e, st') => handler e st'
    end.

(** A computation that neither reads nor changes the state. *)
Definition lift {A} (answer : Outcome A) : M A := fun st => (answer, st).

Notation "x <- m ;; k" := (bindM m (fun x => k))
  (at level 100, m at next level, right associativity) : object_scope.
Notation "m ;;; k" := (bindM m (fun _ => k))
  (at level 100, right associativity) : object_scope.
Local Open Scope object_scope.

(** [self.name]: [AttributeError] when the object has no such attribute. *)
Definition getattr (name : string) : M Value :=
  fun st =>
    match dict_get (attributes st) name with
    | Some v => (Ret v, st)
    | None =>
        (Raise (Exception "AttributeError"
                  ("'TextAnalyzer' object has no attribute '" ++ name ++ "'")), st)
    end.

(** [self.name = v]. *)
Definition setattr (name : string) (v : Value) : M unit :=
  fun st => (Ret tt, mkState (dict_set (attributes st) name v) (library st)).

(** [word_tokenize(text)]: the library answers and moves to its next state. *)
Definition word_tokenize (text : string) : M (list string) :=
  fun st =>
    let '(answer, w) := tokenize (library st) text in
    (answer, mkState (attributes st) w).

(** The two assignments of [__init__], given [stopwords.words('english')];
    the data lookups before them do not touch the object. *)
Definition __init__ (english_stopwords : list string) : M unit :=
  setattr "stop_words" (StrSet english_stopwords) ;;;
  setattr "themes" (Table TextAnalyzer.theme_table).

Definition _analyze_themes (text : string) : M (dict Num) :=
  themes <- getattr "themes" ;;
  table <- lift (items themes) ;;
  let '(theme_scores, total_theme_matches) := TextAnalyzer.count_themes table text in
  if 0 <? total_theme_matches then
    lift (mapM (fun item => let '(theme, score) := item in
                            Py.bind (truediv score total_theme_matches)
                                    (fun s => Ret (theme, s)))
               theme_scores)
  else ret (map (fun item => let '(theme, score) := item in (theme, PInt score)) theme_scores).

(** The method reads its argument only. *)
Definition _analyze_language_patterns (text : string) : M TextAnalyzer.LanguagePatterns :=
  lift (TextAnalyzer._analyze_language_patterns text).

(** [word.isalnum() and word not in self.stop_words]: the attribute is read
    once per word that is alphanumeric. *)
Definition keep_word (word : string) : M bool :=
  if isalnum word then
    stop_words <- getattr "stop_words" ;;
    ret (negb (member word stop_words))
  else ret false.

(** [[word for word in words if keep word]]. *)
Fixpoint comprehension (keep : string -> M bool) (words : list string) : M (list string) :=
  match words with
  | [] => ret []
  | word :: rest =>
      kept <- keep word ;;
      others <- comprehension keep rest ;;
      ret (if kept then word :: others else others)
  end.

(** The body of the [try] block of [analyze_text]. *)
Definition analyze_text_body (text : string) : M TextAnalyzer.AnalysisResult :=
  words <- word_tokenize (lower text) ;;
  let word_count := Z.of_nat (List.length words) in
  let unique_words := count_distinct words in
  filtered_words <- comprehension keep_word words ;;
  let word_freq := TextAnalyzer.Counter filtered_words in
  theme_scores <- _analyze_themes (lower text) ;;
  patterns <- _analyze_language_patterns text ;;
  average_word_length <-
    lift (if 0 <? word_count then truediv (sum_int (map len words)) word_count
          else Ret (PInt 0)) ;;
  ret (TextAnalyzer.Analysis
         (TextAnalyzer.mkStatistics word_count unique_words average_word_length)
         theme_scores patterns
         (dict_of_pairs (TextAnalyzer.most_common 20 word_freq))).

Definition analyze_text (text : string) : M TextAnalyzer.AnalysisResult :=
  if negb (truthy text) then ret (TextAnalyzer.AnalysisError "No text provided for analysis")
  else try_exceptM (analyze_text_body text)
         (fun e => ret (TextAnalyzer.AnalysisError ("Error analyzing text: " ++ str_exn e))).

(** The method reads its arguments only. *)
Definition search_content (text search_term : string) : M TextAnalyzer.SearchResult :=
  lift (TextAnalyzer.search_content text search_term).

(** One call on the object: the reply and the state after it. *)
Definition perform (c : Call) (st : State) : Reply * State :=
  match c with
  | CallAnalyze text =>
      let '(r, st') := analyze_text text st in (ReplyAnalysis r, st')
  | CallSearch text search_term =>
      let '(r, st') := search_content text search_term st in (ReplySearch r, st')
  end.

(** The state after a sequence of calls. *)
Fixpoint after (st : State) (history : list Call) : State :=
  match history with
  | [] => st
  | c :: history' => after (snd (perform c st)) history'
  end.

(** [TextAnalyzer()], the library being in state [w]. *)
Definition new_analyzer (english_stopwords : list string) (w : World) : State :=
  snd (__init__ english_stopwords (mkState [] w)).



End Methods.

Arguments mkState {World} attributes library.
Arguments attributes {World} s.
Arguments library {World} s.

End AnalyzerObject.

Section Determinism.
Import TextAnalyzer AnalyzerObject.

Variable World : Type.
Variable tokenize : World -> string -> Py.Outcome (list string) * World.

(** The attributes [__init__] sets. *)
Lemma new_analyzer_attributes (english_stopwords : list string) (w : World) :
  new_analyzer World english_stopwords w
  = mkState [("stop_words", StrSet english_stopwords); ("themes", Table theme_table)] w.
Proof.
  reflexivity.
Qed.







End Determinism.

(** A tokenizer that counts its calls, and two sessions that end in the same
    call. *)
Definition counting_tokenize (calls : nat) (text : string) : Py.Outcome (list string) * nat :=
  (Py.Ret (Py.split text), S calls).

(** The replies do depend on the attributes: once [stop_words] is assigned
    anew, [analyze_text] counts the words it left out before. *)
Example reply_depends_on_attributes :
  let st := AnalyzerObject.new_analyzer nat TextAnalyzer.few_stopwords 0%nat in
  let st' := snd (AnalyzerObject.setattr nat "stop_words" (AnalyzerObject.StrSet []) st) in
  fst (AnalyzerObject.perform nat counting_tokenize (AnalyzerObject.CallAnalyze "the cat") st)
  <> fst (AnalyzerObject.perform nat counting_tokenize (AnalyzerObject.CallAnalyze "the cat") st').
Proof.
  cbv zeta. intros H. vm_compute in H. discriminate H.
Qed.


(** * Further properties of the analyzer *)

(** ** What [search_content] finds *)

Section SearchFurther.
Import Re TextAnalyzer.

(** The matches of [search_content], told apart from every other choice
    of offsets: for a term that is not empty, a list is the list of the
    matches found exactly when it holds occurrences of the term (the text
    reads the term there, letter case apart, between two word boundaries),
    from left to right and without overlap, and leaves an occurrence out
    only where it overlaps a listed one that starts before it. *)
Theorem search_matches_characterized (text term : string) (found : list nat) :
  term <> EmptyString ->
  (non_overlapping_occurrences text term found <-> found = occurrences text term).
Proof.
  intros Hne. split.
  - now apply occurrences_unique.
  - intros ->. now apply occurrences_spec.
Qed.

(** The letter U+00E9 is found at its capital U+00C9 and on its own, and
    not at the end of a longer word. *)
Lemma search_matches_characterized_witness :
  non_overlapping_occurrences
    (Py.chr 201 ++ " " ++ Py.chr 233 ++ " caf" ++ Py.chr 233) (Py.chr 233) [0; 2]%nat.
Proof.
  apply (proj2 (search_matches_characterized
                  (Py.chr 201 ++ " " ++ Py.chr 233 ++ " caf" ++ Py.chr 233) (Py.chr 233)
                  [0; 2]%nat ltac:(discriminate))).
  reflexivity.
Defined.

(** *** Letter case does not matter *)

Lemma lower_char_idempotent (c : ascii) : Py.lower_char (Py.lower_char c) = Py.lower_char c.
Proof.
  destruct c as [[] [] [] [] [] [] [] []]; reflexivity.
Qed.

Lemma is_word_lower_char (c : ascii) : is_word (Py.lower_char c) = is_word c.
Proof.
  destruct c as [[] [] [] [] [] [] [] []]; reflexivity.
Qed.

Lemma lower_idempotent (s : string) : Py.lower (Py.lower s) = Py.lower s.
Proof.
  induction s as [|c s IH]; simpl; [reflexivity|].
  now rewrite lower_char_idempotent, IH.
Qed.

Lemma lower_preserves_length (s : string) : String.length (Py.lower s) = String.length s.
Proof.
  induction s as [|c s IH]; simpl; [reflexivity | now rewrite IH].
Qed.

Definition lower_opt (o : option ascii) : option ascii :=
  match o with
  | Some c => Some (Py.lower_char c)
  | None => None
  end.

Lemma boundary_lower (before after : option ascii) :
  boundary (lower_opt before) (lower_opt after) = boundary before after.
Proof.
  unfold boundary. destruct before, after; simpl; now rewrite ?is_word_lower_char.
Qed.

Lemma head_lower (s : string) : head (Py.lower s) = lower_opt (head s).
Proof.
  now destruct s.
Qed.

(** The pattern does not tell a term from its lower-cased form. *)
Lemma literal_lower_term (term : string) : forall (prev : option ascii) (s : string),
  literal_then_boundary (Py.lower term) prev s = literal_then_boundary term prev s.
Proof.
  induction term as [|t term IH]; intros prev s; simpl; [reflexivity|].
  destruct s as [|c s]; [reflexivity|].
  unfold eqb_ignorecase. now rewrite lower_char_idempotent, IH.
Qed.

(** Nor a text from its lower-cased form. *)
Lemma literal_lower_text (term : string) : forall (prev : option ascii) (s : string),
  literal_then_boundary term (lower_opt prev) (Py.lower s) = literal_then_boundary term prev s.
Proof.
  induction term as [|t term IH]; intros prev s; simpl.
  - now rewrite head_lower, boundary_lower.
  - destruct s as [|c s]; simpl; [reflexivity|].
    unfold eqb_ignorecase. rewrite lower_char_idempotent.
    change (Some (Py.lower_char c)) with (lower_opt (Some c)).
    now rewrite (IH (Some c) s).
Qed.

Lemma word_lower_term (term : string) (prev : option ascii) (s : string) :
  word (Py.lower term) prev s = word term prev s.
Proof.
  unfold word. now rewrite literal_lower_term, lower_preserves_length.
Qed.

Lemma word_lower_text (term : string) (prev : option ascii) (s : string) :
  word term (lower_opt prev) (Py.lower s) = word term prev s.
Proof.
  unfold word. now rewrite head_lower, boundary_lower, literal_lower_text.
Qed.

Lemma scan_ext (p q : Pattern) (s : string) :
  (forall prev s', p prev s' = q prev s') ->
  forall prev pos skip, scan p prev s pos skip = scan q prev s pos skip.
Proof.
  intros Hpq. induction s as [|c s IH]; intros prev pos skip; cbn [scan]; [reflexivity|].
  destruct skip; [|apply IH]. rewrite Hpq. destruct (q prev (String c s)); now rewrite IH.
Qed.

Lemma scan_starts_lower_text (term : string) (s : string) :
  forall prev pos skip,
    map m_start (scan (word term) (lower_opt prev) (Py.lower s) pos skip)
    = map m_start (scan (word term) prev s pos skip).
Proof.
  induction s as [|c s IH]; intros prev pos skip; [reflexivity|].
  cbn [Py.lower scan]. destruct skip as [|k]; [|apply (IH (Some c))].
  change (String (Py.lower_char c) (Py.lower s)) with (Py.lower (String c s)).
  rewrite word_lower_text.
  destruct (word term prev (String c s)); cbn [map m_start]; now rewrite (IH (Some c)).
Qed.

(** On texts and terms of code points below 256, where [str.lower] maps
    one character to one, [search_content] finds a term at the same offsets
    whatever the letter case of the term and of the text, and with a
    lower-cased term it returns the very same matches and contexts. *)
Theorem search_ignores_case (text term : string) :
  occurrences text (Py.lower term) = occurrences text term /\
  occurrences (Py.lower text) term = occurrences text term /\
  (forall total contexts,
     search_content text term = Py.Ret (SearchMatches total contexts) <->
     search_content text (Py.lower term) = Py.Ret (SearchMatches total contexts)).
Proof.
  assert (Hterm : finditer (word (Py.lower term)) text = finditer (word term) text).
  { unfold finditer. apply scan_ext. intros prev s'. apply word_lower_term. }
  split; [|split].
  - unfold occurrences. now rewrite Hterm.
  - unfold occurrences, finditer. apply (scan_starts_lower_text term text None).
  - intros total contexts. rewrite !search_content_cases, Hterm.
    assert (Htruthy : Py.truthy (Py.lower term) = Py.truthy term) by now destruct term.
    rewrite Htruthy.
    destruct (negb (Py.truthy text) || negb (Py.truthy term)); [tauto|].
    destruct (finditer (word term) text); [|tauto].
    split; discriminate.
Qed.

(** *** A context holds its match *)

(** Two ways to cut one string: the shorter head is a head of the longer. *)
Lemma append_split_le (a : string) : forall b c d : string,
  a ++ b = c ++ d -> (String.length a <= String.length c)%nat ->
  exists e, c = a ++ e /\ b = e ++ d.
Proof.
  induction a as [|x a IH]; intros b c d H Hlen; simpl in *.
  - exists c. auto.
  - destruct c as [|y c]; simpl in *; [lia|].
    injection H as -> H. destruct (IH b c d H) as (e & -> & ->); [lia|].
    now exists e.
Qed.

Lemma context_of_match (text term : string) (m : Match) :
  occurs_at text term (m_start m) ->
  String.length (m_group m) = String.length term ->
  exists before mid after_,
    context (context_of text m) = before ++ mid ++ after_ /\
    Py.lower mid = Py.lower term /\
    Py.len before = Z.min (Z.of_nat (m_start m)) 100 /\
    Py.len after_ = Z.min 100 (Py.len text - Z.of_nat (m_start m) - Py.len term).
Proof.
  intros (pre & mid & post & Htext & Hpre & Hlow & _) Hgroup.
  pose proof (lower_length _ _ Hlow) as Hmid.
  assert (Hlen : String.length text = (String.length pre + String.length mid
                                       + String.length post)%nat)
    by (rewrite Htext, !length_append; lia).
  unfold context_of, m_end. cbn [context]. rewrite Hgroup.
  assert (Htl : Py.len text = Z.of_nat (String.length text)) by reflexivity.
  assert (Htm : Py.len term = Z.of_nat (String.length term)) by reflexivity.
  destruct (slice_within text (Z.max 0 (Z.of_nat (m_start m) - 100))
              (Z.min (Py.len text) (Z.of_nat (m_start m + String.length term) + 100)))
    as (p & q & Hs & Hp & Hctx); [lia | lia |].
  set (ctx := Py.slice text _ _) in *.
  assert (Hpl : Py.len p = Z.of_nat (String.length p)) by reflexivity.
  assert (Hcl : Py.len ctx = Z.of_nat (String.length ctx)) by reflexivity.
  rewrite Htext in Hs.
  destruct (append_split_le p (ctx ++ q) pre (mid ++ post)) as (e & He & Hrest);
    [now symmetry | lia |].
  rewrite <- append_assoc in Hrest. symmetry in Hrest.
  assert (Hel : String.length pre = (String.length p + String.length e)%nat)
    by (rewrite He, length_append; lia).
  destruct (append_split_le (e ++ mid) post ctx q) as (f & Hf & Hpost);
    [exact Hrest | rewrite length_append; lia |].
  assert (Hfl : String.length ctx = (String.length e + String.length mid + String.length f)%nat)
    by (rewrite Hf, !length_append; lia).
  exists e, mid, f. rewrite Hf, append_assoc.
  split; [reflexivity|]. split; [exact Hlow|].
  unfold Py.len at 1 2. lia.
Qed.

(** Every context [search_content] returns reads: up to 100 characters
    of the text before the match, the matched text (the term, letter case
    apart), and up to 100 characters after it; fewer only where the text
    ends. *)
Theorem search_context_holds_match (text term : string) (total : Z) (contexts : list Context) :
  search_content text term = Py.Ret (SearchMatches total contexts) ->
  Forall (fun c => exists before mid after_,
            context c = before ++ mid ++ after_ /\
            Py.lower mid = Py.lower term /\
            Py.len before = Z.min (position c) 100 /\
            Py.len after_ = Z.min 100 (Py.len text - position c - Py.len term))
         contexts.
Proof.
  rewrite search_content_cases. intros H.
  destruct (negb (Py.truthy text) || negb (Py.truthy term)) eqn:Hgiven; [discriminate|].
  apply orb_false_elim in Hgiven as [_ Hterm]. apply negb_false_iff, truthy_true_iff in Hterm.
  pose proof (finditer_word_sound text term Hterm) as Hsound.
  destruct (finditer (word term) text) as [|m ms]; [discriminate|].
  assert (Hctx : contexts = map (context_of text) (m :: ms)) by congruence.
  rewrite Hctx. apply Forall_map. eapply Forall_impl; [|exact Hsound].
  intros a (Hocc & Hlen & _). now apply context_of_match.
Qed.

Lemma search_context_holds_match_witness :
  exists contexts,
    search_content "one cat" "CAT" = Py.Ret (SearchMatches 1 contexts) /\
    Forall (fun c => exists before mid after_,
              context c = before ++ mid ++ after_ /\
              Py.lower mid = Py.lower "CAT" /\
              Py.len before = Z.min (position c) 100 /\
              Py.len after_ = Z.min 100 (Py.len "one cat" - position c - Py.len "CAT"))
           contexts.
Proof.
  exists [mkContext "one cat" 4]. split; [reflexivity|].
  exact (search_context_holds_match "one cat" "CAT" 1 [mkContext "one cat" 4] eq_refl).
Defined.

End SearchFurther.

(** ** What the language patterns count *)

Section PatternsFurther.
Import Re TextAnalyzer.

(** How often a character stands in a text. *)
Fixpoint count_char (c : ascii) (s : string) : nat :=
  match s with
  | EmptyString => O
  | String d s' => ((if Ascii.eqb d c then 1 else 0) + count_char c s')%nat
  end.

(** The number of runs of characters of a class: the characters of the
    class that do not follow one of the class.  [in_run] tells whether the
    character before the text is of the class. *)
Fixpoint run_starts (cls : ascii -> bool) (in_run : bool) (s : string) : nat :=
  match s with
  | EmptyString => O
  | String c s' =>
      if cls c then ((if in_run then 0 else 1) + run_starts cls true s')%nat
      else run_starts cls false s'
  end.

Lemma scan_literal_char (c : ascii) (s : string) : forall prev pos,
  List.length (scan (literal_char c) prev s pos 0) = count_char c s.
Proof.
  induction s as [|d s IH]; intros prev pos; [reflexivity|].
  cbn [scan literal_char count_char]. destruct (Ascii.eqb d c); cbn [List.length Nat.pred].
  - now rewrite IH.
  - apply IH.
Qed.

Lemma class_plus_cons (cls : ascii -> bool) (prev : option ascii) (c : ascii) (s : string) :
  class_plus cls prev (String c s) = if cls c then Some (S (run_length cls s)) else None.
Proof.
  unfold class_plus. cbn [run_length]. now destruct (cls c).
Qed.

Lemma scan_class_plus (cls : ascii -> bool) (s : string) : forall prev pos,
  List.length (scan (class_plus cls) prev s pos 0) = run_starts cls false s /\
  List.length (scan (class_plus cls) prev s pos (run_length cls s)) = run_starts cls true s.
Proof.
  induction s as [|c s IH]; intros prev pos; [split; reflexivity|].
  destruct (IH (Some c) (S pos)) as [IH0 IHrun].
  assert (Hzero : List.length (scan (class_plus cls) prev (String c s) pos 0)
                  = run_starts cls false (String c s)).
  { cbn [scan run_starts]. rewrite class_plus_cons.
    destruct (cls c); cbn [List.length Nat.pred]; [now rewrite IHrun | exact IH0]. }
  split; [exact Hzero|].
  cbn [run_length]. destruct (cls c) eqn:Hc.
  - cbn [scan run_starts]. rewrite Hc. exact IHrun.
  - rewrite Hzero. cbn [run_starts]. now rewrite Hc.
Qed.

Lemma scan_blank_line_none (s : string) : forall prev pos skip,
  count_char newline s = O -> scan blank_line prev s pos skip = [].
Proof.
  induction s as [|c s IH]; intros prev pos skip Hnone; [reflexivity|].
  cbn [count_char] in Hnone. cbn [scan blank_line].
  destruct (Ascii.eqb c newline); [discriminate|].
  destruct skip; apply IH; exact Hnone.
Qed.

(** [_analyze_language_patterns] returns, for every text: the numbers of
    ['?'] and of ['!'] in it; as [sentence_count] the number of runs of
    ['.'], ['!'] and ['?'], so that ["Wait... what?!"] counts two; a
    [paragraph_count] of at least 1, and of 1 when the text holds no line
    feed; and as average, when a sentence end is counted, the float
    quotient of the number of blank-separated words by [sentence_count]. *)
Theorem language_patterns_counts (text : string) :
  exists p,
    _analyze_language_patterns text = Py.Ret p /\
    question_count p = Z.of_nat (count_char "?" text) /\
    exclamation_count p = Z.of_nat (count_char "!" text) /\
    sentence_count p = Z.of_nat (run_starts is_terminator false text) /\
    1 <= paragraph_count p /\
    (count_char newline text = O -> paragraph_count p = 1) /\
    (0 < sentence_count p ->
     average_sentence_length p
     = Py.PFloat (PrimFloat.div (Py.float_of_int (Z.of_nat (List.length (Py.split text))))
                                (Py.float_of_int (sentence_count p)))).
Proof.
  unfold _analyze_language_patterns, findall, finditer. rewrite !length_map.
  rewrite !scan_literal_char.
  rewrite (proj1 (scan_class_plus is_terminator text None 0%nat)).
  destruct (0 <? Z.of_nat (run_starts is_terminator false text)) eqn:E.
  - unfold Py.truediv. apply Z.ltb_lt in E.
    destruct (Z.of_nat (run_starts is_terminator false text) =? 0) eqn:E0;
      [apply Z.eqb_eq in E0; lia|].
    cbn [Py.bind]. eexists. split; [reflexivity|]. cbn.
    repeat split; try lia.
    intros Hnone. now rewrite scan_blank_line_none.
  - cbn [Py.bind]. apply Z.ltb_ge in E. eexists. split; [reflexivity|]. cbn.
    repeat split; try lia.
    intros Hnone. now rewrite scan_blank_line_none.
Qed.

Example sentence_runs_example :
  run_starts is_terminator false "Wait... what?! Fine." = 3%nat.
Proof. reflexivity. Qed.

(** The no-break space U+00A0 parts words as a space does: two words in
    one sentence. *)
Example no_break_space_example :
  match _analyze_language_patterns ("a" ++ Py.chr 160 ++ "b.") with
  | Py.Ret p => average_sentence_length p = Py.PFloat 2%float
  | _ => False
  end.
Proof. vm_compute. reflexivity. Qed.

End PatternsFurther.

(** ** The report of [analyze_text]: errors and statistics *)

Section ReportFurther.
Import TextAnalyzer.

Variable word_tokenize : string -> Py.Outcome (list string).
Variable self : t.
Hypothesis themes_distinct : NoDup (Py.keys (themes self)).

(** [analyze_text] answers with an error field in two cases only: on the
    empty text, whatever the tokenizer would do, and when the tokenizer
    raises, with the message of the exception; otherwise it returns the
    report. *)
Theorem analyze_text_errors (text : string) :
  (text = EmptyString ->
   analyze_text word_tokenize self text
   = Py.Ret (AnalysisError "No text provided for analysis")) /\
  (forall e, text <> EmptyString -> word_tokenize (Py.lower text) = Py.Raise e ->
   analyze_text word_tokenize self text
   = Py.Ret (AnalysisError ("Error analyzing text: " ++ Py.str_exn e))) /\
  (forall words, text <> EmptyString -> word_tokenize (Py.lower text) = Py.Ret words ->
   exists statistics scores patterns top,
     analyze_text word_tokenize self text
     = Py.Ret (Analysis statistics scores patterns top)).
Proof.
  split; [|split].
  - intros ->. reflexivity.
  - intros e Hne Htok. apply truthy_true_iff in Hne.
    unfold analyze_text, analyze_text_body. now rewrite Hne, Htok.
  - intros words Hne Htok.
    destruct (analyze_text_returns word_tokenize self text words Hne Htok themes_distinct)
      as (awl & patterns & _ & Hrun).
    eexists _, _, _, _. exact Hrun.
Qed.

Lemma nodup_length_le (l : list string) :
  (List.length (nodup string_dec l) <= List.length l)%nat.
Proof.
  induction l as [|x l IH]; simpl; [lia|].
  destruct (in_dec string_dec x l); simpl; lia.
Qed.

Lemma sum_int_app (l1 l2 : list Z) : Py.sum_int (l1 ++ l2) = Py.sum_int l1 + Py.sum_int l2.
Proof.
  induction l1 as [|x l1 IH]; simpl app; [unfold Py.sum_int at 2; simpl; lia|].
  rewrite !sum_int_cons, IH. lia.
Qed.

Lemma sum_int_perm (l1 l2 : list Z) : Permutation l1 l2 -> Py.sum_int l1 = Py.sum_int l2.
Proof.
  induction 1; rewrite ?sum_int_cons; lia.
Qed.

(** Replacing or adding a value changes the sum of the values by the
    difference. *)
Lemma sum_int_dict_set (d : Py.dict Z) (k : string) (v : Z) :
  Py.sum_int (Py.values (Py.dict_set d k v))
  = Py.sum_int (Py.values d) - match Py.dict_get d k with Some old => old | None => 0 end + v.
Proof.
  induction d as [|[k' v'] d IH]; simpl.
  - unfold Py.sum_int. simpl. lia.
  - destruct (String.eqb k' k); simpl.
    + unfold Py.values. simpl. rewrite !sum_int_cons. lia.
    + unfold Py.values in *. simpl. rewrite !sum_int_cons, IH. lia.
Qed.

Lemma counter_add_total (d : Py.dict Z) (x : string) :
  Py.sum_int (Py.values (counter_add d x)) = Py.sum_int (Py.values d) + 1.
Proof.
  unfold counter_add. rewrite sum_int_dict_set. destruct (Py.dict_get d x); lia.
Qed.

(** A counter's counts add up to the number of words counted. *)
Lemma Counter_total (l : list string) :
  Py.sum_int (Py.values (Counter l)) = Z.of_nat (List.length l).
Proof.
  induction l as [|x l IH] using rev_ind; [reflexivity|].
  unfold Counter in *. rewrite fold_left_app. cbn [fold_left].
  rewrite counter_add_total, IH, length_app. simpl. lia.
Qed.

Lemma most_common_total (l : list string) (n : nat) :
  Py.sum_int (Py.values (Py.dict_of_pairs (most_common n (Counter l))))
  <= Z.of_nat (List.length l).
Proof.
  pose proof (Counter_counted l) as Hc. pose proof Hc as (Hnodup & Hin & _ & _).
  pose proof (sorted_by_count_perm (Counter l)) as Hperm.
  assert (Hnodup' : NoDup (Py.keys (sorted_by_count (Counter l)))).
  { unfold Py.keys. eapply Permutation_NoDup; [|exact Hnodup].
    symmetry. now apply Permutation_map. }
  rewrite dict_of_pairs_nodup
    by (unfold most_common, Py.keys; rewrite <- firstn_map; now apply NoDup_firstn).
  rewrite <- Counter_total. unfold most_common, Py.values.
  rewrite <- (sum_int_perm _ _ (Permutation_map snd Hperm)).
  rewrite <- (firstn_skipn n (sorted_by_count (Counter l))) at 2.
  rewrite map_app, sum_int_app.
  enough (0 <= Py.sum_int (map snd (skipn n (sorted_by_count (Counter l))))) by lia.
  apply sum_int_nonneg. apply Forall_map. apply Forall_forall. intros [w c] He.
  assert (Hs : In (w, c) (sorted_by_count (Counter l))).
  { rewrite <- (firstn_skipn n (sorted_by_count (Counter l))). apply in_or_app. now right. }
  apply (Permutation_in _ Hperm) in Hs.
  assert (Hw : In w l).
  { apply (counted_keys l (Counter l) w Hc). unfold Py.keys. now apply (in_map fst _ (w, c)). }
  apply (in_dict_get _ _ _ Hnodup) in Hs. rewrite (Hin w Hw) in Hs.
  injection Hs as <-. apply count_in_positive in Hw. simpl. lia.
Qed.

(** The statistics of a report: [total_words] is the number of tokens;
    [unique_words] lies between 0 and [total_words]; without tokens the
    average word length is the int [0] and [top_words] is empty; with
    tokens it is the float quotient of the sum of the token lengths by
    their number; [top_words] has at most [unique_words] entries, and its
    frequencies add up to at most [total_words]. *)
Theorem statistics_invariants (text : string) (words : list string) :
  text <> EmptyString ->
  word_tokenize (Py.lower text) = Py.Ret words ->
  exists statistics scores patterns top,
    analyze_text word_tokenize self text
    = Py.Ret (Analysis statistics scores patterns top) /\
    total_words statistics = Z.of_nat (List.length words) /\
    0 <= unique_words statistics <= total_words statistics /\
    (total_words statistics = 0 ->
     average_word_length statistics = Py.PInt 0 /\ top = []) /\
    (0 < total_words statistics ->
     average_word_length statistics
     = Py.PFloat (PrimFloat.div (Py.float_of_int (Py.sum_int (map Py.len words)))
                                (Py.float_of_int (total_words statistics)))) /\
    Z.of_nat (List.length top) <= unique_words statistics /\
    Py.sum_int (Py.values top) <= total_words statistics.
Proof.
  intros Hne Htok. apply truthy_true_iff in Hne.
  destruct (language_patterns_returns text) as (patterns & Hpat & _).
  unfold analyze_text, analyze_text_body. rewrite Hne, Htok. cbn [negb Py.bind].
  rewrite analyze_themes_spec by exact themes_distinct. cbn [Py.bind].
  rewrite Hpat. cbn [Py.bind].
  pose proof (nodup_length_le words) as Hunique.
  destruct (most_common_spec (filtered self words) 20) as (_ & Hnodup & Hentries & _).
  pose proof (most_common_total (filtered self words) 20) as Htotal.
  fold (filtered self words).
  set (top := Py.dict_of_pairs (most_common 20 (Counter (filtered self words)))) in *.
  assert (Hfiltered : (List.length (filtered self words) <= List.length words)%nat)
    by apply filter_length_le.
  assert (Htop : (List.length top <= List.length (nodup string_dec words))%nat).
  { rewrite <- (length_map fst top). apply NoDup_incl_length; [exact Hnodup|].
    intros w Hw. apply nodup_In. apply in_map_iff in Hw as (e & <- & He).
    rewrite Forall_forall in Hentries. destruct (Hentries e He) as (Hin & _).
    unfold filtered in Hin. now apply filter_In in Hin as (Hin & _). }
  destruct (0 <? Z.of_nat (List.length words)) eqn:E.
  - apply Z.ltb_lt in E. unfold Py.truediv.
    destruct (Z.of_nat (List.length words) =? 0) eqn:E0; [apply Z.eqb_eq in E0; lia|].
    cbn [Py.bind Py.try_except]. eexists _, _, _, _. split; [reflexivity|].
    cbn [total_words unique_words average_word_length]. unfold Py.count_distinct.
    repeat split; try lia.
  - apply Z.ltb_ge in E. cbn [Py.bind Py.try_except].
    eexists _, _, _, _. split; [reflexivity|].
    cbn [total_words unique_words average_word_length]. unfold Py.count_distinct.
    repeat split; try lia.
    destruct words; [reflexivity | simpl in E; lia].
Qed.

End ReportFurther.

Lemma analyze_text_errors_witness :
  TextAnalyzer.analyze_text (fun _ => Py.Raise (Py.Exception "LookupError" "punkt not found"))
    (TextAnalyzer.init TextAnalyzer.few_stopwords) "some text"
  = Py.Ret (TextAnalyzer.AnalysisError "Error analyzing text: punkt not found") /\
  exists statistics scores patterns top,
    TextAnalyzer.analyze_text TextAnalyzer.split_tokenize
      (TextAnalyzer.init TextAnalyzer.few_stopwords) "some text"
    = Py.Ret (TextAnalyzer.Analysis statistics scores patterns top).
Proof.
  split.
  - apply (proj1 (proj2 (analyze_text_errors
                           (fun _ => Py.Raise (Py.Exception "LookupError" "punkt not found"))
                           (TextAnalyzer.init TextAnalyzer.few_stopwords) theme_table_nodup
                           "some text"))
             (Py.Exception "LookupError" "punkt not found")); [discriminate | reflexivity].
  - apply (proj2 (proj2 (analyze_text_errors TextAnalyzer.split_tokenize
                           (TextAnalyzer.init TextAnalyzer.few_stopwords) theme_table_nodup
                           "some text"))
             ["some"; "text"]); [discriminate | reflexivity].
Defined.

Lemma statistics_invariants_witness :
  exists statistics scores patterns top,
    TextAnalyzer.analyze_text TextAnalyzer.split_tokenize
      (TextAnalyzer.init TextAnalyzer.few_stopwords) "the cat sat on the cat mat"
    = Py.Ret (TextAnalyzer.Analysis statistics scores patterns top) /\
    TextAnalyzer.total_words statistics = 7 /\
    0 <= TextAnalyzer.unique_words statistics <= TextAnalyzer.total_words statistics /\
    Z.of_nat (List.length top) <= TextAnalyzer.unique_words statistics /\
    Py.sum_int (Py.values top) <= TextAnalyzer.total_words statistics.
Proof.
  destruct (statistics_invariants TextAnalyzer.split_tokenize
              (TextAnalyzer.init TextAnalyzer.few_stopwords) theme_table_nodup
              "the cat sat on the cat mat" ["the"; "cat"; "sat"; "on"; "the"; "cat"; "mat"])
    as (statistics & scores & patterns & top & Hrun & Htotal & Hunique & _ & _ & Htop & Hsum);
    [discriminate | reflexivity |].
  exists statistics, scores, patterns, top. auto.
Defined.

(** ** How the theme scores rank the themes *)

Section ThemesFurther.
Import TextAnalyzer.

(** The score of a count [c] out of a total [t]. *)
Definition quotient (c t : Z) : float :=
  PrimFloat.div (Py.float_of_int c) (Py.float_of_int t).

(** For one total and two counts within it: the scores compare as the
    counts do, a score is zero for the count zero only, and it lies
    between zero and one. *)
Definition rank_ok (t c1 c2 : Z) : bool :=
  implb ((c1 <=? t) && (c2 <=? t))
        (Bool.eqb (PrimFloat.leb (quotient c1 t) (quotient c2 t)) (c1 <=? c2)
         && Bool.eqb (PrimFloat.eqb (quotient c1 t) 0%float) (c1 =? 0)
         && PrimFloat.leb 0%float (quotient c1 t)
         && PrimFloat.leb (quotient c1 t) 1%float).

Definition counts_upto (n : nat) : list Z := map Z.of_nat (seq 0 (S n)).

(** Every total up to 40 and every two counts up to 7, tried in turn. *)
Lemma rank_ok_everywhere :
  forallb (fun t => forallb (fun c1 => forallb (rank_ok (Z.of_nat t + 1) c1) (counts_upto 7))
                            (counts_upto 7))
          (seq 0 40) = true.
Proof.
  vm_compute. reflexivity.
Qed.

Lemma in_counts_upto (n : nat) (c : Z) : 0 <= c <= Z.of_nat n -> In c (counts_upto n).
Proof.
  intros Hc. unfold counts_upto. replace c with (Z.of_nat (Z.to_nat c)) by lia.
  apply in_map, in_seq. lia.
Qed.

Lemma rank_ok_within (t c1 c2 : Z) :
  1 <= t <= 40 -> 0 <= c1 <= 7 -> 0 <= c2 <= 7 -> rank_ok t c1 c2 = true.
Proof.
  intros Ht H1 H2. pose proof rank_ok_everywhere as Hall.
  rewrite forallb_forall in Hall. specialize (Hall (Z.to_nat (t - 1))).
  rewrite forallb_forall in Hall by (apply in_seq; lia).
  specialize (Hall ltac:(apply in_seq; lia) c1 (in_counts_upto 7 c1 H1)).
  rewrite forallb_forall in Hall. specialize (Hall c2 (in_counts_upto 7 c2 H2)).
  replace (Z.of_nat (Z.to_nat (t - 1)) + 1) with t in Hall by lia. exact Hall.
Qed.

Lemma dict_get_map {V W} (f : string * V -> W) (d : Py.dict V) (k : string) (v : V) :
  NoDup (Py.keys d) -> In (k, v) d ->
  Py.dict_get (map (fun item => (fst item, f item)) d) k = Some (f (k, v)).
Proof.
  intros Hnodup Hin. apply in_dict_get.
  - unfold Py.keys. rewrite map_map. exact Hnodup.
  - apply (in_map (fun item => (fst item, f item)) _ (k, v)). exact Hin.
Qed.

Lemma member_le_sum (l : list Z) (x : Z) :
  Forall (fun y => 0 <= y) l -> In x l -> x <= Py.sum_int l.
Proof.
  induction 1 as [|y l Hy Hl IH]; intros Hin; [contradiction|].
  rewrite sum_int_cons. pose proof (sum_int_nonneg l Hl).
  destruct Hin as [->|Hin]; [lia | specialize (IH Hin); lia].
Qed.

(** The total count is at most the number of keywords of the table. *)
Lemma total_count_le (table : Py.dict (list string)) (text : string) :
  Py.sum_int (Py.values (theme_counts table text))
  <= Py.sum_int (map (fun item => Z.of_nat (List.length (snd item))) table).
Proof.
  induction table as [|[theme keywords] table IH]; [reflexivity|].
  cbn [theme_counts map Py.values fst snd]. rewrite !sum_int_cons.
  pose proof (keyword_matches_range keywords text).
  fold (theme_counts table text) in *. fold (Py.values (theme_counts table text)) in *. lia.
Qed.

Lemma theme_table_keywords (theme : string) (keywords : list string) :
  In (theme, keywords) theme_table -> (List.length keywords <= 7)%nat.
Proof.
  unfold theme_table. simpl.
  intros [H|[H|[H|[H|[H|[H|[]]]]]]]; injection H as _ <-; simpl; lia.
Qed.

(** When some keyword occurs in the text, [_analyze_themes] gives each
    theme a float between 0 and 1, which is 0 exactly when none of the
    theme's keywords occurs, and the scores of two themes compare as their
    numbers of keywords found do. *)
Theorem theme_scores_rank (english_stopwords : list string) (text : string) :
  some_keyword_in theme_table text ->
  exists scores,
    _analyze_themes (init english_stopwords) text = Py.Ret scores /\
    forall theme1 keywords1 theme2 keywords2,
      In (theme1, keywords1) theme_table -> In (theme2, keywords2) theme_table ->
      exists s1 s2,
        Py.dict_get scores theme1 = Some (Py.PFloat s1) /\
        Py.dict_get scores theme2 = Some (Py.PFloat s2) /\
        (PrimFloat.leb s1 s2 = true <->
         keyword_matches keywords1 text <= keyword_matches keywords2 text) /\
        (PrimFloat.eqb s1 0%float = true <->
         forall keyword, In keyword keywords1 -> Py.contains keyword text = false) /\
        PrimFloat.leb 0%float s1 = true /\ PrimFloat.leb s1 1%float = true.
Proof.
  intros Hsome. apply total_positive_iff in Hsome.
  exists (scores_of (theme_counts theme_table text)).
  split; [now apply analyze_themes_spec, theme_table_nodup|].
  intros theme1 keywords1 theme2 keywords2 Hin1 Hin2.
  set (total := Py.sum_int (Py.values (theme_counts theme_table text))) in *.
  assert (Hscore : forall theme keywords, In (theme, keywords) theme_table ->
            Py.dict_get (scores_of (theme_counts theme_table text)) theme
            = Some (Py.PFloat (quotient (keyword_matches keywords text) total)) /\
            0 <= keyword_matches keywords text <= 7 /\
            keyword_matches keywords text <= total).
  { intros theme keywords Hin.
    assert (Hc : In (theme, keyword_matches keywords text) (theme_counts theme_table text))
      by (apply (in_map (fun item => (fst item, keyword_matches (snd item) text)) _ _ Hin)).
    split; [|split].
    - unfold scores_of. fold total. apply Z.ltb_lt in Hsome as E. rewrite E.
      apply (dict_get_map (fun item => Py.PFloat (quotient (snd item) total))
               (theme_counts theme_table text) theme (keyword_matches keywords text));
        [rewrite theme_counts_keys; apply theme_table_nodup | exact Hc].
    - pose proof (keyword_matches_range keywords text).
      pose proof (theme_table_keywords theme keywords Hin). lia.
    - apply member_le_sum; [apply theme_counts_nonneg|].
      unfold Py.values. now apply (in_map snd _ (theme, keyword_matches keywords text)). }
  destruct (Hscore theme1 keywords1 Hin1) as (Hget1 & Hr1 & Hle1).
  destruct (Hscore theme2 keywords2 Hin2) as (Hget2 & Hr2 & Hle2).
  assert (Htotal : 1 <= total <= 40).
  { split; [lia|]. pose proof (total_count_le theme_table text) as H. exact H. }
  pose proof (rank_ok_within total _ _ Htotal Hr1 Hr2) as Hok.
  unfold rank_ok in Hok.
  assert (E1 : (keyword_matches keywords1 text <=? total) = true) by (apply Z.leb_le; lia).
  assert (E2 : (keyword_matches keywords2 text <=? total) = true) by (apply Z.leb_le; lia).
  rewrite E1, E2 in Hok. cbn [andb implb] in Hok.
  apply andb_true_iff in Hok as (Hok & Hone). apply andb_true_iff in Hok as (Hok & Hzero).
  apply andb_true_iff in Hok as (Hleb & Heqb).
  apply Bool.eqb_prop in Hleb, Heqb.
  eexists _, _. split; [exact Hget1|]. split; [exact Hget2|].
  split; [rewrite Hleb; apply Z.leb_le|]. split; [|split; assumption].
  rewrite Heqb, Z.eqb_eq. split.
  - intros Hnone keyword Hk. destruct (Py.contains keyword text) eqn:Hc; [|reflexivity].
    assert (0 < keyword_matches keywords1 text)
      by (apply keyword_matches_positive; now exists keyword).
    lia.
  - intros Hnone. destruct (Z.lt_ge_cases 0 (keyword_matches keywords1 text)) as [H|H]; [|lia].
    apply keyword_matches_positive in H as (keyword & Hk & Hc).
    rewrite (Hnone keyword Hk) in Hc. discriminate.
Qed.

Lemma theme_scores_rank_witness :
  exists scores,
    _analyze_themes (init few_stopwords) "a green area, easy and quick" = Py.Ret scores /\
    Py.dict_get scores "convenience" = Some (Py.PFloat 0.5) /\
    Py.dict_get scores "community" = Some (Py.PFloat 0).
Proof.
  destruct (theme_scores_rank few_stopwords "a green area, easy and quick")
    as (scores & Hrun & _).
  { exists "location", ["location"; "area"; "neighborhood"; "district"; "zone"; "region"; "place"],
      "area". split; [simpl; tauto|]. split; [simpl; tauto | reflexivity]. }
  exists scores. split; [exact Hrun|].
  assert (H : Py.Ret scores = _analyze_themes (init few_stopwords) "a green area, easy and quick")
    by now rewrite Hrun.
  vm_compute in H. injection H as ->. split; reflexivity.
Defined.

End ThemesFurther.

(** * Further properties of the scraper *)

(** ** The length of a preview *)

Section PreviewFurther.
Import WebScraper.

Lemma slice_to_length (text : string) (stop : Z) :
  Py.len (Py.slice_to text stop) = Py.clip_index (Py.len text) stop.
Proof.
  unfold Py.slice_to, Py.slice.
  assert (H0 : Py.clip_index (Py.len text) 0 = 0)
    by (unfold Py.clip_index, Py.len; simpl; lia).
  rewrite H0. unfold Py.len at 1.
  rewrite substring_prefix_length; unfold Py.clip_index, Py.len;
    destruct (stop <? 0) eqn:E; lia.
Qed.

(** The length of what [get_text_preview] returns, for every text and
    every limit: 20 for the empty text (the placeholder); the text's own
    length when it is within the limit; [max_length + 3] when a limit that
    is not negative cuts it; and [max(0, len(text) + max_length) + 3]
    under a negative limit.  So a text one or two characters over the limit
    gets a preview longer than itself. *)
Theorem get_text_preview_length (text : string) (max_length : Z) :
  (text = EmptyString -> Py.len (get_text_preview text max_length) = 20) /\
  (text <> EmptyString -> Py.len text <= max_length ->
   Py.len (get_text_preview text max_length) = Py.len text) /\
  (text <> EmptyString -> 0 <= max_length < Py.len text ->
   Py.len (get_text_preview text max_length) = max_length + 3) /\
  (text <> EmptyString -> max_length < 0 ->
   Py.len (get_text_preview text max_length) = Z.max 0 (Py.len text + max_length) + 3) /\
  (text <> EmptyString -> 0 <= max_length < Py.len text -> Py.len text <= max_length + 2 ->
   Py.len text < Py.len (get_text_preview text max_length)).
Proof.
  assert (Hcut : text <> EmptyString -> max_length < Py.len text ->
                 Py.len (get_text_preview text max_length)
                 = Py.clip_index (Py.len text) max_length + 3).
  { intros Hne Hlt. apply truthy_true_iff in Hne. unfold get_text_preview.
    rewrite Hne. apply Z.ltb_lt in Hlt. cbn [negb]. rewrite Hlt.
    unfold Py.len at 1. rewrite length_append. fold (Py.len (Py.slice_to text max_length)).
    rewrite Nat2Z.inj_add. fold (Py.len (Py.slice_to text max_length)).
    rewrite slice_to_length. reflexivity. }
  assert (Hpos : 0 <= Py.len text) by (unfold Py.len; lia).
  repeat split.
  - intros ->. reflexivity.
  - intros Hne Hle. apply truthy_true_iff in Hne. unfold get_text_preview. rewrite Hne.
    cbn [negb]. destruct (max_length <? Py.len text) eqn:E; [apply Z.ltb_lt in E; lia|].
    reflexivity.
  - intros Hne Hm. rewrite Hcut by (auto; lia). unfold Py.clip_index.
    destruct (max_length <? 0) eqn:E; [apply Z.ltb_lt in E; lia | lia].
  - intros Hne Hm. rewrite Hcut by (auto; lia). unfold Py.clip_index.
    destruct (max_length <? 0) eqn:E; [lia | apply Z.ltb_ge in E; lia].
  - intros Hne Hm Hclose. rewrite Hcut by (auto; lia). unfold Py.clip_index.
    destruct (max_length <? 0) eqn:E; [apply Z.ltb_lt in E; lia | lia].
Qed.

Lemma get_text_preview_length_witness :
  Py.len (get_text_preview "abcdef" 5) = 5 + 3 /\
  Py.len "abcdef" < Py.len (get_text_preview "abcdef" 5) /\
  Py.len (get_text_preview "abcdef" (-2)) = Z.max 0 (Py.len "abcdef" + -2) + 3.
Proof.
  pose proof (get_text_preview_length "abcdef" 5) as (_ & _ & Hcut & _ & Hlonger).
  pose proof (get_text_preview_length "abcdef" (-2)) as (_ & _ & _ & Hneg & _).
  split; [apply Hcut; [discriminate | unfold Py.len; simpl; lia]|].
  split; [apply Hlonger; [discriminate | unfold Py.len; simpl; lia | unfold Py.len; simpl; lia]|].
  apply Hneg; [discriminate | lia].
Defined.

End PreviewFurther.

(** ** The retry loop, whatever the collaborators do *)

Section RetryFurther.
Import WebScraper.

Variable fetch_url : nat -> string -> Py.Outcome (option string).
Variable extract : nat -> string -> Py.Outcome (option string).

(** An attempt yields a non-empty text or nothing. *)
Lemma attempt_result_nonempty (i : nat) (url text : string) :
  attempt_result fetch_url extract i url = Some text -> text <> EmptyString.
Proof.
  unfold attempt_result.
  destruct (fetch_url i url) as [downloaded|]; [|discriminate].
  destruct (Py.truthy_opt downloaded); [|discriminate].
  destruct (extract i (or_empty downloaded)) as [found|]; [|discriminate].
  destruct (Py.truthy_opt found) eqn:Ht; [|discriminate].
  intros ->. simpl in Ht. now apply truthy_true_iff.
Qed.

(** Among the first [n] attempts either all fail or one is the first to
    yield a text. *)
Lemma first_success_or_none (url : string) (n : nat) :
  (forall j, (j < n)%nat -> attempt_result fetch_url extract j url = None) \/
  exists k text,
    (k < n)%nat /\ attempt_result fetch_url extract k url = Some text /\
    forall j, (j < k)%nat -> attempt_result fetch_url extract j url = None.
Proof.
  induction n as [|n [IH|(k & text & Hk & Hok & Hfail)]].
  - left. intros j Hj. lia.
  - destruct (attempt_result fetch_url extract n url) as [text|] eqn:E.
    + right. exists n, text. auto.
    + left. intros j Hj. destruct (Nat.eq_dec j n) as [->|Hne]; [exact E | apply IH; lia].
  - right. exists k, text. auto.
Qed.

Lemma sum_durations (n : nat) :
  2 * Py.sum_int (map Z.of_nat (seq 1 n)) = Z.of_nat n * (Z.of_nat n + 1).
Proof.
  induction n as [|n IH]; [reflexivity|].
  rewrite seq_S, map_app, sum_int_app. cbn [map Nat.add]. rewrite sum_int_cons.
  unfold Py.sum_int at 2. simpl fold_left. lia.
Qed.

Lemma durations_range (n : nat) :
  Forall (fun d => 1 <= d <= Z.of_nat n) (map Z.of_nat (seq 1 n)).
Proof.
  apply Forall_map, Forall_forall. intros i Hi. apply in_seq in Hi. lia.
Qed.

(** What a call does, in full: it returns; it yields nothing exactly when
    every attempt of the budget fails, and otherwise the text of the first
    attempt that succeeds, [k] say, after [k + 1] fetches and sleeps of 1,
    ..., [k] seconds. *)
Lemma get_website_text_content_outcome (url : string) (max_retries : Z) :
  exists r tr,
    get_website_text_content fetch_url extract url max_retries [] = (Py.Ret r, tr) /\
    match r with
    | None =>
        (forall i, Z.of_nat i < max_retries -> attempt_result fetch_url extract i url = None) /\
        fetches tr = Z.to_nat max_retries /\
        sleeps tr = map Z.of_nat (seq 1 (Z.to_nat (max_retries - 1)))
    | Some text =>
        exists k, Z.of_nat k < max_retries /\
                  attempt_result fetch_url extract k url = Some text /\
                  (forall j, (j < k)%nat -> attempt_result fetch_url extract j url = None) /\
                  fetches tr = S k /\
                  sleeps tr = map Z.of_nat (seq 1 k)
    end.
Proof.
  unfold get_website_text_content, range.
  destruct (first_success_or_none url (Z.to_nat max_retries))
    as [Hfail|(k & text & Hk & Hok & Hfail)].
  - destruct (retry_loop_all_fail fetch_url extract url max_retries (Z.to_nat max_retries)
                0%nat []) as (tr & Hrun & Hf & Hs & _); [exact Hfail|].
    exists None, tr. split; [exact Hrun|]. split; [intros i Hi; apply Hfail; lia|].
    split; [exact Hf|]. simpl in Hs. rewrite Hs.
    destruct (Z_le_gt_dec 1 max_retries) as [Hpos|Hneg].
    + apply (proj1 (backoff_range max_retries Hpos)).
    + replace (Z.to_nat max_retries) with 0%nat by lia.
      replace (Z.to_nat (max_retries - 1)) with 0%nat by lia. reflexivity.
  - destruct (retry_loop_first_success fetch_url extract url max_retries text k
                (Z.to_nat max_retries) 0%nat []) as (tr & Hrun & Hf & Hs & _);
      [exact Hk | exact Hfail | exact Hok |].
    exists (Some text), tr. split; [exact Hrun|]. exists k.
    split; [lia|]. split; [exact Hok|]. split; [exact Hfail|]. split; [exact Hf|].
    simpl in Hs. destruct (backoff_below max_retries k 0) as [Hb _]; [lia|].
    rewrite Hs, Hb. apply map_succ_seq.
Qed.

(** Whatever the fetch and the extraction do (answer, answer with nothing,
    raise, in any mix), [get_website_text_content] returns, with nothing or
    with a text that is not empty; it makes at most [max_retries] attempts;
    each sleep lasts between 1 and [max_retries - 1] seconds, and together
    they last at most [(max_retries - 1) * max_retries / 2] seconds: 3
    attempts and 3 seconds at most under the default budget. *)
Theorem get_website_text_content_bounds (url : string) (max_retries : Z) :
  exists r tr,
    get_website_text_content fetch_url extract url max_retries [] = (Py.Ret r, tr) /\
    (r = None \/ exists text, r = Some text /\ text <> EmptyString) /\
    Z.of_nat (fetches tr) <= Z.max 0 max_retries /\
    Forall (fun d => 1 <= d <= max_retries - 1) (sleeps tr) /\
    2 * Py.sum_int (sleeps tr) <= Z.max 0 (max_retries - 1) * Z.max 0 max_retries.
Proof.
  destruct (get_website_text_content_outcome url max_retries) as (r & tr & Hrun & Hr).
  exists r, tr. split; [exact Hrun|]. destruct r as [text|].
  - destruct Hr as (k & Hk & Hok & _ & Hf & Hs).
    split; [right; exists text; split; [reflexivity|]; now apply attempt_result_nonempty in Hok|].
    split; [lia|]. rewrite Hs. split.
    + eapply Forall_impl; [|apply durations_range]. intros d Hd. cbn beta in Hd. lia.
    + rewrite sum_durations. nia.
  - destruct Hr as (_ & Hf & Hs).
    split; [now left|]. split; [lia|]. rewrite Hs. split.
    + eapply Forall_impl; [|apply durations_range]. intros d Hd. cbn beta in Hd. lia.
    + rewrite sum_durations. nia.
Qed.

End RetryFurther.

(** ** The items of [scrape_list_items] *)

Section ScrapeFurther.
Import WebScraper.

Lemma rstrip_cons (c : ascii) (s : string) :
  Py.rstrip (String c s)
  = match Py.rstrip s with
    | EmptyString => if Py.is_space c then EmptyString else String c EmptyString
    | String d r => String c (String d r)
    end.
Proof.
  reflexivity.
Qed.

Lemma rstrip_idempotent (s : string) : Py.rstrip (Py.rstrip s) = Py.rstrip s.
Proof.
  induction s as [|c s IH]; [reflexivity|].
  rewrite rstrip_cons. destruct (Py.rstrip s) as [|d r] eqn:E.
  - destruct (Py.is_space c) eqn:Hc; [reflexivity|]. rewrite rstrip_cons. cbn [Py.rstrip].
    now rewrite Hc.
  - rewrite rstrip_cons, IH. reflexivity.
Qed.

Lemma lstrip_head (s : string) :
  Py.lstrip s = EmptyString \/
  exists c r, Py.lstrip s = String c r /\ Py.is_space c = false.
Proof.
  induction s as [|c s IH]; [now left|].
  cbn [Py.lstrip]. destruct (Py.is_space c) eqn:Hc; [exact IH|].
  right. now exists c, s.
Qed.

Lemma rstrip_keeps_head (c : ascii) (s : string) :
  Py.is_space c = false -> exists r, Py.rstrip (String c s) = String c r.
Proof.
  intros Hc. rewrite rstrip_cons. destruct (Py.rstrip s) as [|d r].
  - rewrite Hc. now exists EmptyString.
  - now exists (String d r).
Qed.

(** Stripping twice is stripping once. *)
Lemma strip_idempotent (s : string) : Py.strip (Py.strip s) = Py.strip s.
Proof.
  unfold Py.strip. destruct (lstrip_head s) as [H|(c & r & H & Hc)]; rewrite H.
  - reflexivity.
  - destruct (rstrip_keeps_head c r Hc) as (r' & Hr). rewrite Hr.
    cbn [Py.lstrip]. rewrite Hc, <- Hr. apply rstrip_idempotent.
Qed.

Variable Element : Type.
Variable requests_get : string -> Py.Outcome Response.
Variable find_list_containers : string -> Py.Outcome (list Element).
Variable find_li : Element -> Py.Outcome (list Element).
Variable select : string -> string -> Py.Outcome (list Element).
Variable get_text : Element -> Py.Outcome string.

(** An item as [scrape_list_items] makes them for the page [page_url]: a
    name that is not empty and has no blank at either end, and the page as
    both [source] and [url]. *)
Definition item_ok (page_url : string) (it : Item) : Prop :=
  name it <> EmptyString /\ Py.strip (name it) = name it /\
  source it = page_url /\ url it = page_url.

(** The items made of the texts of a list of elements. *)
Definition items_of (page_url : string) (texts : list string) : list Item :=
  map (fun t => mkItem (Py.strip t) page_url page_url)
      (filter (fun t => Py.truthy (Py.strip t)) texts).

Lemma items_of_ok (page_url : string) (texts : list string) :
  Forall (item_ok page_url) (items_of page_url texts).
Proof.
  apply Forall_map, Forall_forall. intros t Ht. apply filter_In in Ht as (_ & Ht).
  unfold item_ok. cbn [name source url]. repeat split.
  - now apply truthy_true_iff.
  - apply strip_idempotent.
Qed.

Lemma items_of_app (page_url : string) (ts1 ts2 : list string) :
  items_of page_url (ts1 ++ ts2) = (items_of page_url ts1 ++ items_of page_url ts2)%list.
Proof.
  unfold items_of. now rewrite filter_app, map_app.
Qed.

(** The inner loop: it returns the items it had and those of the texts
    read, or raises what the first failing element raises. *)
Lemma collect_items_spec (page_url : string) (list_items : list Element) :
  forall items : list Item,
    (exists texts,
       Forall2 (fun el t => get_text el = Py.Ret t) list_items texts /\
       collect_items Element get_text page_url list_items items
       = Py.Ret (items ++ items_of page_url texts)%list) \/
    (exists e, collect_items Element get_text page_url list_items items = Py.Raise e).
Proof.
  induction list_items as [|el rest IH]; intros items.
  - left. exists []. split; [constructor|]. simpl. now rewrite app_nil_r.
  - cbn [collect_items]. destruct (get_text el) as [raw|e] eqn:Hel; cbn [Py.bind].
    + destruct (Py.truthy (Py.strip raw)) eqn:Hraw.
      * destruct (IH (items ++ [mkItem (Py.strip raw) page_url page_url])%list)
          as [(texts & Hall & Hrun)|(e & Hrun)]; [left | right; now exists e].
        exists (raw :: texts). split; [now constructor|].
        rewrite Hrun. unfold items_of. cbn [filter]. rewrite Hraw. cbn [map].
        now rewrite <- app_assoc.
      * destruct (IH items) as [(texts & Hall & Hrun)|(e & Hrun)]; [left | right; now exists e].
        exists (raw :: texts). split; [now constructor|].
        rewrite Hrun. unfold items_of. cbn [filter]. now rewrite Hraw.
    + right. now exists e.
Qed.

Lemma collect_containers_spec (page_url : string) (list_containers : list Element) :
  forall items : list Item,
    (exists texts,
       collect_containers Element find_li get_text page_url list_containers items
       = Py.Ret (items ++ items_of page_url texts)%list) \/
    (exists e, collect_containers Element find_li get_text page_url list_containers items
               = Py.Raise e).
Proof.
  induction list_containers as [|container rest IH]; intros items.
  - left. exists []. simpl. now rewrite app_nil_r.
  - cbn [collect_containers]. destruct (find_li container) as [list_items|e]; cbn [Py.bind];
      [|right; now exists e].
    destruct (collect_items_spec page_url list_items items) as [(texts & _ & Hrun)|(e & Hrun)];
      rewrite Hrun; cbn [Py.bind]; [|right; now exists e].
    destruct (IH (items ++ items_of page_url texts)%list) as [(texts' & Hrun')|(e & Hrun')];
      [left | right; now exists e].
    exists (texts ++ texts')%list. rewrite Hrun', items_of_app, <- app_assoc. reflexivity.
Qed.

(** Whatever the request and the parser do, [scrape_list_items] makes one
    request and returns a list; every item of it has a name that is not
    empty and is stripped, and the requested page as [source] and as
    [url]; and when anything raised, the list is empty (items already
    collected are dropped) and one error line is logged. *)
Theorem scrape_list_items_items (page_url : string) (list_selector : option string) (tr : Trace) :
  exists items log,
    scrape_list_items Element requests_get find_list_containers find_li select get_text
      page_url list_selector tr
    = (Py.Ret items, (tr ++ HttpGet page_url :: log)%list) /\
    Forall (item_ok page_url) items /\
    (log = [] \/
     items = [] /\ exists e, log = [LogError ("Error scraping list items: " ++ Py.str_exn e)]).
Proof.
  assert (Hfail : forall e,
            exists items log,
              (Py.Ret (@nil Item),
               ((tr ++ [HttpGet page_url])
                ++ [LogError ("Error scraping list items: " ++ Py.str_exn e)])%list)
              = (Py.Ret items, (tr ++ HttpGet page_url :: log)%list) /\
              Forall (item_ok page_url) items /\
              (log = [] \/
               items = [] /\
               exists e', log = [LogError ("Error scraping list items: " ++ Py.str_exn e')])).
  { intros e. exists [], [LogError ("Error scraping list items: " ++ Py.str_exn e)].
    rewrite <- app_assoc. split; [reflexivity|]. split; [constructor|]. right. split; eauto. }
  assert (Hok : forall texts,
            exists items log,
              (Py.Ret (items_of page_url texts), (tr ++ [HttpGet page_url])%list)
              = (Py.Ret items, (tr ++ HttpGet page_url :: log)%list) /\
              Forall (item_ok page_url) items /\
              (log = [] \/
               items = [] /\
               exists e', log = [LogError ("Error scraping list items: " ++ Py.str_exn e')])).
  { intros texts. exists (items_of page_url texts), []. split; [reflexivity|].
    split; [apply items_of_ok | now left]. }
  unfold scrape_list_items, try_exceptM, bindM, call, lift, emit, ret.
  destruct (requests_get page_url) as [response|e]; [|apply Hfail].
  destruct (raise_for_status response) as [[]|e]; [|apply Hfail].
  destruct (negb (Py.truthy_opt list_selector)).
  - destruct (find_list_containers (response_text response)) as [list_containers|e];
      [|apply Hfail].
    destruct (collect_containers_spec page_url list_containers [])
      as [(texts & Hrun)|(e & Hrun)]; rewrite Hrun; [apply Hok | apply Hfail].
  - destruct (select (response_text response) (or_empty list_selector)) as [list_items|e];
      [|apply Hfail].
    destruct (collect_items_spec page_url list_items [])
      as [(texts & _ & Hrun)|(e & Hrun)]; rewrite Hrun; [apply Hok | apply Hfail].
Qed.

(** With a selector, a page that answers with a status below 400 and
    elements whose texts can all be read, [scrape_list_items] returns one
    item per element whose stripped text is not empty, in the order of the
    elements, and logs nothing. *)
Theorem scrape_list_items_selected
  (page_url selector : string) (response : Response) (list_items : list Element)
  (texts : list string) (tr : Trace) :
  selector <> EmptyString ->
  requests_get page_url = Py.Ret response ->
  status_code response < 400 ->
  select (response_text response) selector = Py.Ret list_items ->
  Forall2 (fun el t => get_text el = Py.Ret t) list_items texts ->
  scrape_list_items Element requests_get find_list_containers find_li select get_text
    page_url (Some selector) tr
  = (Py.Ret (items_of page_url texts), (tr ++ [HttpGet page_url])%list).
Proof.
  intros Hsel Hget Hstatus Hselect Htexts. apply truthy_true_iff in Hsel.
  unfold scrape_list_items, try_exceptM, bindM, call, lift, emit, ret.
  rewrite Hget. unfold raise_for_status.
  destruct (400 <=? status_code response) eqn:E; [apply Z.leb_le in E; lia|].
  cbn [andb Py.truthy_opt]. rewrite Hsel. cbn [negb or_empty]. rewrite Hselect.
  destruct (collect_items_spec page_url list_items []) as [(texts' & Hall & Hrun)|(e & Hrun)].
  - rewrite Hrun. assert (texts' = texts) as ->; [|reflexivity].
    clear Hrun Hselect. revert texts' Hall. induction Htexts as [|el t els ts Hel Hels IH];
      intros texts' Hall; inversion Hall; subst; [reflexivity|].
    f_equal; [congruence | now apply IH].
  - exfalso. clear Hselect. revert Hrun. generalize (@nil Item).
    induction Htexts as [|el t els ts Hel Hels IH]; intros items; cbn [collect_items];
      [discriminate|].
    rewrite Hel. cbn [Py.bind]. destruct (Py.truthy (Py.strip t)); apply IH.
Qed.

End ScrapeFurther.

(** A page with three list elements, one of them blank (a no-break space,
    U+00A0, as the parser gives for [&nbsp;]), and a site that answers 404. *)
Definition page_ok : string -> Py.Outcome WebScraper.Response :=
  fun _ => Py.Ret (WebScraper.mkResponse 200 "<ul><li> Alpha </li><li>&nbsp;</li><li>&nbsp; Beta</li></ul>").
Definition page_missing : string -> Py.Outcome WebScraper.Response :=
  fun _ => Py.Ret (WebScraper.mkResponse 404 "Not Found").
Definition three_elements : string -> string -> Py.Outcome (list string) :=
  fun _ _ => Py.Ret [" Alpha "; Py.chr 160; Py.chr 160 ++ " Beta"].
Definition no_elements : string -> Py.Outcome (list string) := fun _ => Py.Ret [].
Definition text_of_element : string -> Py.Outcome string := fun el => Py.Ret el.

Lemma scrape_list_items_selected_witness :
  WebScraper.scrape_list_items string page_ok no_elements no_elements three_elements
    text_of_element "http://example.com" (Some "li") []
  = (Py.Ret [ WebScraper.mkItem "Alpha" "http://example.com" "http://example.com";
              WebScraper.mkItem "Beta" "http://example.com" "http://example.com" ],
     [WebScraper.HttpGet "http://example.com"]).
Proof.
  apply (scrape_list_items_selected string page_ok no_elements no_elements three_elements
           text_of_element "http://example.com" "li"
           (WebScraper.mkResponse 200 "<ul><li> Alpha </li><li>&nbsp;</li><li>&nbsp; Beta</li></ul>")
           [" Alpha "; Py.chr 160; Py.chr 160 ++ " Beta"] [" Alpha "; Py.chr 160; Py.chr 160 ++ " Beta"] []);
    [discriminate | reflexivity | simpl; lia | reflexivity | repeat constructor].
Defined.

(** A parser that raises whenever it is asked. *)
Definition parser_fails {A B : Type} : A -> Py.Outcome B :=
  fun _ => Py.Raise (Py.Exception "ParserError" "the parser was called").

(** A request that raises, or a page that answers with a status from 400
    to 599, gives the empty list and one error line, which tells the
    exception of the request or the [HTTPError] of [raise_for_status].  The
    parser has no part in it: the outcome is this one for every parser,
    also for one that raises whenever it is asked; so no call of the parser
    comes before the status is checked. *)
Theorem scrape_list_items_failed_request
  (requests_get : string -> Py.Outcome WebScraper.Response)
  (page_url : string) (list_selector : option string) (tr : WebScraper.Trace) :
  (forall e, requests_get page_url = Py.Raise e ->
     forall (Element : Type) (find_list_containers : string -> Py.Outcome (list Element))
            (find_li : Element -> Py.Outcome (list Element))
            (select : string -> string -> Py.Outcome (list Element))
            (get_text : Element -> Py.Outcome string),
       WebScraper.scrape_list_items Element requests_get find_list_containers find_li select
         get_text page_url list_selector tr
       = (Py.Ret [],
          (tr ++ [WebScraper.HttpGet page_url;
                  WebScraper.LogError ("Error scraping list items: " ++ Py.str_exn e)])%list)) /\
  (forall response, requests_get page_url = Py.Ret response ->
     400 <= WebScraper.status_code response < 600 ->
     exists e,
       WebScraper.raise_for_status response = Py.Raise e /\
       Py.exn_class e = "HTTPError" /\
       forall (Element : Type) (find_list_containers : string -> Py.Outcome (list Element))
              (find_li : Element -> Py.Outcome (list Element))
              (select : string -> string -> Py.Outcome (list Element))
              (get_text : Element -> Py.Outcome string),
         WebScraper.scrape_list_items Element requests_get find_list_containers find_li select
           get_text page_url list_selector tr
         = (Py.Ret [],
            (tr ++ [WebScraper.HttpGet page_url;
                    WebScraper.LogError ("Error scraping list items: " ++ Py.str_exn e)])%list)).
Proof.
  split.
  - intros e He Element find_list_containers find_li select get_text.
    unfold WebScraper.scrape_list_items, WebScraper.try_exceptM, WebScraper.bindM,
      WebScraper.emit, WebScraper.ret, WebScraper.call.
    rewrite He. cbv beta iota. rewrite <- app_assoc. reflexivity.
  - intros response Hget Hstatus.
    assert (Hraise : WebScraper.raise_for_status response
                     = Py.Raise (Py.Exception "HTTPError"
                                   ("HTTP status "
                                    ++ Py.str_int (WebScraper.status_code response)))).
    { unfold WebScraper.raise_for_status.
      destruct (400 <=? WebScraper.status_code response) eqn:E1; [|apply Z.leb_gt in E1; lia].
      destruct (WebScraper.status_code response <? 600) eqn:E2; [|apply Z.ltb_ge in E2; lia].
      reflexivity. }
    eexists. split; [exact Hraise|]. split; [reflexivity|].
    intros Element find_list_containers find_li select get_text.
    unfold WebScraper.scrape_list_items, WebScraper.try_exceptM, WebScraper.bindM,
      WebScraper.emit, WebScraper.ret, WebScraper.lift, WebScraper.call.
    rewrite Hget. cbv beta iota. rewrite Hraise. cbv beta iota.
    rewrite <- app_assoc. reflexivity.
Qed.

Lemma scrape_list_items_failed_request_witness :
  exists e,
    WebScraper.raise_for_status (WebScraper.mkResponse 404 "Not Found") = Py.Raise e /\
    Py.exn_class e = "HTTPError" /\
    WebScraper.scrape_list_items string page_missing parser_fails parser_fails
      (fun _ => parser_fails) parser_fails "http://example.com" (Some "li") []
    = (Py.Ret [],
       [WebScraper.HttpGet "http://example.com";
        WebScraper.LogError ("Error scraping list items: " ++ Py.str_exn e)]).
Proof.
  destruct (proj2 (scrape_list_items_failed_request page_missing "http://example.com"
                     (Some "li") [])
              (WebScraper.mkResponse 404 "Not Found") eq_refl ltac:(simpl; lia))
    as (e & Hraise & Hclass & Hrun).
  exists e. split; [exact Hraise|]. split; [exact Hclass|].
  apply (Hrun string parser_fails parser_fails (fun _ => parser_fails) parser_fails).
Defined.

(** ** [get_website_metadata] and [save_text_to_file] *)

Section MetadataFurther.
Import WebScraper.

Variable fetch_url : nat -> string -> Py.Outcome (option string).
Variable extract_metadata : string -> Py.Outcome (option Metadata).

(** The four fields of a metadata mapping, in order. *)
Definition metadata_dict (m : Metadata) : Py.dict string :=
  [ ("title", or_empty (md_title m)); ("author", or_empty (md_author m));
    ("date", or_empty (md_date m)); ("description", or_empty (md_description m)) ].

(** The outcome of [get_website_metadata], case by case. *)
Lemma get_website_metadata_outcome (page_url : string) (tr : Trace) :
  let index := fetches tr in
  exists d log,
    get_website_metadata fetch_url extract_metadata page_url tr
    = (Py.Ret d, (tr ++ FetchUrl page_url :: log)%list) /\
    sleeps log = [] /\ fetches log = O /\
    match fetch_url index page_url with
    | Py.Raise e => d = [] /\ log = [LogError ("Error getting metadata: " ++ Py.str_exn e)]
    | Py.Ret downloaded =>
        if Py.truthy_opt downloaded then
          match extract_metadata (or_empty downloaded) with
          | Py.Ret (Some m) =>
              d = metadata_dict m /\ log = [ExtractMetadata (or_empty downloaded)]
          | Py.Ret None =>
              d = [] /\
              log = [ExtractMetadata (or_empty downloaded);
                     LogError ("Error getting metadata: "
                               ++ "'NoneType' object has no attribute 'title'")]
          | Py.Raise e =>
              d = [] /\
              log = [ExtractMetadata (or_empty downloaded);
                     LogError ("Error getting metadata: " ++ Py.str_exn e)]
          end
        else d = [] /\ log = []
    end.
Proof.
  cbv zeta.
  unfold get_website_metadata, try_exceptM, bindM, trafilatura_fetch_url, call, lift, emit, ret.
  destruct (fetch_url (fetches tr) page_url) as [downloaded|e].
  - destruct (Py.truthy_opt downloaded).
    + destruct (extract_metadata (or_empty downloaded)) as [[m|]|e]; cbn [attributes];
        unfold call; cbv beta iota zeta; rewrite <- ?app_assoc;
        eexists _, _; (split; [reflexivity|]); repeat split.
    + eexists _, _. split; [reflexivity|]. repeat split.
  - unfold call. cbv beta iota zeta. rewrite <- ?app_assoc.
    eexists _, _. split; [reflexivity|]. repeat split.
Qed.

(** [get_website_metadata] makes one fetch, never sleeps, and returns
    either the empty mapping or the four fields [title], [author], [date],
    [description], each a string, empty where the page gives none.  It
    returns the fields exactly when the fetch yields a page that is not
    empty and the extraction yields metadata; a fetch that yields nothing
    gives the empty mapping without an error line; a fetch or an extraction
    that raises, or an extraction that yields [None], gives the empty
    mapping and one error line. *)
Theorem get_website_metadata_cases (page_url : string) (tr : Trace) :
  let index := fetches tr in
  exists d log,
    get_website_metadata fetch_url extract_metadata page_url tr
    = (Py.Ret d, (tr ++ FetchUrl page_url :: log)%list) /\
    sleeps log = [] /\ fetches log = O /\
    match fetch_url index page_url with
    | Py.Raise e => d = [] /\ log = [LogError ("Error getting metadata: " ++ Py.str_exn e)]
    | Py.Ret downloaded =>
        if Py.truthy_opt downloaded then
          match extract_metadata (or_empty downloaded) with
          | Py.Ret (Some m) =>
              d = metadata_dict m /\ log = [ExtractMetadata (or_empty downloaded)]
          | Py.Ret None =>
              d = [] /\
              log = [ExtractMetadata (or_empty downloaded);
                     LogError ("Error getting metadata: "
                               ++ "'NoneType' object has no attribute 'title'")]
          | Py.Raise e =>
              d = [] /\
              log = [ExtractMetadata (or_empty downloaded);
                     LogError ("Error getting metadata: " ++ Py.str_exn e)]
          end
        else d = [] /\ log = []
    end.
Proof.
  exact (get_website_metadata_outcome page_url tr).
Qed.

End MetadataFurther.

(** ** Where [save_text_to_file] writes *)

Section SaveFurther.
Import WebScraper.

(** No slash in a string. *)
Definition no_slash (s : string) : Prop :=
  Py.all_chars (fun c => negb (Ascii.eqb c Pathlib.slash)) s = true.

(** A plain file name: not empty, not the dot, and without a slash. *)
Definition plain_name (s : string) : Prop :=
  s <> EmptyString /\ s <> "." /\ no_slash s.

Lemma no_slash_app (s1 s2 : string) : no_slash s1 -> no_slash s2 -> no_slash (s1 ++ s2).
Proof.
  unfold no_slash. induction s1 as [|c s1 IH]; intros H1 H2; [exact H2|].
  cbn [append Py.all_chars] in *. apply andb_true_iff in H1 as (Hc & H1).
  rewrite Hc. now apply IH.
Qed.

Lemma append_empty (s : string) : s ++ EmptyString = s.
Proof.
  induction s as [|c s IH]; [reflexivity|]. cbn [append]. now rewrite IH.
Qed.

Lemma split_slash_plain (s : string) : forall cur : string,
  no_slash s -> Pathlib.split_slash cur s = [cur ++ s].
Proof.
  unfold no_slash. induction s as [|c s IH]; intros cur H; cbn [Pathlib.split_slash].
  - now rewrite append_empty.
  - cbn [Py.all_chars] in H. apply andb_true_iff in H as (Hc & H).
    apply negb_true_iff in Hc. rewrite Hc, IH by exact H.
    now rewrite append_assoc.
Qed.

Lemma plain_parts (s : string) : plain_name s -> Pathlib.parts s = [s] /\ Pathlib.root s = EmptyString.
Proof.
  intros (Hne & Hdot & Hslash). unfold Pathlib.parts.
  rewrite split_slash_plain by exact Hslash. cbn [append filter]. split.
  - apply String.eqb_neq in Hne, Hdot. now rewrite Hne, Hdot.
  - destruct s as [|c s]; [reflexivity|]. unfold no_slash in Hslash.
    cbn [Py.all_chars] in Hslash. apply andb_true_iff in Hslash as (Hc & _).
    apply negb_true_iff in Hc. cbn [Pathlib.root]. now rewrite Hc.
Qed.

(** A plain name is put under the directory. *)
Lemma joinpath_plain (name : string) :
  plain_name name -> Pathlib.joinpath "scraped_content" name = "scraped_content/" ++ name.
Proof.
  intros H. destruct (plain_parts name H) as (Hparts & Hroot).
  unfold Pathlib.joinpath. rewrite Hroot, Hparts. reflexivity.
Qed.

(** A name that starts with a slash stands for itself, whatever the
    directory. *)
Lemma joinpath_absolute (dir name : string) :
  prefix "/" name = true ->
  Pathlib.joinpath dir name = Pathlib.str_path name /\
  prefix "/" (Pathlib.joinpath dir name) = true.
Proof.
  intros H. destruct name as [|c name]; [discriminate|].
  cbn [prefix] in H. destruct (ascii_dec "/" c) as [<-|]; [|discriminate].
  assert (Hroot : Pathlib.root (String "/" name) = "/" \/ Pathlib.root (String "/" name) = "//").
  { cbn [Pathlib.root]. change (Ascii.eqb "/" Pathlib.slash) with true. cbv iota.
    destruct name as [|c2 name]; [now left|].
    destruct (Ascii.eqb c2 Pathlib.slash); [|now left].
    destruct name as [|c3 name]; [now right|].
    destruct (Ascii.eqb c3 Pathlib.slash); [now left | now right]. }
  unfold Pathlib.joinpath, Pathlib.str_path.
  destruct Hroot as [-> | ->]; cbn [Py.truthy Pathlib.format append];
    (split; [reflexivity|]); cbn [prefix];
    (destruct (ascii_dec "/" "/") as [_|Hne]; [|now contradiction Hne]);
    first [reflexivity | now destruct (String.concat _ _)].
Qed.

Lemma string_of_uint_no_slash (d : Decimal.uint) : no_slash (NilEmpty.string_of_uint d).
Proof.
  unfold no_slash. induction d; cbn [NilEmpty.string_of_uint Py.all_chars];
    [reflexivity | exact IHd ..].
Qed.

(** [str(z)] holds no slash. *)
Lemma str_int_no_slash (z : Z) : no_slash (Py.str_int z).
Proof.
  unfold Py.str_int, NilZero.string_of_int, NilZero.string_of_uint.
  destruct (Z.to_int z) as [d|d].
  - destruct d; try apply string_of_uint_no_slash. reflexivity.
  - unfold no_slash. cbn [Py.all_chars].
    destruct d; try apply string_of_uint_no_slash; reflexivity.
Qed.

Variable time_now : Z.
Variable mkdir : string -> Py.Outcome unit.
Variable write_file : string -> string -> Py.Outcome unit.

(** The name [save_text_to_file] writes under: the one given, or one made
    of the time when none or the empty one is given. *)
Definition file_name (filename : option string) : string :=
  if Py.truthy_opt filename then or_empty filename
  else "scraped_content_" ++ Py.str_int time_now ++ ".txt".

Lemma timed_name_plain : plain_name ("scraped_content_" ++ Py.str_int time_now ++ ".txt").
Proof.
  split; [discriminate|]. split; [discriminate|].
  apply (no_slash_app "scraped_content_"); [reflexivity|].
  apply no_slash_app; [apply str_int_no_slash | reflexivity].
Qed.

(** [save_text_to_file], paths being POSIX paths.  With the empty text it
    returns the placeholder and leaves the file system alone.  Otherwise it
    makes the directory [scraped_content] first and, only if that succeeds,
    writes the whole text to [Path("scraped_content") / name] and returns
    that path; an exception of either step reaches the caller, and when the
    directory cannot be made nothing is written.  The path is
    [scraped_content/name] for a plain name, and the timed name is one;
    but a name that starts with a slash is an absolute path of its own, in
    which the directory [scraped_content] has no part. *)
Theorem save_text_to_file_contract (text : string) (filename : option string) (tr : Trace) :
  let path := Pathlib.joinpath "scraped_content" (file_name filename) in
  (text = EmptyString ->
   save_text_to_file time_now mkdir write_file Pathlib.joinpath text filename tr
   = (Py.Ret "No content to save", tr)) /\
  (text <> EmptyString ->
   mkdir "scraped_content" = Py.Ret tt ->
   write_file path text = Py.Ret tt ->
   save_text_to_file time_now mkdir write_file Pathlib.joinpath text filename tr
   = (Py.Ret path, (tr ++ [Mkdir "scraped_content"; WriteFile path text])%list)) /\
  (forall e, text <> EmptyString ->
   mkdir "scraped_content" = Py.Raise e ->
   save_text_to_file time_now mkdir write_file Pathlib.joinpath text filename tr
   = (Py.Raise e, (tr ++ [Mkdir "scraped_content"])%list)) /\
  (forall e, text <> EmptyString ->
   mkdir "scraped_content" = Py.Ret tt ->
   write_file path text = Py.Raise e ->
   save_text_to_file time_now mkdir write_file Pathlib.joinpath text filename tr
   = (Py.Raise e, (tr ++ [Mkdir "scraped_content"; WriteFile path text])%list)) /\
  (plain_name (file_name filename) -> path = "scraped_content/" ++ file_name filename) /\
  (Py.truthy_opt filename = false ->
   path = "scraped_content/scraped_content_" ++ Py.str_int time_now ++ ".txt") /\
  (prefix "/" (file_name filename) = true ->
   path = Pathlib.str_path (file_name filename) /\ prefix "/" path = true).
Proof.
  cbv zeta. unfold save_text_to_file, bindM, call, ret.
  fold (file_name filename).
  split; [|split; [|split; [|split; [|split; [|split]]]]].
  - intros ->. reflexivity.
  - intros Hne Hdir Hwrite. apply truthy_true_iff in Hne. rewrite Hne. cbn [negb].
    rewrite Hdir, Hwrite, <- app_assoc. reflexivity.
  - intros e Hne Hdir. apply truthy_true_iff in Hne. rewrite Hne. cbn [negb].
    now rewrite Hdir.
  - intros e Hne Hdir Hwrite. apply truthy_true_iff in Hne. rewrite Hne. cbn [negb].
    rewrite Hdir, Hwrite, <- app_assoc. reflexivity.
  - apply joinpath_plain.
  - intros Hnone. unfold file_name. rewrite Hnone. apply (joinpath_plain _ timed_name_plain).
  - apply joinpath_absolute.
Qed.

End SaveFurther.

Lemma save_text_to_file_contract_witness :
  WebScraper.save_text_to_file 1700000000 mkdir_ok write_ok Pathlib.joinpath "hello" (Some "") []
  = (Py.Ret "scraped_content/scraped_content_1700000000.txt",
     [WebScraper.Mkdir "scraped_content";
      WebScraper.WriteFile "scraped_content/scraped_content_1700000000.txt" "hello"]) /\
  WebScraper.save_text_to_file 1700000000 mkdir_denied write_ok Pathlib.joinpath "hello" None []
  = (Py.Raise (Py.Exception "PermissionError" "[Errno 13] Permission denied: 'scraped_content'"),
     [WebScraper.Mkdir "scraped_content"]) /\
  WebScraper.save_text_to_file 1700000000 mkdir_ok write_ok Pathlib.joinpath "hello"
    (Some "/tmp/x/abs.txt") []
  = (Py.Ret "/tmp/x/abs.txt",
     [WebScraper.Mkdir "scraped_content"; WebScraper.WriteFile "/tmp/x/abs.txt" "hello"]).
Proof.
  split; [|split].
  - apply (proj1 (proj2 (save_text_to_file_contract 1700000000 mkdir_ok write_ok
                           "hello" (Some "") []))); [discriminate | reflexivity | reflexivity].
  - apply (proj1 (proj2 (proj2 (save_text_to_file_contract 1700000000 mkdir_denied write_ok
                                  "hello" None [])))); [discriminate | reflexivity].
  - apply (proj1 (proj2 (save_text_to_file_contract 1700000000 mkdir_ok write_ok
                           "hello" (Some "/tmp/x/abs.txt") [])));
      [discriminate | reflexivity | reflexivity].
Defined.

(** * The two scripts *)

(** ** [text_analyzer.py]: the constructor and [main] *)

Module AnalyzerScript.
Import Py TextAnalyzer.
Local Open Scope py_scope.

(** The names bound at the top level of [text_analyzer.py], by its imports
    and definitions, and the builtins it refers to. *)
Definition module_names : list string :=
  [ "nltk"; "word_tokenize"; "stopwords"; "Counter"; "re"; "Dict"; "List"; "Any";
    "logging"; "logger"; "TextAnalyzer"; "main" ].
Definition builtin_names : list string :=
  [ "print"; "len"; "set"; "sum"; "str"; "list"; "dict"; "max"; "min";
    "Exception"; "LookupError"; "__name__" ].

(** Evaluating a global name: [NameError] when nothing binds it. *)
Definition global_name (name : string) : Outcome unit :=
  if mem name module_names || mem name builtin_names then Ret tt
  else Raise (Exception "NameError" ("name '" ++ name ++ "' is not defined")).

(** [except LookupError] catches the class and its builtin subclasses. *)
Definition is_lookup_error (e : Exn) : bool :=
  mem (exn_class e) ["LookupError"; "IndexError"; "KeyError"].

Definition try_except_lookup {A} (body : Outcome A) (handler : Outcome A) : Outcome A :=
  match body with
  | Ret a => Ret a
  | Raise e => if is_lookup_error e then handler else Raise e
  end.

(** The text [main] analyzes. *)
Definition sample_text : string := "
    This is a sample text for testing the analyzer.
    It includes some words about community and lifestyle.
    The location is convenient and has great amenities.
    ".

Section Script.

(** NLTK: looking up and downloading its data, the stopword lists, the
    tokenizer; and [json.dumps], were the name [json] bound. *)
Variable nltk_data_find : string -> Outcome unit.
Variable nltk_download : string -> Outcome bool.
Variable stopwords_words : string -> Outcome (list string).
Variable word_tokenize : string -> Outcome (list string).
Variable json_dumps : AnalysisResult -> string.

(** [TextAnalyzer.__init__]. *)
Definition __init__ : Outcome t :=
  _ <- try_except_lookup (nltk_data_find "tokenizers/punkt")
         (_ <- nltk_download "punkt" ;; Ret tt) ;;
  _ <- try_except_lookup (nltk_data_find "corpora/stopwords")
         (_ <- nltk_download "stopwords" ;; Ret tt) ;;
  words <- stopwords_words "english" ;;
  Ret (init words).

(** [main()]: its outcome and the lines it has printed. *)
Definition main : Outcome unit * list string :=
  match __init__ with
  | Raise e => (Raise e, [])
  | Ret analyzer =>
      match analyze_text word_tokenize analyzer sample_text with
      | Raise e => (Raise e, [])
      | Ret analysis =>
          let printed := ["Analysis Results:"] in
          match global_name "json" with
          | Raise e => (Raise e, printed)
          | Ret _ => (Ret tt, (printed ++ [json_dumps analysis])%list)
          end
      end
  end.

End Script.

End AnalyzerScript.

(** ** [web_scraper.py]: [main] *)

Module ScraperScript.
Import Py WebScraper.
Local Open Scope scraper_scope.

(** What [main] prints: a line of text, or a mapping. *)
Inductive Output :=
| Line (s : string)
| Mapping (d : dict string).

Section Script.

Variable fetch_url : nat -> string -> Outcome (option string).
Variable extract : nat -> string -> Outcome (option string).
Variable extract_metadata : string -> Outcome (option Metadata).

(** [print]: the write to the standard output, which raises when the
    stream refuses the text (a character its encoding does not have, a
    closed pipe). *)
Variable print : Output -> Outcome unit.

(** [print(x)] after [printed] was printed: what has been printed then. *)
Definition say (x : Output) (printed : list Output) : M (list Output) :=
  lift (Py.bind (print x) (fun _ => Ret (printed ++ [x])%list)).

(** [main()]: the value is what it has printed, in order. *)
Definition main : M (list Output) :=
  let url := "https://example.com" in
  content <- get_website_text_content fetch_url extract url 3 ;;
  printed <-
    (if truthy_opt content then
       printed <- say (Line ("Content length: " ++ str_int (len (or_empty content))
                             ++ " characters")) [] ;;
       printed <- say (Line (String Re.newline "Preview:")) printed ;;
       say (Line (get_text_preview (or_empty content) 1000)) printed
     else ret []) ;;
  metadata <- get_website_metadata fetch_url extract_metadata url ;;
  printed <- say (Line (String Re.newline "Metadata:")) printed ;;
  say (Mapping metadata) printed.

End Script.

End ScraperScript.

Section Scripts.



(** The constructor: when both data sets are found nothing is downloaded
    and the analyzer holds the English stopwords and the six themes; a data
    set that is missing is downloaded first, whatever the download answers;
    and the constructor raises when a lookup raises something that is no
    [LookupError], when a download raises, or when the stopwords cannot be
    read. *)
Theorem analyzer_init_cases
  (nltk_data_find : string -> Py.Outcome unit) (nltk_download : string -> Py.Outcome bool)
  (stopwords_words : string -> Py.Outcome (list string)) :
  let ready (data name : string) : Prop :=
    nltk_data_find data = Py.Ret tt \/
    exists e ok, nltk_data_find data = Py.Raise e /\ AnalyzerScript.is_lookup_error e = true /\
                 nltk_download name = Py.Ret ok in
  (ready "tokenizers/punkt" "punkt" -> ready "corpora/stopwords" "stopwords" ->
   forall words, stopwords_words "english" = Py.Ret words ->
     AnalyzerScript.__init__ nltk_data_find nltk_download stopwords_words
     = Py.Ret (TextAnalyzer.init words)) /\
  (forall analyzer,
     AnalyzerScript.__init__ nltk_data_find nltk_download stopwords_words = Py.Ret analyzer ->
     ready "tokenizers/punkt" "punkt" /\ ready "corpora/stopwords" "stopwords" /\
     exists words, stopwords_words "english" = Py.Ret words /\
                   analyzer = TextAnalyzer.init words).
Proof.
  cbv zeta. unfold AnalyzerScript.__init__, AnalyzerScript.try_except_lookup. split.
  - intros [H1|(e1 & ok1 & H1 & Hc1 & Hd1)] [H2|(e2 & ok2 & H2 & Hc2 & Hd2)] words Hw;
      rewrite H1, H2, ?Hc1, ?Hc2, ?Hd1, ?Hd2; cbn [Py.bind]; now rewrite Hw.
  - intros analyzer Hrun.
    destruct (nltk_data_find "tokenizers/punkt") as [[]|e1] eqn:H1.
    + destruct (nltk_data_find "corpora/stopwords") as [[]|e2] eqn:H2.
      * cbn [Py.bind] in Hrun. destruct (stopwords_words "english") as [words|] eqn:Hw;
          [|discriminate]. injection Hrun as <-. split; [now left|]. split; [now left|].
        now exists words.
      * cbn [Py.bind] in Hrun.
        destruct (AnalyzerScript.is_lookup_error e2) eqn:Hc2; [|discriminate].
        destruct (nltk_download "stopwords") as [ok2|] eqn:Hd2; [|discriminate].
        cbn [Py.bind] in Hrun. destruct (stopwords_words "english") as [words|] eqn:Hw;
          [|discriminate]. injection Hrun as <-. split; [now left|].
        split; [right; now exists e2, ok2|]. now exists words.
    + destruct (AnalyzerScript.is_lookup_error e1) eqn:Hc1; [|discriminate].
      destruct (nltk_download "punkt") as [ok1|] eqn:Hd1; [|discriminate].
      destruct (nltk_data_find "corpora/stopwords") as [[]|e2] eqn:H2.
      * cbn [Py.bind] in Hrun. destruct (stopwords_words "english") as [words|] eqn:Hw;
          [|discriminate]. injection Hrun as <-.
        split; [right; now exists e1, ok1|]. split; [now left|]. now exists words.
      * cbn [Py.bind] in Hrun.
        destruct (AnalyzerScript.is_lookup_error e2) eqn:Hc2; [|discriminate].
        destruct (nltk_download "stopwords") as [ok2|] eqn:Hd2; [|discriminate].
        cbn [Py.bind] in Hrun. destruct (stopwords_words "english") as [words|] eqn:Hw;
          [|discriminate]. injection Hrun as <-.
        split; [right; now exists e1, ok1|]. split; [right; now exists e2, ok2|].
        now exists words.
Qed.

End Scripts.

Section ScraperMain.
Import WebScraper.

Variable fetch_url : nat -> string -> Py.Outcome (option string).
Variable extract : nat -> string -> Py.Outcome (option string).
Variable extract_metadata : string -> Py.Outcome (option Metadata).
Variable print : ScraperScript.Output -> Py.Outcome unit.

(** What [main] has printed when it ends normally: the length and the
    preview of a text that is not empty, or nothing, and then the metadata,
    which is the empty mapping or the four fields. *)
Definition main_output (out : list ScraperScript.Output) : Prop :=
  exists about d,
    out = (about ++ [ScraperScript.Line (String Re.newline "Metadata:");
                     ScraperScript.Mapping d])%list /\
    (d = [] \/ Py.keys d = ["title"; "author"; "date"; "description"]) /\
    (about = [] \/
     exists content,
       content <> EmptyString /\
       about = [ ScraperScript.Line ("Content length: " ++ Py.str_int (Py.len content)
                                     ++ " characters");
                 ScraperScript.Line (String Re.newline "Preview:");
                 ScraperScript.Line (get_text_preview content 1000) ]).

Lemma say_cases (x : ScraperScript.Output) (printed : list ScraperScript.Output) (tr : Trace) :
  print x = Py.Ret tt /\ ScraperScript.say print x printed tr = (Py.Ret (printed ++ [x])%list, tr) \/
  exists e, print x = Py.Raise e /\ ScraperScript.say print x printed tr = (Py.Raise e, tr).
Proof.
  unfold ScraperScript.say, lift. destruct (print x) as [[]|e]; [left | right; exists e]; auto.
Qed.

(** [main] of [web_scraper.py], whatever the site and the library do: it
    makes at most 4 fetches (3 for the text, 1 for the metadata) and sleeps
    3 seconds at most; it raises only what a [print] raises; and when it
    ends normally, which it does when the output takes every print, it has
    printed the length and the preview of the text only when a text that is
    not empty was found, and then the metadata, which is the empty mapping
    or the four fields. *)
Theorem scraper_main_outcome :
  exists o tr,
    ScraperScript.main fetch_url extract extract_metadata print [] = (o, tr) /\
    (fetches tr <= 4)%nat /\
    Py.sum_int (sleeps tr) <= 3 /\
    match o with
    | Py.Ret out => main_output out /\ Forall (fun x => print x = Py.Ret tt) out
    | Py.Raise e => exists x, print x = Py.Raise e
    end /\
    ((forall x, print x = Py.Ret tt) -> exists out, o = Py.Ret out).
Proof.
  destruct (get_website_text_content_outcome fetch_url extract "https://example.com" 3)
    as (r & tr1 & Hrun1 & Hr).
  destruct (get_website_metadata_outcome fetch_url extract_metadata "https://example.com" tr1)
    as (d & log & Hrun2 & Hsleeps & Hfetches & Hd).
  assert (Hbudget : (fetches tr1 <= 3)%nat /\ Py.sum_int (sleeps tr1) <= 3).
  { destruct r as [text|].
    - destruct Hr as (k & Hk & _ & _ & Hf & Hs). rewrite Hf, Hs.
      split; [lia|]. destruct k as [|[|[|k]]]; [| | | lia];
        unfold Py.sum_int; simpl; lia.
    - destruct Hr as (_ & Hf & Hs). rewrite Hf, Hs. split; [simpl; lia|].
      unfold Py.sum_int. simpl. lia. }
  assert (Hbudget2 :
            (fetches (tr1 ++ FetchUrl "https://example.com" :: log)%list <= 4)%nat /\
            Py.sum_int (sleeps (tr1 ++ FetchUrl "https://example.com" :: log)%list) <= 3).
  { rewrite fetches_app, sleeps_app. change (FetchUrl "https://example.com" :: log)
      with ([FetchUrl "https://example.com"] ++ log)%list.
    rewrite fetches_app, sleeps_app, Hsleeps, Hfetches. cbn [sleeps]. rewrite !app_nil_r.
    split; [unfold fetches at 2; simpl; lia | lia]. }
  assert (Hmeta : d = [] \/ Py.keys d = ["title"; "author"; "date"; "description"]).
  { destruct (fetch_url (fetches tr1) "https://example.com") as [downloaded|e].
    - destruct (Py.truthy_opt downloaded).
      + destruct (extract_metadata (or_empty downloaded)) as [[m|]|e];
          destruct Hd as [-> _]; [right; reflexivity | now left | now left].
      + destruct Hd as [-> _]. now left.
    - destruct Hd as [-> _]. now left. }
  assert (Hfail : forall e x tr, print x = Py.Raise e ->
            (fetches tr <= 4)%nat -> Py.sum_int (sleeps tr) <= 3 ->
            exists o tr',
              (@Py.Raise (list ScraperScript.Output) e, tr) = (o, tr') /\
              (fetches tr' <= 4)%nat /\ Py.sum_int (sleeps tr') <= 3 /\
              match o with
              | Py.Ret out => main_output out /\ Forall (fun x => print x = Py.Ret tt) out
              | Py.Raise e => exists x, print x = Py.Raise e
              end /\
              ((forall x, print x = Py.Ret tt) -> exists out, o = Py.Ret out)).
  { intros e x tr Hx Hf Hs. eexists _, _. split; [reflexivity|].
    split; [exact Hf|]. split; [exact Hs|]. split; [now exists x|].
    intros Hall. rewrite Hall in Hx. discriminate. }
  assert (Hrest : forall about,
            (about = [] \/
             exists content,
               content <> EmptyString /\
               about = [ ScraperScript.Line ("Content length: " ++ Py.str_int (Py.len content)
                                             ++ " characters");
                         ScraperScript.Line (String Re.newline "Preview:");
                         ScraperScript.Line (get_text_preview content 1000) ]) ->
            Forall (fun x => print x = Py.Ret tt) about ->
            exists o tr,
              bindM (get_website_metadata fetch_url extract_metadata "https://example.com")
                (fun metadata =>
                   bindM (ScraperScript.say print
                            (ScraperScript.Line (String Re.newline "Metadata:")) about)
                     (fun printed =>
                        ScraperScript.say print (ScraperScript.Mapping metadata) printed)) tr1
              = (o, tr) /\
              (fetches tr <= 4)%nat /\ Py.sum_int (sleeps tr) <= 3 /\
              match o with
              | Py.Ret out => main_output out /\ Forall (fun x => print x = Py.Ret tt) out
              | Py.Raise e => exists x, print x = Py.Raise e
              end /\
              ((forall x, print x = Py.Ret tt) -> exists out, o = Py.Ret out)).
  { intros about Habout Hprinted. unfold bindM at 1. rewrite Hrun2. unfold bindM.
    destruct (say_cases (ScraperScript.Line (String Re.newline "Metadata:")) about
                (tr1 ++ FetchUrl "https://example.com" :: log)%list)
      as [(Hp1 & ->)|(e & Hp1 & ->)]; [|now apply (Hfail e _ _ Hp1)].
    destruct (say_cases (ScraperScript.Mapping d)
                (about ++ [ScraperScript.Line (String Re.newline "Metadata:")])%list
                (tr1 ++ FetchUrl "https://example.com" :: log)%list)
      as [(Hp2 & ->)|(e & Hp2 & ->)]; [|now apply (Hfail e _ _ Hp2)].
    eexists _, _. split; [reflexivity|].
    split; [apply Hbudget2|]. split; [apply Hbudget2|]. split; [|eauto].
    rewrite <- app_assoc. cbn [app]. split.
    - exists about, d. auto.
    - apply Forall_app. split; [exact Hprinted|]. repeat constructor; assumption. }
  unfold ScraperScript.main. cbv zeta. unfold bindM at 1. rewrite Hrun1.
  unfold bindM at 1.
  destruct r as [text|].
  - destruct Hr as (k & _ & Hok & _). apply attempt_result_nonempty in Hok.
    pose proof Hok as Htruthy. apply truthy_true_iff in Htruthy.
    cbn [Py.truthy_opt or_empty]. rewrite Htruthy.
    destruct Hbudget as (Hf & Hs).
    unfold bindM at 1.
    destruct (say_cases (ScraperScript.Line ("Content length: " ++ Py.str_int (Py.len text)
                                             ++ " characters")) [] tr1)
      as [(Hp1 & ->)|(e & Hp1 & ->)]; [|apply (Hfail e _ _ Hp1); lia].
    unfold bindM at 1.
    destruct (say_cases (ScraperScript.Line (String Re.newline "Preview:"))
                ([] ++ [ScraperScript.Line ("Content length: " ++ Py.str_int (Py.len text)
                                            ++ " characters")])%list tr1)
      as [(Hp2 & ->)|(e & Hp2 & ->)]; [|apply (Hfail e _ _ Hp2); lia].
    destruct (say_cases (ScraperScript.Line (get_text_preview text 1000))
                (([] ++ [ScraperScript.Line ("Content length: " ++ Py.str_int (Py.len text)
                                             ++ " characters")])
                 ++ [ScraperScript.Line (String Re.newline "Preview:")])%list tr1)
      as [(Hp3 & ->)|(e & Hp3 & ->)]; [|apply (Hfail e _ _ Hp3); lia].
    cbn [app]. apply Hrest.
    + right. exists text. split; [exact Hok | reflexivity].
    + repeat constructor; assumption.
  - cbn [Py.truthy_opt]. unfold ret at 1. apply Hrest; [now left | constructor].
Qed.

End ScraperMain.

Lemma analyzer_init_cases_witness :
  AnalyzerScript.__init__ (fun _ => Py.Ret tt) (fun _ => Py.Ret true)
    (fun _ => Py.Ret TextAnalyzer.few_stopwords)
  = Py.Ret (TextAnalyzer.init TextAnalyzer.few_stopwords).
Proof.
  apply (proj1 (analyzer_init_cases (fun _ => Py.Ret tt) (fun _ => Py.Ret true)
                  (fun _ => Py.Ret TextAnalyzer.few_stopwords)));
    [now left | now left | reflexivity].
Defined.

(** ** Theme scores see presence, not frequency *)

Section Presence.
Import TextAnalyzer.

Definition space : ascii := " "%char.

(** A keyword without a space. *)
Definition spaceless (keyword : string) : Prop :=
  Py.all_chars (fun c => negb (Ascii.eqb c space)) keyword = true.

Lemma prefix_before_space (keyword : string) : forall a b : string,
  spaceless keyword ->
  prefix keyword (a ++ String space b) = prefix keyword a.
Proof.
  unfold spaceless.
  induction keyword as [|k keyword IH]; intros a b Hk; [now destruct a|].
  cbn [Py.all_chars] in Hk. apply andb_true_iff in Hk as (Hk0 & Hk).
  destruct a as [|c a]; cbn [append prefix].
  - destruct (ascii_dec k space) as [->|Hne]; [|reflexivity].
    rewrite Ascii.eqb_refl in Hk0. discriminate.
  - destruct (ascii_dec k c); [now apply IH | reflexivity].
Qed.

(** A keyword that is not empty and has no space occurs in two texts
    joined by a space exactly when it occurs in one of them. *)
Lemma contains_joined (keyword : string) (a b : string) :
  keyword <> EmptyString -> spaceless keyword ->
  Py.contains keyword (a ++ String space b) = Py.contains keyword a || Py.contains keyword b.
Proof.
  intros Hne Hk. induction a as [|c a IH].
  - cbn [append Py.contains]. destruct keyword as [|k keyword]; [contradiction|].
    cbn [prefix orb]. unfold spaceless in Hk. cbn [Py.all_chars] in Hk.
    apply andb_true_iff in Hk as (Hk0 & _).
    destruct (ascii_dec k space) as [->|_]; [|reflexivity].
    rewrite Ascii.eqb_refl in Hk0. discriminate.
  - change (String c a ++ String space b) with (String c (a ++ String space b)).
    cbn [Py.contains].
    change (String c (a ++ String space b)) with (String c a ++ String space b).
    rewrite prefix_before_space by exact Hk.
    destruct (prefix keyword (String c a)); [reflexivity | exact IH].
Qed.

(** The keywords of the theme table are not empty and hold no space. *)
Lemma theme_table_spaceless :
  Forall (fun item => Forall (fun keyword => keyword <> EmptyString /\ spaceless keyword)
                             (snd item))
         theme_table.
Proof.
  unfold theme_table, spaceless.
  repeat (constructor; [cbn [snd]; repeat (constructor; [split; [discriminate | reflexivity]|]);
                        constructor|]).
  constructor.
Qed.

Lemma keyword_matches_ext (keywords : list string) (s1 s2 : string) :
  Forall (fun keyword => Py.contains keyword s1 = Py.contains keyword s2) keywords ->
  keyword_matches keywords s1 = keyword_matches keywords s2.
Proof.
  intros H. unfold keyword_matches. f_equal. f_equal.
  induction H as [|k ks Hk Hks IH]; [reflexivity|].
  cbn [filter]. rewrite Hk, IH. reflexivity.
Qed.

(** [analyze_text] scores a theme by which of its keywords occur, not by
    how often: a text written twice, with a space between, gets the scores
    of the text written once, whatever the stopwords. *)
Theorem theme_scores_ignore_repetition (english_stopwords : list string) (text : string) :
  _analyze_themes (init english_stopwords) (text ++ String space text)
  = _analyze_themes (init english_stopwords) text.
Proof.
  rewrite !analyze_themes_spec by apply theme_table_nodup. cbn [themes init].
  f_equal. f_equal. unfold theme_counts.
  pose proof theme_table_spaceless as Htable.
  induction Htable as [|[theme keywords] table Hkeywords Htable IH]; [reflexivity|].
  cbn [map fst snd]. rewrite IH. f_equal. f_equal.
  apply keyword_matches_ext. cbn [snd] in Hkeywords.
  eapply Forall_impl; [|exact Hkeywords].
  intros keyword (Hne & Hk). rewrite contains_joined by assumption.
  apply orb_diag.
Qed.

End Presence.
